(** * A contact-book assistant bot (home_work_3.py)

    Shallow embedding of [home_work_3.py]: the field classes [Phone] and
    [Birthday], the [Record] and [AddressBook] containers, the command
    handlers wrapped by [input_error], and the loop of [main] run on a list
    of input lines.

    Conventions.
    - A Python [str] is a Rocq [string]; the character of code [n] stands
      for the Unicode code point [n], so the model covers the strings whose
      code points are below 256.
    - A raised exception is a value of [exn]; a computation that may raise
      has type [result A].
    - Objects held by the address book are mutated in place by the program;
      every such object is reachable from one binding of the book only, so a
      mutation is modelled by rebinding the updated value at its key. *)

From Stdlib Require Import ZArith List String Ascii Bool Lia DecimalString.
Import ListNotations.

Local Open Scope string_scope.
Local Open Scope Z_scope.

(* ================================================================= *)
(** ** Exceptions *)

Inductive exn : Type :=
| ValueError (msg : string)
| KeyError (msg : string)
| IndexError (msg : string)
| TypeError (msg : string)
| OverflowError (msg : string)
| EOFError (msg : string).

Inductive result (A : Type) : Type :=
| Ok (a : A)
| Raise (e : exn).

Arguments Ok {A} a.
Arguments Raise {A} e.

Definition bind {A B : Type} (m : result A) (k : A -> result B) : result B :=
  match m with
  | Ok a => k a
  | Raise e => Raise e
  end.

Notation "x <- m ;; k" := (bind m (fun x => k))
  (at level 61, m at next level, right associativity).

(* ================================================================= *)
(** ** The built-in string operations the program calls *)

Module Py.

Definition code (c : ascii) : Z := Z.of_N (N_of_ascii c).

Definition chars (s : string) : list ascii := list_ascii_of_string s.

(** [len(s)] *)
Definition len (s : string) : Z := Z.of_nat (String.length s).

(** [c.isspace()]: the white-space code points below 256. *)
Definition isspace (c : ascii) : bool :=
  let n := code c in
  ((9 <=? n) && (n <=? 13)) || ((28 <=? n) && (n <=? 32))
  || (n =? 133) || (n =? 160).

(** A character that [str.isdigit] counts as a digit: the decimal digits,
    and the superscript digits U+00B2, U+00B3 and U+00B9. *)
Definition isdigit_char (c : ascii) : bool :=
  let n := code c in
  ((48 <=? n) && (n <=? 57)) || (n =? 178) || (n =? 179) || (n =? 185).

(** A character matched by [\d] in a regular expression over [str]. *)
Definition isdecimal_char (c : ascii) : bool :=
  let n := code c in (48 <=? n) && (n <=? 57).

(** [s.isdigit()]: every character is a digit and there is at least one. *)
Definition isdigit (s : string) : bool :=
  match chars s with
  | [] => false
  | cs => forallb isdigit_char cs
  end.

(** [c.lower()] on one character. *)
Definition lower_char (c : ascii) : ascii :=
  let n := code c in
  if ((65 <=? n) && (n <=? 90))
     || ((192 <=? n) && (n <=? 222) && negb (n =? 215))
  then ascii_of_N (Z.to_N (n + 32))
  else c.

Fixpoint lower (s : string) : string :=
  match s with
  | EmptyString => EmptyString
  | String c s' => String (lower_char c) (lower s')
  end.

Fixpoint lstrip (s : string) : string :=
  match s with
  | EmptyString => EmptyString
  | String c s' => if isspace c then lstrip s' else s
  end.

(** Drops the trailing white space: a character is kept when something
    after it is kept, or when it is not white space itself. *)
Fixpoint rstrip (s : string) : string :=
  match s with
  | EmptyString => EmptyString
  | String c s' =>
      match rstrip s' with
      | EmptyString => if isspace c then EmptyString else String c EmptyString
      | r => String c r
      end
  end.

(** [s.strip()] *)
Definition strip (s : string) : string := rstrip (lstrip s).

(** The scan behind [s.split()]: [cur] is the word being read, most
    recent character first. *)
Definition flush (cur : list ascii) (k : list string) : list string :=
  match cur with
  | [] => k
  | _ => string_of_list_ascii (rev cur) :: k
  end.

Fixpoint split_go (cs : list ascii) (cur : list ascii) : list string :=
  match cs with
  | [] => flush cur []
  | c :: cs' =>
      if isspace c then flush cur (split_go cs' [])
      else split_go cs' (c :: cur)
  end.

(** [s.split()]: the maximal runs of characters that are not white space. *)
Definition split (s : string) : list string := split_go (chars s) [].

(** [sep.join(l)] *)
Fixpoint join (sep : string) (l : list string) : string :=
  match l with
  | [] => ""
  | [x] => x
  | x :: l' => x ++ sep ++ join sep l'
  end.

(** The decimal numeral of a digit string, as [int] reads it. *)
Definition digit_val (c : ascii) : Z := code c - 48.

Fixpoint int_go (cs : list ascii) (acc : Z) : Z :=
  match cs with
  | [] => acc
  | c :: cs' => int_go cs' (10 * acc + digit_val c)
  end.

Definition int_of_digits (cs : list ascii) : Z := int_go cs 0.

End Py.

(* ================================================================= *)
(** ** [repr] and decimal printing *)

Module Repr.

Definition of_Z (n : Z) : string :=
  DecimalString.NilZero.string_of_int (Z.to_int n).

Definition hex_digit (n : Z) : ascii :=
  if n <? 10 then ascii_of_N (Z.to_N (48 + n))
  else ascii_of_N (Z.to_N (87 + n)).

Definition hex_escape (c : ascii) : string :=
  let n := Py.code c in
  String "\" (String "x" (String (hex_digit (n / 16))
                                (String (hex_digit (n mod 16)) EmptyString))).

(** The printable code points below 256. *)
Definition isprintable (c : ascii) : bool :=
  let n := Py.code c in
  ((32 <=? n) && (n <? 127)) || ((161 <=? n) && negb (n =? 173)).

Definition has_char (q : ascii) (s : string) : bool :=
  existsb (Ascii.eqb q) (Py.chars s).

(** The double-quote character. *)
Definition dquote : ascii := ascii_of_N 34.

Definition quote_of (s : string) : ascii :=
  if has_char "'" s && negb (has_char dquote s) then dquote else "'"%char.

Definition escape_char (q c : ascii) : string :=
  let n := Py.code c in
  if Ascii.eqb c q || (n =? 92) then String "\" (String c EmptyString)
  else if n =? 9 then "\t"
  else if n =? 10 then "\n"
  else if n =? 13 then "\r"
  else if isprintable c then String c EmptyString
  else hex_escape c.

Fixpoint escape (q : ascii) (s : string) : string :=
  match s with
  | EmptyString => EmptyString
  | String c s' => escape_char q c ++ escape q s'
  end.

(** [repr(s)] for a [str]. *)
Definition of_str (s : string) : string :=
  let q := quote_of s in
  String q (escape q s ++ String q EmptyString).

(** [repr(l)] for a list of [str]. *)
Definition of_list (l : list string) : string :=
  "[" ++ Py.join ", " (map of_str l) ++ "]".

End Repr.

(* ================================================================= *)
(** ** [datetime.date], as far as the program uses it *)

Module Datetime.

Record date : Type := mkdate { year : Z; month : Z; day : Z }.

Definition MINYEAR : Z := 1.
Definition MAXYEAR : Z := 9999.
Definition MAXORDINAL : Z := 3652059.

Definition is_leap (y : Z) : bool :=
  (y mod 4 =? 0) && (negb (y mod 100 =? 0) || (y mod 400 =? 0)).

Definition DAYS_IN_MONTH (m : Z) : Z :=
  match m with
  | 1 => 31 | 2 => 28 | 3 => 31 | 4 => 30 | 5 => 31 | 6 => 30
  | 7 => 31 | 8 => 31 | 9 => 30 | 10 => 31 | 11 => 30 | 12 => 31
  | _ => -1
  end.

Definition DAYS_BEFORE_MONTH (m : Z) : Z :=
  match m with
  | 1 => 0 | 2 => 31 | 3 => 59 | 4 => 90 | 5 => 120 | 6 => 151
  | 7 => 181 | 8 => 212 | 9 => 243 | 10 => 273 | 11 => 304 | 12 => 334
  | _ => -1
  end.

Definition days_before_year (y : Z) : Z :=
  let y := y - 1 in y * 365 + y / 4 - y / 100 + y / 400.

Definition days_in_month (y m : Z) : Z :=
  if (m =? 2) && is_leap y then 29 else DAYS_IN_MONTH m.

Definition days_before_month (y m : Z) : Z :=
  DAYS_BEFORE_MONTH m + (if (2 <? m) && is_leap y then 1 else 0).

Definition ymd2ord (y m d : Z) : Z :=
  days_before_year y + days_before_month y m + d.

Definition DI400Y : Z := 146097.
Definition DI100Y : Z := 36524.
Definition DI4Y : Z := 1461.

(** The end of [_ord2ymd]: month and day of the day numbered [n] (from 0)
    of a year; the month is estimated, then corrected. *)
Definition month_day (n : Z) (leapyear : bool) : Z * Z :=
  let m := Z.shiftr (n + 50) 5 in
  let preceding :=
    DAYS_BEFORE_MONTH m + (if (2 <? m) && leapyear then 1 else 0) in
  if n <? preceding then
    let m := m - 1 in
    let preceding :=
      preceding - (DAYS_IN_MONTH m + (if (m =? 2) && leapyear then 1 else 0)) in
    (m, n - preceding + 1)
  else (m, n - preceding + 1).

Definition ord2ymd (n : Z) : date :=
  let n := n - 1 in
  let n400 := n / DI400Y in
  let n := n mod DI400Y in
  let y := n400 * 400 + 1 in
  let n100 := n / DI100Y in
  let n := n mod DI100Y in
  let n4 := n / DI4Y in
  let n := n mod DI4Y in
  let n1 := n / 365 in
  let n := n mod 365 in
  let y := y + n100 * 100 + n4 * 4 + n1 in
  if (n1 =? 4) || (n100 =? 4) then mkdate (y - 1) 12 31
  else
    let leapyear := (n1 =? 3) && (negb (n4 =? 24) || (n100 =? 3)) in
    let '(m, d) := month_day n leapyear in
    mkdate y m d.

(** The checks of the [date] constructor, with the texts of its errors. *)
Definition check_date_fields (y m d : Z) : result unit :=
  if (y <? MINYEAR) || (MAXYEAR <? y)
  then Raise (ValueError ("year " ++ Repr.of_Z y ++ " is out of range"))
  else if (m <? 1) || (12 <? m)
  then Raise (ValueError "month must be in 1..12")
  else if (d <? 1) || (days_in_month y m <? d)
  then Raise (ValueError "day is out of range for month")
  else Ok tt.

(** [date(y, m, d)] *)
Definition make (y m d : Z) : result date :=
  _ <- check_date_fields y m d ;; Ok (mkdate y m d).

(** [d.replace(year=y)] *)
Definition replace_year (d : date) (y : Z) : result date :=
  make y (month d) (day d).

Definition toordinal (d : date) : Z := ymd2ord (year d) (month d) (day d).

Definition fromordinal (n : Z) : date := ord2ymd n.

(** [a < b] *)
Definition ltb (a b : date) : bool :=
  (year a <? year b)
  || ((year a =? year b)
      && ((month a <? month b)
          || ((month a =? month b) && (day a <? day b)))).

(** [(a - b).days] *)
Definition sub_days (a b : date) : Z := toordinal a - toordinal b.

(** [d + timedelta(days=k)] *)
Definition add_days (d : date) (k : Z) : result date :=
  let o := toordinal d + k in
  if (0 <? o) && (o <=? MAXORDINAL) then Ok (fromordinal o)
  else Raise (OverflowError "date value out of range").

(** [d.weekday()]: Monday is 0. *)
Definition weekday (d : date) : Z := (toordinal d + 6) mod 7.

Definition day_name (w : Z) : string :=
  match w with
  | 0 => "Monday" | 1 => "Tuesday" | 2 => "Wednesday" | 3 => "Thursday"
  | 4 => "Friday" | 5 => "Saturday" | _ => "Sunday"
  end.

(** [d.strftime("%A")], in the C locale the interpreter starts in. *)
Definition strftime_A (d : date) : string := day_name (weekday d).

(** A date the constructor accepts. *)
Definition valid (d : date) : Prop :=
  MINYEAR <= year d <= MAXYEAR /\ 1 <= month d <= 12
  /\ 1 <= day d <= days_in_month (year d) (month d).

End Datetime.

(* ================================================================= *)
(** ** [datetime.strptime(value, '%d.%m.%Y')]

    The library turns the format into the regular expression
    [(3[0-1]|[1-2]\d|0[1-9]|[1-9]| [1-9])\.(1[0-2]|0[1-9]|[1-9])\.(\d\d\d\d)],
    matches it at the start of the text with backtracking over the
    alternatives in the order written, refuses text left over after the
    match, and builds the date from the three numbers. *)

Module Strptime.

Definition cls : Type := ascii -> bool.

Definition lit (a : ascii) : cls := Ascii.eqb a.

Definition rng (lo hi : ascii) : cls :=
  fun c => (Py.code lo <=? Py.code c) && (Py.code c <=? Py.code hi).

Definition digit : cls := Py.isdecimal_char.

(** One alternative: a sequence of character classes. It gives the text
    matched and the text that follows. *)
Fixpoint match_seq (ps : list cls) (cs : list ascii)
  : option (list ascii * list ascii) :=
  match ps with
  | [] => Some ([], cs)
  | p :: ps' =>
      match cs with
      | [] => None
      | c :: cs' =>
          if p c then
            match match_seq ps' cs' with
            | Some (m, r) => Some (c :: m, r)
            | None => None
            end
          else None
      end
  end.

(** The alternatives of a group that match, in the order written. *)
Definition alts (g : list (list cls)) (cs : list ascii)
  : list (list ascii * list ascii) :=
  flat_map (fun a => match match_seq a cs with
                     | Some x => [x]
                     | None => []
                     end) g.

Fixpoint first_some {A B : Type} (f : A -> option B) (l : list A) : option B :=
  match l with
  | [] => None
  | x :: l' => match f x with
               | Some b => Some b
               | None => first_some f l'
               end
  end.

(** A sequence of groups: the first way to match all of them. *)
Fixpoint match_groups (gs : list (list (list cls))) (cs : list ascii)
  : option (list (list ascii) * list ascii) :=
  match gs with
  | [] => Some ([], cs)
  | g :: gs' =>
      first_some
        (fun mr : list ascii * list ascii =>
           match match_groups gs' (snd mr) with
           | Some (ms, r) => Some (fst mr :: ms, r)
           | None => None
           end)
        (alts g cs)
  end.

Definition day_re : list (list cls) :=
  [ [lit "3"; rng "0" "1"]; [rng "1" "2"; digit]; [lit "0"; rng "1" "9"];
    [rng "1" "9"]; [lit " "; rng "1" "9"] ].

Definition month_re : list (list cls) :=
  [ [lit "1"; rng "0" "2"]; [lit "0"; rng "1" "9"]; [rng "1" "9"] ].

Definition year_re : list (list cls) := [ [digit; digit; digit; digit] ].

Definition dot_re : list (list cls) := [ [lit "."] ].

Definition format_re : list (list (list cls)) :=
  [day_re; dot_re; month_re; dot_re; year_re].

(** [int(text)] for a matched group: white space around the digits is
    ignored. *)
Definition int_of (m : list ascii) : Z :=
  Py.int_of_digits (filter (fun c => negb (Py.isspace c)) m).

Definition format_repr : string := Repr.of_str "%d.%m.%Y".

Definition strptime (value : string) : result Datetime.date :=
  match match_groups format_re (Py.chars value) with
  | Some ([d; _; m; _; y], []) =>
      Datetime.make (int_of y) (int_of m) (int_of d)
  | Some (_, r) =>
      Raise (ValueError ("unconverted data remains: " ++ string_of_list_ascii r))
  | None =>
      Raise (ValueError ("time data " ++ Repr.of_str value
                         ++ " does not match format " ++ format_repr))
  end.

End Strptime.

(* ================================================================= *)
(** ** Values handed to the handlers

    The handlers are annotated to take a list of [str]; the loop of [main]
    hands them a list whose single element is itself a list of [str]. Both
    kinds of element are values of [pyval]. *)

Inductive pyval : Type :=
| PStr (s : string)
| PList (l : list string).

(** [str(v)], which is also what an f-string prints for [v]. *)
Definition py_str (v : pyval) : string :=
  match v with
  | PStr s => s
  | PList l => Repr.of_list l
  end.

(** [v == w] *)
Definition py_eqb (v w : pyval) : bool :=
  match v, w with
  | PStr s, PStr t => String.eqb s t
  | PList l, PList k => if list_eq_dec string_dec l k then true else false
  | _, _ => false
  end.

(** The line-feed character, as a string. *)
Definition nl : string := String (ascii_of_N 10) EmptyString.

(* ================================================================= *)
(** ** Fields *)

(** [Field]: an object with the one attribute [value]. *)
Record Field : Type := mkField { value : pyval }.

(** [str(field)] *)
Definition Field_str (f : Field) : string := py_str (value f).

(** [Name(value)] *)
Definition Name (v : pyval) : Field := mkField v.

Definition phone_error : string :=
  "Invalid phone number format. Must be a string of 10 digits.".

(** [Phone(value)] *)
Definition Phone (v : pyval) : result Field :=
  match v with
  | PStr s =>
      if negb (Py.isdigit s) || negb (Py.len s =? 10)
      then Raise (ValueError phone_error)
      else Ok (mkField v)
  | PList _ => Raise (ValueError phone_error)
  end.

Definition birthday_error : string :=
  "Invalid birthday format. Must be in the format DD.MM.YYYY.".

(** [datetime.strptime(v, '%d.%m.%Y')] on any value. *)
Definition strptime (v : pyval) : result Datetime.date :=
  match v with
  | PStr s => Strptime.strptime s
  | PList _ => Raise (TypeError "strptime() argument 1 must be str, not list")
  end.

(** [Birthday(value)]: a [ValueError] of the parser is replaced by the
    class's own; any other exception passes through. *)
Definition Birthday (v : pyval) : result Field :=
  match strptime v with
  | Ok _ => Ok (mkField v)
  | Raise (ValueError _) => Raise (ValueError birthday_error)
  | Raise e => Raise e
  end.

(* ================================================================= *)
(** ** Records *)

Module PyRecord.

Record t : Type := mk {
  name : Field;
  phones : list Field;
  birthday : option Field
}.

(** [Record(name)] *)
Definition new (n : pyval) : t := mk (Name n) [] None.

Definition add_phone (r : t) (phone_number : pyval) : result t :=
  phone <- Phone phone_number ;;
  Ok (mk (name r) (phones r ++ [phone]) (birthday r)).

Definition remove_phone (r : t) (phone_number : pyval) : t :=
  mk (name r)
     (filter (fun phone => negb (py_eqb (value phone) phone_number)) (phones r))
     (birthday r).

(** The loop of [edit_phone]: every phone whose value equals
    [old_phone_number] has its value overwritten. *)
Definition edit_phone (r : t) (old_phone_number new_phone_number : pyval) : t :=
  mk (name r)
     (map (fun phone =>
             if py_eqb (value phone) old_phone_number
             then mkField new_phone_number
             else phone)
          (phones r))
     (birthday r).

Definition add_birthday (r : t) (b : pyval) : result t :=
  f <- Birthday b ;;
  Ok (mk (name r) (phones r) (Some f)).

(** [str(self.birthday)] inside the f-string of [__str__]. *)
Definition birthday_str (b : option Field) : string :=
  match b with
  | Some f => Field_str f
  | None => "None"
  end.

(** [str(record)] *)
Definition str (r : t) : string :=
  let phones_str := Py.join "; " (map Field_str (phones r)) in
  "Contact name: " ++ py_str (value (name r)) ++ ", phones: " ++ phones_str
  ++ ", birthday: " ++ birthday_str (birthday r).

End PyRecord.

(* ================================================================= *)
(** ** The address book

    [data] is a [dict]: it is kept as the list of its bindings in insertion
    order, with one binding per key. Its keys are hashed, so only a [str]
    can be one. *)

Module AddressBook.

Record t : Type := mk { data : list (string * PyRecord.t) }.

(** [AddressBook()] *)
Definition empty : t := mk [].

Definition unhashable : exn := TypeError "unhashable type: 'list'".

(** [hash(k)] as far as it matters: the key, or the error. *)
Definition key (k : pyval) : result string :=
  match k with
  | PStr s => Ok s
  | PList _ => Raise unhashable
  end.

Fixpoint lookup (k : string) (d : list (string * PyRecord.t)) : option PyRecord.t :=
  match d with
  | [] => None
  | (k', r) :: d' => if String.eqb k k' then Some r else lookup k d'
  end.

(** [d[k] = r]: an existing binding keeps its place, a new one goes last. *)
Fixpoint store (k : string) (r : PyRecord.t) (d : list (string * PyRecord.t))
  : list (string * PyRecord.t) :=
  match d with
  | [] => [(k, r)]
  | (k', r') :: d' =>
      if String.eqb k k' then (k', r) :: d' else (k', r') :: store k r d'
  end.

Fixpoint remove (k : string) (d : list (string * PyRecord.t))
  : list (string * PyRecord.t) :=
  match d with
  | [] => []
  | (k', r') :: d' =>
      if String.eqb k k' then d' else (k', r') :: remove k d'
  end.

Definition add_record (book : t) (record : PyRecord.t) : result t :=
  k <- key (value (PyRecord.name record)) ;;
  Ok (mk (store k record (data book))).

(** [self.data.get(name)] *)
Definition find (book : t) (n : pyval) : result (option PyRecord.t) :=
  k <- key n ;;
  Ok (lookup k (data book)).

Definition delete (book : t) (n : pyval) : result t :=
  k <- key n ;;
  Ok (mk (remove k (data book))).

(** [self.data.values()] *)
Definition values (book : t) : list PyRecord.t := map snd (data book).

(** A [defaultdict(list)] keyed by day name, in insertion order. *)
Definition groups : Type := list (string * list pyval).

(** [g[k]] without inserting. *)
Fixpoint group (k : string) (g : groups) : option (list pyval) :=
  match g with
  | [] => None
  | (k', l) :: g' => if String.eqb k k' then Some l else group k g'
  end.

(** [g[k].append(v)] *)
Fixpoint append (k : string) (v : pyval) (g : groups) : groups :=
  match g with
  | [] => [(k, [v])]
  | (k', l) :: g' =>
      if String.eqb k k' then (k', (l ++ [v])%list) :: g'
      else (k', l) :: append k v g'
  end.

(** The date the loop calls [birthday_this_year] once past the roll-over. *)
Definition birthday_this_year (today : Datetime.date) (b : Field)
  : result Datetime.date :=
  birthday_date <- strptime (value b) ;;
  this_year <- Datetime.replace_year birthday_date (Datetime.year today) ;;
  if Datetime.ltb this_year today
  then Datetime.replace_year this_year (Datetime.year today + 1)
  else Ok this_year.

(** The name of the day a selected birthday is filed under. *)
Definition birthday_day (today : Datetime.date) (delta_days : Z) : result string :=
  d <- Datetime.add_days today delta_days ;;
  let birthday_day := Datetime.strftime_A d in
  if String.eqb birthday_day "Saturday" || String.eqb birthday_day "Sunday"
  then Ok "Monday"
  else Ok birthday_day.

(** One turn of the loop of [get_birthdays_per_week]. *)
Definition visit (today : Datetime.date) (record : PyRecord.t) (acc : groups)
  : result groups :=
  match PyRecord.birthday record with
  | None => Ok acc
  | Some b =>
      occurrence <- birthday_this_year today b ;;
      let delta_days := Datetime.sub_days occurrence today in
      if delta_days <? 7 then
        day <- birthday_day today delta_days ;;
        Ok (append day (value (PyRecord.name record)) acc)
      else Ok acc
  end.

Fixpoint visit_all (today : Datetime.date) (records : list PyRecord.t)
                   (acc : groups) : result groups :=
  match records with
  | [] => Ok acc
  | record :: rest =>
      acc' <- visit today record acc ;;
      visit_all today rest acc'
  end.

(** [get_birthdays_per_week], with the date read from the clock as an
    argument. *)
Definition get_birthdays_per_week (book : t) (today : Datetime.date)
  : result groups :=
  visit_all today (values book) [].

End AddressBook.

(* ================================================================= *)
(** ** The command handlers *)

(** What a handler's body does: it raises, or it returns its reply and
    leaves the book in a new state. No handler changes the book before it
    raises, so after a raise the book is the one the handler was given. *)
Definition body (X : Type) : Type :=
  X -> AddressBook.t -> result (AddressBook.t * string).

(** A decorated handler: the state of the book afterwards, and the reply or
    the exception that escapes. *)
Definition handler (X : Type) : Type :=
  X -> AddressBook.t -> AddressBook.t * result string.

Definition not_found_reply : string := "Contact not found.".
Definition not_enough_reply : string := "Not enough arguments provided.".

(** The decorator [input_error]. *)
Definition input_error {X : Type} (func : body X) : handler X :=
  fun args book =>
    match func args book with
    | Ok (book', reply) => (book', Ok reply)
    | Raise (ValueError msg) => (book, Ok msg)
    | Raise (KeyError _) => (book, Ok not_found_reply)
    | Raise (IndexError _) => (book, Ok not_enough_reply)
    | Raise e => (book, Raise e)
    end.

(** [a, b = args] *)
Definition unpack2 (args : list pyval) : result (pyval * pyval) :=
  match args with
  | [a; b] => Ok (a, b)
  | [] | [_] =>
      Raise (ValueError ("not enough values to unpack (expected 2, got "
                         ++ Repr.of_Z (Z.of_nat (List.length args)) ++ ")"))
  | _ => Raise (ValueError "too many values to unpack (expected 2)")
  end.

(** [l[0]] *)
Definition index0 {A : Type} (l : list A) : result A :=
  match l with
  | x :: _ => Ok x
  | [] => Raise (IndexError "list index out of range")
  end.

(** [sep.join(names)] where the items may fail to be [str]. *)
Fixpoint str_items (i : Z) (l : list pyval) : result (list string) :=
  match l with
  | [] => Ok []
  | PStr s :: l' => rest <- str_items (i + 1) l' ;; Ok (s :: rest)
  | PList _ :: _ =>
      Raise (TypeError ("sequence item " ++ Repr.of_Z i
                        ++ ": expected str instance, list found"))
  end.

Definition join_values (sep : string) (l : list pyval) : result string :=
  items <- str_items 0 l ;; Ok (Py.join sep items).

Definition contact_missing (n : pyval) : string :=
  "Contact " ++ py_str n ++ " not found.".

(** The record found under [n] was mutated in place into [record]: the
    book now holds the new state under the same key, at the same place. *)
Definition rebind (book : AddressBook.t) (n : pyval) (record : PyRecord.t)
  : result AddressBook.t :=
  k <- AddressBook.key n ;;
  Ok (AddressBook.mk (AddressBook.store k record (AddressBook.data book))).

Definition add_contact_body : body (list pyval) := fun args book =>
  p <- unpack2 args ;;
  let '(name, phone) := p in
  let record := PyRecord.new name in
  record <- PyRecord.add_phone record phone ;;
  book' <- AddressBook.add_record book record ;;
  Ok (book', "Contact added.").

Definition add_contact : handler (list pyval) := input_error add_contact_body.

Definition change_contact_body : body (list pyval) := fun args book =>
  p <- unpack2 args ;;
  let '(name, new_phone) := p in
  found <- AddressBook.find book name ;;
  match found with
  | Some record =>
      first <- index0 (PyRecord.phones record) ;;
      let record' := PyRecord.edit_phone record (value first) new_phone in
      book' <- rebind book name record' ;;
      Ok (book', "Contact updated.")
  | None => Ok (book, contact_missing name)
  end.

Definition change_contact : handler (list pyval) := input_error change_contact_body.

Definition show_phone_body : body (list pyval) := fun args book =>
  name <- index0 args ;;
  found <- AddressBook.find book name ;;
  match found with
  | Some record =>
      first <- index0 (PyRecord.phones record) ;;
      Ok (book, py_str name ++ "'s phone number: " ++ Field_str first)
  | None => Ok (book, contact_missing name)
  end.

Definition show_phone : handler (list pyval) := input_error show_phone_body.

Definition show_all_body : body unit := fun _ book =>
  match AddressBook.data book with
  | [] => Ok (book, "No contacts found.")
  | _ =>
      let result :=
        fold_left (fun acc record => acc ++ PyRecord.str record ++ nl)
                  (AddressBook.values book) ("All contacts:" ++ nl) in
      Ok (book, Py.strip result)
  end.

Definition show_all : handler unit := input_error show_all_body.

Definition add_birthday_body : body (list pyval) := fun args book =>
  p <- unpack2 args ;;
  let '(name, birthday) := p in
  found <- AddressBook.find book name ;;
  match found with
  | Some record =>
      record' <- PyRecord.add_birthday record birthday ;;
      book' <- rebind book name record' ;;
      Ok (book', "Birthday added.")
  | None => Ok (book, contact_missing name)
  end.

Definition add_birthday : handler (list pyval) := input_error add_birthday_body.

Definition show_birthday_body : body (list pyval) := fun args book =>
  name <- index0 args ;;
  found <- AddressBook.find book name ;;
  match found with
  | Some record =>
      match PyRecord.birthday record with
      | Some b => Ok (book, py_str name ++ "'s birthday: " ++ Field_str b)
      | None => Ok (book, py_str name ++ " has no birthday specified.")
      end
  | None => Ok (book, contact_missing name)
  end.

Definition show_birthday : handler (list pyval) := input_error show_birthday_body.

Definition no_birthdays_reply : string := "No birthdays in the next week.".
Definition birthdays_header : string := "Birthdays for the next week:".

(** The loop of [show_birthdays] over the items of the mapping. *)
Fixpoint birthday_lines (g : AddressBook.groups) (acc : string) : result string :=
  match g with
  | [] => Ok acc
  | (day, names) :: g' =>
      joined <- join_values ", " names ;;
      birthday_lines g' (acc ++ day ++ ": " ++ joined ++ nl)
  end.

(** [show_birthdays]; [today] is the date its call of
    [get_birthdays_per_week] reads from the clock. *)
Definition show_birthdays_body (today : Datetime.date) : body unit := fun _ book =>
  birthdays_per_week <- AddressBook.get_birthdays_per_week book today ;;
  match birthdays_per_week with
  | [] => Ok (book, no_birthdays_reply)
  | _ =>
      result <- birthday_lines birthdays_per_week (birthdays_header ++ nl) ;;
      Ok (book, Py.strip result)
  end.

Definition show_birthdays (today : Datetime.date) : handler unit :=
  input_error (show_birthdays_body today).

(* ================================================================= *)
(** ** The command loop *)

(** [parse_input]: [cmd, *args = user_input.split()] needs one word at
    least. *)
Definition parse_input (user_input : string) : result (string * list string) :=
  match Py.split user_input with
  | [] =>
      Raise (ValueError "not enough values to unpack (expected at least 1, got 0)")
  | cmd :: args => Ok (Py.lower (Py.strip cmd), args)
  end.

(** What one turn of the loop of [main] ends in. *)
Inductive outcome : Type :=
| Printed (line : string)   (* a reply was printed; the loop goes on *)
| Break (line : string)     (* the farewell was printed; the loop ends *)
| Crash (e : exn).          (* an exception left the loop *)

Definition print (book_reply : AddressBook.t * result string)
  : AddressBook.t * outcome :=
  match book_reply with
  | (book, Ok reply) => (book, Printed reply)
  | (book, Raise e) => (book, Crash e)
  end.

(** One turn of the loop, for the line [user_input]. The unpacking
    [command, *args = parse_input(user_input)] of the pair that
    [parse_input] returns binds [args] to a list of one element, the list of
    the words after the command. *)
Definition main_step (today : Datetime.date) (user_input : string)
                     (book : AddressBook.t) : AddressBook.t * outcome :=
  match parse_input user_input with
  | Raise e => (book, Crash e)
  | Ok (command, words) =>
      let args := [PList words] in
      if String.eqb command "close" || String.eqb command "exit"
      then (book, Break "Good bye!")
      else if String.eqb command "hello" then (book, Printed "How can I help you?")
      else if String.eqb command "add" then print (add_contact args book)
      else if String.eqb command "change" then print (change_contact args book)
      else if String.eqb command "phone" then print (show_phone args book)
      else if String.eqb command "all" then print (show_all tt book)
      else if String.eqb command "add-birthday" then print (add_birthday args book)
      else if String.eqb command "show-birthday" then print (show_birthday args book)
      else if String.eqb command "birthdays" then print (show_birthdays today tt book)
      else (book, Printed "Invalid command.")
  end.

(** How the process ends. *)
Inductive ending : Type :=
| Finished
| Died (e : exn).

(** The loop of [main] fed the lines [inputs]; when they run out, [input]
    raises [EOFError]. The date is taken to be the same at every turn. *)
Fixpoint main_loop (today : Datetime.date) (inputs : list string)
                   (book : AddressBook.t) : list string * ending :=
  match inputs with
  | [] => ([], Died (EOFError "EOF when reading a line"))
  | user_input :: rest =>
      match main_step today user_input book with
      | (book', Printed line) =>
          let '(out, e) := main_loop today rest book' in (line :: out, e)
      | (_, Break line) => ([line], Finished)
      | (_, Crash e) => ([], Died e)
      end
  end.

Definition main (today : Datetime.date) (inputs : list string)
  : list string * ending :=
  let '(out, e) := main_loop today inputs AddressBook.empty in
  ("Welcome to the assistant bot!" :: out, e).

(* ================================================================= *)
(** ** Calls of the handlers in sequence *)

(** A call of one of the seven handlers that read or change the book, with
    the argument list it is given. *)
Inductive call : Type :=
| Add (args : list pyval)
| Change (args : list pyval)
| ShowPhone (args : list pyval)
| ShowAll
| AddBirthday (args : list pyval)
| ShowBirthday (args : list pyval)
| Birthdays.

Definition perform (today : Datetime.date) (c : call) (book : AddressBook.t)
  : AddressBook.t * result string :=
  match c with
  | Add args => add_contact args book
  | Change args => change_contact args book
  | ShowPhone args => show_phone args book
  | ShowAll => show_all tt book
  | AddBirthday args => add_birthday args book
  | ShowBirthday args => show_birthday args book
  | Birthdays => show_birthdays today tt book
  end.

(** The book after the calls [cs], made one after the other. *)
Definition run (today : Datetime.date) (cs : list call) (book : AddressBook.t)
  : AddressBook.t :=
  fold_left (fun b c => fst (perform today c b)) cs book.

(** Argument lists as the annotations of the handlers describe them. *)
Definition strs (l : list string) : list pyval := map PStr l.

(* ================================================================= *)
(** ** Vocabulary of the properties *)

(** The test [Phone] runs, spelled out: ten characters, each of which
    [str.isdigit] counts as a digit (the decimal digits, and the superscript
    digits as well). *)
Definition ten_isdigit_chars (s : string) : Prop :=
  String.length s = 10%nat
  /\ Forall (fun c => Py.isdigit_char c = true) (Py.chars s).

(** A string of exactly ten decimal digits. *)
Definition ten_decimal_digits (v : pyval) : bool :=
  match v with
  | PStr s => (Py.len s =? 10) && forallb Py.isdecimal_char (Py.chars s)
  | PList _ => false
  end.

(** Every phone value held by the book passes [p]. *)
Definition all_phones (p : pyval -> bool) (book : AddressBook.t) : bool :=
  forallb (fun r => forallb (fun f => p (value f)) (PyRecord.phones r))
          (AddressBook.values book).

(** The phones of a record once [change_contact] has run on it: [first] is
    the phone at the head, [rest] the others. *)
Definition changed_phones (first : Field) (rest : list Field) (new_phone : pyval)
  : list Field :=
  mkField new_phone
  :: map (fun phone => if py_eqb (value phone) (value first)
                       then mkField new_phone else phone) rest.

(** The text of the error of [a, b = args] for a list that is too short. *)
Definition unpack_short (got : string) : string :=
  "not enough values to unpack (expected 2, got " ++ got ++ ")".

(** The error of [cmd, *args = []]. *)
Definition unpack_empty_line : exn :=
  ValueError "not enough values to unpack (expected at least 1, got 0)".

(** [n] is in the list filed under [day]. *)
Definition listed (day : string) (n : pyval) (g : AddressBook.groups) : Prop :=
  exists names, AddressBook.group day g = Some names /\ In n names.

(** The group of a birthday that falls on day [w] of the week. *)
Definition filed_under (w : Z) : string :=
  if (w =? 5) || (w =? 6) then "Monday" else Datetime.day_name w.

(** Every birthday held by the book is one that [Birthday] accepted. *)
Definition birthdays_checked (book : AddressBook.t) : Prop :=
  forall r b, In r (AddressBook.values book) -> PyRecord.birthday r = Some b ->
              exists d, strptime (value b) = Ok d.

(** Every birthday held by the book is a date [Birthday] accepted, and
    none is a 29 February. *)
Definition no_leap_day (book : AddressBook.t) : Prop :=
  forall r b, In r (AddressBook.values book) -> PyRecord.birthday r = Some b ->
    exists d, strptime (value b) = Ok d
              /\ ~ (Datetime.month d = 2 /\ Datetime.day d = 29).

(** The texts of the errors that replacing the year of a date can raise
    here: the day does not exist in the new year, or the new year is past
    the last one. *)
Definition day_out_of_range : string := "day is out of range for month".
Definition year_out_of_range : string := "year 10000 is out of range".

Definition replace_error (msg : string) : Prop :=
  msg = day_out_of_range \/ msg = year_out_of_range.

(** 29 February of this year does not exist, or it is already past. *)
Definition leap_day_unavailable (today : Datetime.date) : Prop :=
  Datetime.is_leap (Datetime.year today) = false
  \/ Datetime.ltb (Datetime.mkdate (Datetime.year today) 2 29) today = true.

(** [s] begins with [p]. *)
Definition starts_with (p s : string) : bool := String.prefix p s.

(** What [month_day] has to deliver for day [r] of a year. *)
Definition month_day_ok (leap : bool) (r : Z) : bool :=
  let '(m, d) := Datetime.month_day r leap in
  (1 <=? m) && (m <=? 12) && (1 <=? d)
  && (d <=? Datetime.DAYS_IN_MONTH m + (if (m =? 2) && leap then 1 else 0))
  && (Datetime.DAYS_BEFORE_MONTH m + (if (2 <? m) && leap then 1 else 0) + d
      =? r + 1).

(* ================================================================= *)
(** ** Sample books and dates *)

(** The character SUPERSCRIPT TWO (U+00B2), and a string of ten of them. *)
Definition superscript_two : ascii := ascii_of_N 178.

Definition ten_superscripts : string :=
  string_of_list_ascii (repeat superscript_two 10).

Definition john : PyRecord.t :=
  PyRecord.mk (Name (PStr "John")) [mkField (PStr "1234567890")] None.

Definition book_john : AddressBook.t := AddressBook.mk [("John", john)].

(** A contact that was stored without a phone, as
    [book.add_record(Record("Ann"))] leaves it. *)
Definition book_ann : AddressBook.t :=
  AddressBook.mk [("Ann", PyRecord.new (PStr "Ann"))].

(** A contact holding the same number twice, as two calls of
    [record.add_phone("1111111111")] around one of
    [record.add_phone("2222222222")] leave it. *)
Definition book_twice : AddressBook.t :=
  AddressBook.mk
    [("Bob", PyRecord.mk (Name (PStr "Bob"))
               [mkField (PStr "1111111111"); mkField (PStr "2222222222");
                mkField (PStr "1111111111")] None)].

(** A contact with one phone and a birthday. *)
Definition contact (n phone : string) (b : string) : string * PyRecord.t :=
  (n, PyRecord.mk (Name (PStr n)) [mkField (PStr phone)] (Some (mkField (PStr b)))).

Definition book_new_year : AddressBook.t :=
  AddressBook.mk [contact "John" "1234567890" "01.01.1990"].

Definition book_leap_day : AddressBook.t :=
  AddressBook.mk [contact "Ann" "1234567890" "01.01.1990";
                  contact "Bob" "0987654321" "29.02.2000"].

Definition book_weekend : AddressBook.t :=
  AddressBook.mk [contact "Kate" "1234567890" "04.01.1990"].

Definition new_years_eve_2024 : Datetime.date := Datetime.mkdate 2024 12 31.

(* ================================================================= *)
(** ** Books as the handlers leave them *)

(** The keys of the book, in the order of [data]. *)
Definition keys (book : AddressBook.t) : list string :=
  map fst (AddressBook.data book).

(** What holds of the [dict] and of the records the handlers put in it: a
    name is bound once, a record is bound under the value of its own name,
    and it holds one phone. *)
Definition well_formed (book : AddressBook.t) : Prop :=
  NoDup (keys book)
  /\ forall k r, In (k, r) (AddressBook.data book) ->
       value (PyRecord.name r) = PStr k /\ exists p, PyRecord.phones r = [p].

(** The calls that only read the book. *)
Definition reads (c : call) : bool :=
  match c with
  | Add _ | Change _ | AddBirthday _ => false
  | ShowPhone _ | ShowAll | ShowBirthday _ | Birthdays => true
  end.

(** The calls other than [change_contact]. *)
Definition no_change (c : call) : bool :=
  match c with
  | Change _ => false
  | _ => true
  end.

(** The value is one that [Phone] accepts. *)
Definition phone_accepted (v : pyval) : bool :=
  match Phone v with
  | Ok _ => true
  | Raise _ => false
  end.

(* ================================================================= *)
(** ** Dates written as DD.MM.YYYY *)

(** The character of the decimal digit [n]. *)
Definition digit_char (n : Z) : ascii := ascii_of_N (Z.to_N (48 + n)).

(** A number below 100 written with two digits, one below 10000 with four. *)
Definition two_digits (n : Z) : string :=
  String (digit_char (n / 10)) (String (digit_char (n mod 10)) EmptyString).

Definition four_digits (n : Z) : string :=
  String (digit_char (n / 1000))
    (String (digit_char (n / 100 mod 10))
       (String (digit_char (n / 10 mod 10))
          (String (digit_char (n mod 10)) EmptyString))).

Definition dd_mm_yyyy (d m y : Z) : string :=
  two_digits d ++ "." ++ two_digits m ++ "." ++ four_digits y.

(* ================================================================= *)
(** ** The listing, group by group *)

(** The names filed under [day], none if there is no such group. *)
Definition group_or_nil (day : string) (g : AddressBook.groups) : list pyval :=
  match AddressBook.group day g with
  | Some names => names
  | None => []
  end.

(** The record has a birthday whose occurrence is less than 7 days away and
    is filed under [day]. *)
Definition selected_on (today : Datetime.date) (day : string) (r : PyRecord.t)
  : bool :=
  match PyRecord.birthday r with
  | None => false
  | Some b =>
      match AddressBook.birthday_this_year today b with
      | Ok occ =>
          (Datetime.sub_days occ today <? 7)
          && String.eqb day (filed_under (Datetime.weekday occ))
      | Raise _ => false
      end
  end.

Definition name_of (r : PyRecord.t) : pyval := value (PyRecord.name r).

Definition working_days : list string :=
  ["Monday"; "Tuesday"; "Wednesday"; "Thursday"; "Friday"].

(** No group is empty, and every group is a day from Monday to Friday. *)
Definition tidy (g : AddressBook.groups) : Prop :=
  Forall (fun kl => snd kl <> [] /\ In (fst kl) working_days) g.

(* ================================================================= *)
(** ** Words and blank lines *)

(** The line has no character, or white space only. *)
Definition blank (line : string) : bool := forallb Py.isspace (Py.chars line).

(** A word: at least one character, none of them white space. *)
Definition word (w : string) : Prop :=
  w <> "" /\ existsb Py.isspace (Py.chars w) = false.

(** The commands whose handlers unpack two arguments, and those whose
    handlers look a name up first. *)
Definition pair_commands : list string := ["add"; "change"; "add-birthday"].
Definition name_commands : list string := ["phone"; "show-birthday"].

(* ================================================================= *)
(** ** Calls as the annotations describe them *)

Definition is_str (v : pyval) : bool :=
  match v with
  | PStr _ => true
  | PList _ => false
  end.

(** The arguments of the call are strings. *)
Definition str_call (c : call) : bool :=
  match c with
  | Add args | Change args | ShowPhone args | AddBirthday args
  | ShowBirthday args => forallb is_str args
  | ShowAll | Birthdays => true
  end.

(** The exceptions [input_error] turns into a reply. *)
Definition caught (e : exn) : Prop :=
  match e with
  | ValueError _ | KeyError _ | IndexError _ => True
  | _ => False
  end.

(** Every name in the groups is a string. *)
Definition str_names (g : AddressBook.groups) : Prop :=
  Forall (fun kl => forallb is_str (snd kl) = true) g.

(* ================================================================= *)
(** ** Proof steps used more than once *)

(** [a = b * q + r] for the quotient and the remainder of [a] by [b]. *)
Ltac div_facts q r a b :=
  assert (a = b * q + r /\ 0 <= r < b)
    by (subst q r; split; [apply Z.div_mod; lia | apply Z.mod_pos_bound; lia]).

(** The twelve cases of a month. *)
Ltac month_cases m :=
  let H := fresh "Hm" in
  assert (H : m = 1 \/ m = 2 \/ m = 3 \/ m = 4 \/ m = 5 \/ m = 6 \/ m = 7
              \/ m = 8 \/ m = 9 \/ m = 10 \/ m = 11 \/ m = 12) by lia;
  repeat (destruct H as [H | H]; [subst m | ]); [ .. | subst m].

(** The cases of [a, b = args]. *)
Ltac unpack_two args :=
  destruct args as [|a [|b [|c args]]]; cbn [unpack2 bind]; try discriminate.

(** The ten cases of a digit, the 31 of a day of the month. *)
Ltac digit_cases a :=
  let H := fresh "Hd" in
  assert (H : a = 0 \/ a = 1 \/ a = 2 \/ a = 3 \/ a = 4 \/ a = 5 \/ a = 6
              \/ a = 7 \/ a = 8 \/ a = 9) by lia;
  repeat (destruct H as [H | H]; [subst a | ]); [ .. | subst a].

Ltac day_cases d :=
  let H := fresh "Hc" in
  assert (H : d = 1 \/ d = 2 \/ d = 3 \/ d = 4 \/ d = 5 \/ d = 6 \/ d = 7
              \/ d = 8 \/ d = 9 \/ d = 10 \/ d = 11 \/ d = 12 \/ d = 13
              \/ d = 14 \/ d = 15 \/ d = 16 \/ d = 17 \/ d = 18 \/ d = 19
              \/ d = 20 \/ d = 21 \/ d = 22 \/ d = 23 \/ d = 24 \/ d = 25
              \/ d = 26 \/ d = 27 \/ d = 28 \/ d = 29 \/ d = 30 \/ d = 31)
    by lia;
  repeat (destruct H as [H | H]; [subst d | ]); [ .. | subst d].

(* ================================================================= *)
(** * Properties *)

(** ** The library operations on sample inputs *)

Example split_ex : Py.split "  add  John 1234567890 " = ["add"; "John"; "1234567890"].
Proof. reflexivity. Qed.

Example split_blank : Py.split "   " = [].
Proof. reflexivity. Qed.

Example strip_ex : Py.strip "  a b  " = "a b".
Proof. reflexivity. Qed.

Example lower_ex : Py.lower "AdD-Birthday" = "add-birthday".
Proof. reflexivity. Qed.

Example repr_ex : Repr.of_list ["John"; "a\b"] = "['John', 'a\\b']".
Proof. reflexivity. Qed.

Example repr_quote_ex :
  Repr.of_str "it's" = String Repr.dquote ("it's" ++ String Repr.dquote "").
Proof. reflexivity. Qed.

Example of_Z_ex : Repr.of_Z 10000 = "10000" /\ Repr.of_Z 0 = "0".
Proof. split; reflexivity. Qed.

Example ord_2024_12_31 :
  Datetime.toordinal (Datetime.mkdate 2024 12 31) = 739251
  /\ Datetime.fromordinal 739252 = Datetime.mkdate 2025 1 1
  /\ Datetime.strftime_A (Datetime.mkdate 2025 1 1) = "Wednesday"
  /\ Datetime.toordinal (Datetime.mkdate 9999 12 31) = Datetime.MAXORDINAL.
Proof. repeat split; reflexivity. Qed.

Example strptime_ok :
  Strptime.strptime "01.01.1990" = Ok (Datetime.mkdate 1990 1 1)
  /\ Strptime.strptime "29.02.2000" = Ok (Datetime.mkdate 2000 2 29)
  /\ Strptime.strptime "5.3.2020" = Ok (Datetime.mkdate 2020 3 5).
Proof. repeat split; reflexivity. Qed.

Example strptime_bad :
  Strptime.strptime "31.02.2024" = Raise (ValueError "day is out of range for month")
  /\ Strptime.strptime "1.1.20245" = Raise (ValueError "unconverted data remains: 5")
  /\ Strptime.strptime "1990-01-01"
     = Raise (ValueError "time data '1990-01-01' does not match format '%d.%m.%Y'")
  /\ Strptime.strptime "01.01.0000" = Raise (ValueError "year 0 is out of range").
Proof. repeat split; reflexivity. Qed.

(** ** The sample books are built by the handlers and the methods *)

Example book_john_built (today : Datetime.date) :
  run today [Add (strs ["John"; "1234567890"])] AddressBook.empty = book_john.
Proof. reflexivity. Qed.

Example book_leap_day_built (today : Datetime.date) :
  run today [Add (strs ["Ann"; "1234567890"]);
             AddBirthday (strs ["Ann"; "01.01.1990"]);
             Add (strs ["Bob"; "0987654321"]);
             AddBirthday (strs ["Bob"; "29.02.2000"])] AddressBook.empty
  = book_leap_day.
Proof. reflexivity. Qed.

Example book_new_year_built (today : Datetime.date) :
  run today [Add (strs ["John"; "1234567890"]);
             AddBirthday (strs ["John"; "01.01.1990"])] AddressBook.empty
  = book_new_year.
Proof. reflexivity. Qed.

Example book_weekend_built (today : Datetime.date) :
  run today [Add (strs ["Kate"; "1234567890"]);
             AddBirthday (strs ["Kate"; "04.01.1990"])] AddressBook.empty
  = book_weekend.
Proof. reflexivity. Qed.

Example book_ann_built :
  AddressBook.add_record AddressBook.empty (PyRecord.new (PStr "Ann"))
  = Ok book_ann.
Proof. reflexivity. Qed.

Example book_twice_built :
  (r1 <- PyRecord.add_phone (PyRecord.new (PStr "Bob")) (PStr "1111111111") ;;
   r2 <- PyRecord.add_phone r1 (PStr "2222222222") ;;
   r3 <- PyRecord.add_phone r2 (PStr "1111111111") ;;
   AddressBook.add_record AddressBook.empty r3)
  = Ok book_twice.
Proof. reflexivity. Qed.

(** The dialogue of the specification, handler by handler. *)
Example end_to_end (today : Datetime.date) :
  let b0 := AddressBook.empty in
  let '(b1, r1) := add_contact (strs ["John"; "1234567890"]) b0 in
  let '(b2, r2) := show_phone (strs ["John"]) b1 in
  let '(b3, r3) := change_contact (strs ["John"; "0987654321"]) b2 in
  let '(b4, r4) := show_phone (strs ["John"]) b3 in
  let '(b5, r5) := show_phone (strs ["Unknown"]) b4 in
  let '(b6, r6) := show_birthdays today tt b5 in
  [r1; r2; r3; r4; r5; r6]
  = [Ok "Contact added."; Ok "John's phone number: 1234567890";
     Ok "Contact updated."; Ok "John's phone number: 0987654321";
     Ok "Contact Unknown not found."; Ok "No birthdays in the next week."].
Proof. reflexivity. Qed.

(** The same dialogue typed at the prompt of [main]: the handlers are given
    a list that holds the list of words. *)
Example end_to_end_main (today : Datetime.date) :
  main today ["hello"; "add John 1234567890"; "all"; "birthdays"; "phone John"]
  = (["Welcome to the assistant bot!"; "How can I help you?";
      "not enough values to unpack (expected 2, got 1)";
      "No contacts found."; "No birthdays in the next week."],
     Died (TypeError "unhashable type: 'list'")).
Proof. reflexivity. Qed.

(* ================================================================= *)
(** ** Phone validation *)

Lemma length_chars (s : string) : List.length (Py.chars s) = String.length s.
Proof. induction s as [|c s IH]; simpl; [reflexivity | now rewrite IH]. Qed.

Lemma len_chars (s : string) : Py.len s = Z.of_nat (List.length (Py.chars s)).
Proof. unfold Py.len. now rewrite length_chars. Qed.

Lemma isdigit_spec (s : string) :
  Py.isdigit s = true <->
  Py.chars s <> [] /\ Forall (fun c => Py.isdigit_char c = true) (Py.chars s).
Proof.
  unfold Py.isdigit. rewrite Forall_forall.
  destruct (Py.chars s) as [|c cs] eqn:E.
  - split; [discriminate | intros [H _]; now elim H].
  - rewrite forallb_forall. split; [intros H; split; [discriminate | exact H] | tauto].
Qed.

Lemma Phone_str (s : string) :
  Phone (PStr s)
  = if Py.isdigit s && (Py.len s =? 10) then Ok (mkField (PStr s))
    else Raise (ValueError phone_error).
Proof. unfold Phone. destruct (Py.isdigit s), (Py.len s =? 10); reflexivity. Qed.

Lemma Phone_check (s : string) :
  Py.isdigit s && (Py.len s =? 10) = true <-> ten_isdigit_chars s.
Proof.
  unfold ten_isdigit_chars.
  rewrite andb_true_iff, isdigit_spec, Z.eqb_eq, len_chars, <- length_chars.
  split.
  - intros [[_ HF] HL]. split; [lia | exact HF].
  - intros [HL HF]. repeat split; [ | exact HF | lia].
    intros E. rewrite E in HL. discriminate.
Qed.

Lemma Phone_raises (v : pyval) (e : exn) :
  Phone v = Raise e -> e = ValueError phone_error.
Proof.
  destruct v as [s|l]; simpl.
  - destruct (negb (Py.isdigit s) || negb (Py.len s =? 10)); congruence.
  - congruence.
Qed.

Lemma Phone_ok (v : pyval) (f : Field) : Phone v = Ok f -> f = mkField v.
Proof.
  destruct v as [s|l]; simpl.
  - destruct (negb (Py.isdigit s) || negb (Py.len s =? 10)); congruence.
  - congruence.
Qed.

(** What [Phone] accepts, in the terms of its own test: the strings of ten
    characters that [str.isdigit] counts as digits; on every other string it
    raises the validation error, and [add_contact], which builds the
    [Phone], answers accordingly. *)
Lemma Phone_accepts_what_isdigit_accepts (s : string) :
  (Phone (PStr s) = Ok (mkField (PStr s)) <-> ten_isdigit_chars s)
  /\ (Phone (PStr s) = Raise (ValueError phone_error) <-> ~ ten_isdigit_chars s)
  /\ (forall (n : string) (book : AddressBook.t),
        snd (add_contact [PStr n; PStr s] book) = Ok "Contact added."
        <-> ten_isdigit_chars s).
Proof.
  pose proof (Phone_check s) as HC. pose proof (Phone_str s) as HP.
  destruct (Py.isdigit s && (Py.len s =? 10)) eqn:E.
  - assert (HT : ten_isdigit_chars s) by (apply HC; reflexivity).
    split; [| split].
    + rewrite HP. tauto.
    + rewrite HP. split; [discriminate | tauto].
    + intros n book. unfold add_contact, input_error, add_contact_body,
        PyRecord.add_phone. cbn [unpack2 bind]. rewrite HP. cbn. tauto.
  - assert (HT : ~ ten_isdigit_chars s) by (rewrite <- HC; discriminate).
    split; [| split].
    + rewrite HP. split; [discriminate | tauto].
    + rewrite HP. tauto.
    + intros n book. unfold add_contact, input_error, add_contact_body,
        PyRecord.add_phone. cbn [unpack2 bind]. rewrite HP. cbn.
      split; [discriminate | tauto].
Qed.

Lemma isdecimal_isdigit (c : ascii) :
  Py.isdecimal_char c = true -> Py.isdigit_char c = true.
Proof.
  unfold Py.isdecimal_char, Py.isdigit_char. intros H. now rewrite H.
Qed.

Lemma ten_decimal_digits_accepted (s : string) :
  ten_decimal_digits (PStr s) = true -> Phone (PStr s) = Ok (mkField (PStr s)).
Proof.
  cbn [ten_decimal_digits]. rewrite andb_true_iff, forallb_forall, Z.eqb_eq.
  intros [HL HD]. rewrite Phone_str.
  assert (E : Py.isdigit s && (Py.len s =? 10) = true); [|now rewrite E].
  apply Phone_check. split.
  - rewrite <- length_chars. rewrite len_chars in HL. lia.
  - apply Forall_forall. intros c Hc. now apply isdecimal_isdigit, HD.
Qed.

(** C3, at the failing input. [Phone] accepts the string of ten characters
    SUPERSCRIPT TWO, which [str.isdigit] counts as digits, although it holds
    no decimal digit, and [add_contact] stores it with the reply
    "Contact added.". The rest holds: every string of ten decimal digits is
    accepted, and a string of another length, or with a character that is
    no digit of any kind, is refused with the validation error. *)
Theorem Phone_accepts_superscript_digits :
  String.length ten_superscripts = 10%nat
  /\ forallb (fun c => negb (Py.isdecimal_char c)) (Py.chars ten_superscripts)
     = true
  /\ ten_decimal_digits (PStr ten_superscripts) = false
  /\ Phone (PStr ten_superscripts) = Ok (mkField (PStr ten_superscripts))
  /\ (forall (n : string) (book : AddressBook.t),
        add_contact [PStr n; PStr ten_superscripts] book
        = (AddressBook.mk
             (AddressBook.store n
                (PyRecord.mk (Name (PStr n)) [mkField (PStr ten_superscripts)] None)
                (AddressBook.data book)),
           Ok "Contact added."))
  /\ (forall s, ten_decimal_digits (PStr s) = true ->
                Phone (PStr s) = Ok (mkField (PStr s)))
  /\ (forall s, String.length s <> 10%nat
                \/ existsb (fun c => negb (Py.isdigit_char c)) (Py.chars s) = true ->
                Phone (PStr s) = Raise (ValueError phone_error)).
Proof.
  split; [reflexivity|]. split; [reflexivity|]. split; [reflexivity|].
  split; [reflexivity|]. split; [intros n book; reflexivity|].
  split; [exact ten_decimal_digits_accepted|].
  intros s H. rewrite Phone_str.
  destruct (Py.isdigit s && (Py.len s =? 10)) eqn:E; [|reflexivity].
  exfalso. apply Phone_check in E as [HL HD]. destruct H as [H | H].
  - now elim H.
  - apply existsb_exists in H as (c & Hc & Hn).
    rewrite Forall_forall in HD. rewrite (HD c Hc) in Hn. discriminate.
Qed.

(* ================================================================= *)
(** ** [add_contact] *)

(** C9. When the phone given to [add_contact] fails validation the book is
    left as it was, whatever it held under that name, and the reply is the
    validation error. *)
Theorem add_contact_bad_phone_keeps_book
        (book : AddressBook.t) (name phone : pyval) (e : exn) :
  Phone phone = Raise e ->
  add_contact [name; phone] book = (book, Ok phone_error).
Proof.
  intros H. pose proof (Phone_raises _ _ H) as ->.
  unfold add_contact, input_error, add_contact_body, PyRecord.add_phone.
  cbn [unpack2 bind]. rewrite H. reflexivity.
Qed.

Lemma add_contact_bad_phone_keeps_book_witness :
  add_contact [PStr "John"; PStr "12345"] book_john = (book_john, Ok phone_error).
Proof.
  apply (add_contact_bad_phone_keeps_book book_john (PStr "John") (PStr "12345")
           (ValueError phone_error)).
  reflexivity.
Defined.

(* ================================================================= *)
(** ** Lookups in the book *)

Lemma lookup_store_same (k : string) (r : PyRecord.t) (d : list (string * PyRecord.t)) :
  AddressBook.lookup k (AddressBook.store k r d) = Some r.
Proof.
  induction d as [|[k' r'] d IH]; simpl.
  - now rewrite String.eqb_refl.
  - destruct (String.eqb k k') eqn:E; simpl; rewrite E; [reflexivity | exact IH].
Qed.

Lemma lookup_store_other (k k' : string) (r : PyRecord.t)
      (d : list (string * PyRecord.t)) :
  k' <> k ->
  AddressBook.lookup k' (AddressBook.store k r d) = AddressBook.lookup k' d.
Proof.
  intros Hk. induction d as [|[k0 r0] d IH]; simpl.
  - apply String.eqb_neq in Hk. now rewrite Hk.
  - destruct (String.eqb k k0) eqn:E; simpl.
    + apply String.eqb_eq in E. subst k0.
      apply String.eqb_neq in Hk. now rewrite Hk.
    + destruct (String.eqb k' k0); [reflexivity | exact IH].
Qed.

Lemma py_eqb_refl (v : pyval) : py_eqb v v = true.
Proof.
  destruct v as [s|l]; simpl.
  - apply String.eqb_refl.
  - destruct (list_eq_dec string_dec l l); congruence.
Qed.

(* ================================================================= *)
(** ** Replies for a contact that is not in the book *)

(** C6, at a sample input: for a name the book does not hold, [show_phone]
    answers with the name inside the sentence, which is not the text
    "Contact not found.". *)
Lemma missing_contact_reply_counterexample :
  snd (show_phone [PStr "Unknown"] AddressBook.empty)
  = Ok "Contact Unknown not found."
  /\ snd (show_phone [PStr "Unknown"] AddressBook.empty) <> Ok not_found_reply.
Proof. split; [reflexivity | discriminate]. Qed.

(** C6, amended. Called with enough arguments for a name [n] the book does
    not hold, [show_phone], [change_contact], [add_birthday] and
    [show_birthday] leave the book as it is and answer
    "Contact <n> not found.". *)
Theorem missing_contact_reply_names_contact
        (book : AddressBook.t) (n : string) (new_phone date : pyval) :
  AddressBook.lookup n (AddressBook.data book) = None ->
  let reply := "Contact " ++ n ++ " not found." in
  show_phone [PStr n] book = (book, Ok reply)
  /\ change_contact [PStr n; new_phone] book = (book, Ok reply)
  /\ add_birthday [PStr n; date] book = (book, Ok reply)
  /\ show_birthday [PStr n] book = (book, Ok reply).
Proof.
  intros H reply.
  unfold show_phone, change_contact, add_birthday, show_birthday, input_error,
    show_phone_body, change_contact_body, add_birthday_body, show_birthday_body,
    AddressBook.find.
  cbn [unpack2 index0 bind AddressBook.key]. rewrite H.
  repeat split.
Qed.

Lemma missing_contact_reply_names_contact_witness :
  show_phone [PStr "Unknown"] book_john
  = (book_john, Ok "Contact Unknown not found.")
  /\ change_contact [PStr "Unknown"; PStr "0987654321"] book_john
     = (book_john, Ok "Contact Unknown not found.")
  /\ add_birthday [PStr "Unknown"; PStr "01.01.1990"] book_john
     = (book_john, Ok "Contact Unknown not found.")
  /\ show_birthday [PStr "Unknown"] book_john
     = (book_john, Ok "Contact Unknown not found.").
Proof.
  apply (missing_contact_reply_names_contact book_john "Unknown"
           (PStr "0987654321") (PStr "01.01.1990")).
  reflexivity.
Defined.

(* ================================================================= *)
(** ** Replies for a call with too few arguments *)

(** C7, at the failing input. With one argument, the unpacking
    [name, phone = args] of [add_contact], [change_contact] and
    [add_birthday] raises a [ValueError], which [input_error] answers with
    the text of the error, not with "Not enough arguments provided."; with
    none it is the same. [show_phone] and [show_birthday] index the list, and
    without arguments they do answer "Not enough arguments provided.". The
    line [add John] typed at the prompt of [main] is answered with the text
    of the [ValueError] as well. *)
Theorem too_few_arguments_replies
        (today : Datetime.date) (book : AddressBook.t) (a : pyval) :
  add_contact [a] book = (book, Ok (unpack_short "1"))
  /\ change_contact [a] book = (book, Ok (unpack_short "1"))
  /\ add_birthday [a] book = (book, Ok (unpack_short "1"))
  /\ add_contact [] book = (book, Ok (unpack_short "0"))
  /\ unpack_short "1" <> not_enough_reply
  /\ unpack_short "0" <> not_enough_reply
  /\ show_phone [] book = (book, Ok not_enough_reply)
  /\ show_birthday [] book = (book, Ok not_enough_reply)
  /\ main_step today "add John" book = (book, Printed (unpack_short "1")).
Proof. repeat split; discriminate. Qed.

(* ================================================================= *)
(** ** Errors that leave the loop *)

(** C8, at the failing input. An empty line, or one of white space only,
    makes [parse_input] raise a [ValueError]; [parse_input] is called by the
    loop itself, outside every handler, so the exception ends the process.
    A [TypeError] raised inside a handler is not caught by [input_error]
    either: the line [phone John] ends the process too. *)
Theorem blank_line_ends_the_loop (today : Datetime.date) (book : AddressBook.t) :
  main_step today "" book = (book, Crash unpack_empty_line)
  /\ main_step today "   " book = (book, Crash unpack_empty_line)
  /\ main today [""] = (["Welcome to the assistant bot!"], Died unpack_empty_line)
  /\ main_step today "phone John" book = (book, Crash AddressBook.unhashable).
Proof. repeat split. Qed.

(* ================================================================= *)
(** ** [change_contact] *)

(** C4, at the failing input. [add John 1234567890] followed by
    [change John abc]: the second call is answered "Contact updated." and
    the book then holds the phone value [abc]. *)
Theorem change_contact_stores_unchecked_phone (today : Datetime.date) :
  let calls := [Add (strs ["John"; "1234567890"]); Change (strs ["John"; "abc"])] in
  let book := run today calls AddressBook.empty in
  perform today (Change (strs ["John"; "abc"]))
          (run today [Add (strs ["John"; "1234567890"])] AddressBook.empty)
  = (book, Ok "Contact updated.")
  /\ AddressBook.data book
     = [("John", PyRecord.mk (Name (PStr "John")) [mkField (PStr "abc")] None)]
  /\ all_phones ten_decimal_digits book = false
  /\ Phone (PStr "abc") = Raise (ValueError phone_error).
Proof. repeat split. Qed.

(** C5, at sample inputs. For a contact without phones [change_contact]
    answers "Not enough arguments provided."; for a contact that holds the
    number of its first phone a second time, both entries are replaced. *)
Lemma change_contact_counterexample :
  change_contact [PStr "Ann"; PStr "0987654321"] book_ann
  = (book_ann, Ok not_enough_reply)
  /\ snd (change_contact [PStr "Ann"; PStr "0987654321"] book_ann)
     <> Ok "Contact updated."
  /\ option_map PyRecord.phones
       (AddressBook.lookup "Bob"
          (AddressBook.data
             (fst (change_contact [PStr "Bob"; PStr "3333333333"] book_twice))))
     = Some [mkField (PStr "3333333333"); mkField (PStr "2222222222");
             mkField (PStr "3333333333")].
Proof. repeat split. discriminate. Qed.

(** C5, amended. For a contact [r] stored under [k] that holds at least one
    phone, [change_contact] answers "Contact updated.", and the replacement
    is by value: the first phone and every other phone of [r] with the same
    value now hold the new value, while the other phones, the name and the
    birthday of [r] are as before, and so is every other contact. (For a
    record without phones, [record.phones[0]] raises [IndexError]; the first
    case of the statement records how that call ends.) *)
Theorem change_contact_on_existing
        (book : AddressBook.t) (k : string) (r : PyRecord.t) (new_phone : pyval) :
  AddressBook.lookup k (AddressBook.data book) = Some r ->
  match PyRecord.phones r with
  | [] => change_contact [PStr k; new_phone] book = (book, Ok not_enough_reply)
  | first :: rest =>
      exists book',
        change_contact [PStr k; new_phone] book = (book', Ok "Contact updated.")
        /\ AddressBook.lookup k (AddressBook.data book')
           = Some (PyRecord.mk (PyRecord.name r)
                               (changed_phones first rest new_phone)
                               (PyRecord.birthday r))
        /\ forall k', k' <> k ->
             AddressBook.lookup k' (AddressBook.data book')
             = AddressBook.lookup k' (AddressBook.data book)
  end.
Proof.
  intros H.
  unfold change_contact, input_error, change_contact_body, AddressBook.find.
  cbn [unpack2 bind AddressBook.key]. rewrite H.
  destruct (PyRecord.phones r) as [|first rest] eqn:E; [reflexivity|].
  cbn [index0 bind rebind AddressBook.key].
  eexists. split; [reflexivity|]. cbn [AddressBook.data]. split.
  - rewrite lookup_store_same. unfold PyRecord.edit_phone, changed_phones.
    rewrite E. cbn [map]. now rewrite py_eqb_refl.
  - intros k' Hk. now apply lookup_store_other.
Qed.

Lemma change_contact_on_existing_witness :
  exists book',
    change_contact [PStr "John"; PStr "0987654321"] book_john
    = (book', Ok "Contact updated.")
    /\ AddressBook.lookup "John" (AddressBook.data book')
       = Some (PyRecord.mk (Name (PStr "John")) [mkField (PStr "0987654321")] None)
    /\ forall k', k' <> "John" ->
         AddressBook.lookup k' (AddressBook.data book')
         = AddressBook.lookup k' (AddressBook.data book_john).
Proof.
  apply (change_contact_on_existing book_john "John" john (PStr "0987654321")).
  reflexivity.
Defined.

(* ================================================================= *)
(** ** Calendar arithmetic *)

Section Calendar.

Import Datetime.

Lemma forallb_range (P : Z -> bool) (n : nat) :
  forallb P (map Z.of_nat (seq 0 n)) = true ->
  forall r, 0 <= r < Z.of_nat n -> P r = true.
Proof.
  intros H r Hr.
  rewrite forallb_forall in H. apply H.
  apply in_map_iff. exists (Z.to_nat r). split; [lia|].
  apply in_seq. lia.
Qed.

Lemma month_day_spec (leap : bool) (r : Z) :
  0 <= r < 365 + (if leap then 1 else 0) ->
  month_day_ok leap r = true.
Proof.
  intros Hr. destruct leap.
  - apply (forallb_range (month_day_ok true) 366); [vm_compute; reflexivity | lia].
  - apply (forallb_range (month_day_ok false) 365); [vm_compute; reflexivity | lia].
Qed.

(** The date of an ordinal has that ordinal. *)
Lemma toordinal_fromordinal (n : Z) : 1 <= n -> toordinal (fromordinal n) = n.
Proof.
  intros Hn. unfold fromordinal, ord2ymd, DI400Y, DI100Y, DI4Y.
  set (n0 := n - 1).
  set (r400 := n0 mod 146097). set (q400 := n0 / 146097).
  set (r100 := r400 mod 36524). set (q100 := r400 / 36524).
  set (r4 := r100 mod 1461). set (q4 := r100 / 1461).
  set (r1 := r4 mod 365). set (q1 := r4 / 365).
  cbv zeta.
  div_facts q400 r400 n0 146097. div_facts q100 r100 r400 36524.
  div_facts q4 r4 r100 1461. div_facts q1 r1 r4 365.
  assert (Hn0 : n0 = n - 1) by reflexivity.
  clearbody n0 r400 q400 r100 q100 r4 q4 r1 q1.
  destruct ((q1 =? 4) || (q100 =? 4)) eqn:Hlast.
  - unfold toordinal, ymd2ord, days_before_year, days_before_month, is_leap.
    cbn [year month day DAYS_BEFORE_MONTH].
    apply orb_true_iff in Hlast.
    destruct (_ && _) eqn:Hl; cbn -[Z.div Z.modulo Z.mul Z.add Z.sub];
    rewrite ?andb_true_iff, ?andb_false_iff, ?orb_true_iff, ?orb_false_iff,
      ?negb_true_iff, ?negb_false_iff, ?Z.eqb_eq, ?Z.eqb_neq, ?Z.ltb_lt,
      ?Z.ltb_ge in *;
    Z.div_mod_to_equations; lia.
  - apply orb_false_iff in Hlast. destruct Hlast as [Hq1 Hq100].
    apply Z.eqb_neq in Hq1, Hq100.
    set (leap := (q1 =? 3) && (negb (q4 =? 24) || (q100 =? 3))).
    assert (Hr : 0 <= r1 < 365 + (if leap then 1 else 0)) by (destruct leap; lia).
    pose proof (month_day_spec leap r1 Hr) as Hmd.
    unfold month_day_ok in Hmd.
    destruct (month_day r1 leap) as [m d].
    rewrite !andb_true_iff in Hmd.
    destruct Hmd as [[[[Hm1 Hm2] Hd1] Hd2] Hsum].
    apply Z.eqb_eq in Hsum.
    unfold toordinal, ymd2ord, days_before_month. cbn [year month day].
    assert (Hleap : is_leap (q400 * 400 + 1 + q100 * 100 + q4 * 4 + q1) = leap).
    { subst leap. unfold is_leap.
      destruct (q1 =? 3) eqn:A; destruct (q4 =? 24) eqn:B;
      destruct (q100 =? 3) eqn:C; cbn [negb orb andb];
      rewrite ?Z.eqb_eq, ?Z.eqb_neq in *;
      repeat match goal with
      | |- context [?a mod ?b =? 0] => destruct (Z.eqb_spec (a mod b) 0)
      end; cbn [negb orb andb]; try reflexivity; exfalso;
      Z.div_mod_to_equations; lia. }
    rewrite Hleap.
    assert (Hy : days_before_year (q400 * 400 + 1 + q100 * 100 + q4 * 4 + q1)
                 = n0 - r1).
    { unfold days_before_year. Z.div_mod_to_equations. lia. }
    rewrite Hy. lia.
Qed.

Lemma weekday_fromordinal (n : Z) :
  1 <= n -> weekday (fromordinal n) = (n + 6) mod 7.
Proof. intros H. unfold weekday. now rewrite toordinal_fromordinal. Qed.

Lemma weekday_range (d : date) : 0 <= weekday d < 7.
Proof. unfold weekday. apply Z.mod_pos_bound. lia. Qed.

Lemma days_before_year_succ (y : Z) :
  days_before_year (y + 1)
  = days_before_year y + 365 + (if is_leap y then 1 else 0).
Proof.
  unfold days_before_year, is_leap.
  repeat match goal with
  | |- context [?a mod ?b =? 0] => destruct (Z.eqb_spec (a mod b) 0)
  end; cbn [negb orb andb]; Z.div_mod_to_equations; lia.
Qed.

Lemma days_before_year_mono (y1 y2 : Z) :
  y1 <= y2 -> days_before_year y1 <= days_before_year y2.
Proof. intros H. unfold days_before_year. Z.div_mod_to_equations. lia. Qed.

(** The day of the year of a valid month and day. *)
Lemma day_of_year_bounds (y m d : Z) :
  1 <= m <= 12 -> 1 <= d <= days_in_month y m ->
  1 <= days_before_month y m + d <= 365 + (if is_leap y then 1 else 0).
Proof.
  intros Hm. unfold days_in_month, days_before_month.
  destruct (is_leap y); month_cases m; cbn -[Z.add]; lia.
Qed.

Lemma days_before_month_mono (y m1 m2 d : Z) :
  1 <= m1 -> m1 < m2 -> m2 <= 12 -> d <= days_in_month y m1 ->
  days_before_month y m1 + d <= days_before_month y m2.
Proof.
  intros H1 H12 H2. unfold days_in_month, days_before_month.
  destruct (is_leap y); month_cases m1; month_cases m2; cbn -[Z.add]; lia.
Qed.

Lemma toordinal_bounds (d : date) : valid d -> 1 <= toordinal d <= MAXORDINAL.
Proof.
  intros (Hy & Hm & Hd). unfold toordinal, ymd2ord.
  pose proof (day_of_year_bounds _ _ _ Hm Hd) as B.
  pose proof (days_before_year_succ (year d)) as S.
  unfold MINYEAR, MAXYEAR in Hy.
  pose proof (days_before_year_mono 1 (year d) ltac:(lia)) as L.
  pose proof (days_before_year_mono (year d + 1) 10000 ltac:(lia)) as U.
  change (days_before_year 1) with 0 in L.
  change (days_before_year 10000) with 3652059 in U.
  unfold MAXORDINAL. lia.
Qed.

(** The order on dates is the order on their ordinals. *)
Lemma ltb_toordinal_lt (a b : date) :
  valid a -> valid b -> ltb a b = true -> toordinal a < toordinal b.
Proof.
  intros (Hya & Hma & Hda) (Hyb & Hmb & Hdb). unfold ltb, toordinal, ymd2ord.
  rewrite !orb_true_iff, !andb_true_iff, !orb_true_iff, !andb_true_iff,
    !Z.ltb_lt, !Z.eqb_eq.
  pose proof (day_of_year_bounds _ _ _ Hma Hda) as Ba.
  pose proof (day_of_year_bounds _ _ _ Hmb Hdb) as Bb.
  intros [Hy | [Hy [Hm | [Hm Hd]]]].
  - pose proof (days_before_year_succ (year a)) as S.
    pose proof (days_before_year_mono (year a + 1) (year b) ltac:(lia)) as M.
    lia.
  - rewrite Hy in *.
    pose proof (days_before_month_mono (year b) (month a) (month b) (day a)
                  ltac:(lia) Hm ltac:(lia) ltac:(lia)).
    lia.
  - rewrite Hy, Hm. lia.
Qed.

Lemma ltb_false_toordinal (a b : date) :
  valid a -> valid b -> ltb a b = false -> toordinal b <= toordinal a.
Proof.
  intros Ha Hb H.
  destruct (ltb b a) eqn:E.
  - pose proof (ltb_toordinal_lt b a Hb Ha E). lia.
  - assert (year a = year b /\ month a = month b /\ day a = day b) as (Ey & Em & Ed).
    { unfold ltb in H, E.
      rewrite !orb_false_iff, !andb_false_iff, !orb_false_iff, !andb_false_iff,
        !Z.ltb_ge, !Z.eqb_neq in H, E. lia. }
    unfold toordinal. rewrite Ey, Em, Ed. lia.
Qed.

Lemma make_ok (y m d : Z) (dt : date) :
  make y m d = Ok dt ->
  dt = mkdate y m d /\ (1 <= m <= 12 -> valid dt).
Proof.
  unfold make, check_date_fields.
  destruct ((y <? MINYEAR) || (MAXYEAR <? y)) eqn:Ey; [discriminate|].
  destruct ((m <? 1) || (12 <? m)) eqn:Em; [discriminate|].
  destruct ((d <? 1) || (days_in_month y m <? d)) eqn:Ed; [discriminate|].
  cbn. intros [= <-]. split; [reflexivity|]. intros Hm.
  rewrite orb_false_iff, !Z.ltb_ge in Ey, Ed.
  unfold valid. cbn. lia.
Qed.

Lemma make_valid (y m d : Z) (dt : date) : make y m d = Ok dt -> valid dt.
Proof.
  intros H. pose proof H as H'. apply make_ok in H as [-> V]. apply V.
  unfold make, check_date_fields in H'.
  destruct ((y <? MINYEAR) || (MAXYEAR <? y)); [discriminate|].
  destruct ((m <? 1) || (12 <? m)) eqn:Em; [discriminate|].
  rewrite orb_false_iff, !Z.ltb_ge in Em. lia.
Qed.

End Calendar.

(* ================================================================= *)
(** ** The occurrence of a birthday and the day it is filed under *)

Section Occurrence.

Import Datetime.

Lemma strptime_valid (v : pyval) (d : date) : strptime v = Ok d -> valid d.
Proof.
  destruct v as [s|l]; [|discriminate].
  unfold strptime, Strptime.strptime.
  repeat match goal with
  | |- context [match ?x with _ => _ end] => destruct x
  end; try discriminate.
  apply make_valid.
Qed.

Lemma replace_year_valid (d occ : date) (y : Z) :
  replace_year d y = Ok occ -> valid occ /\ year occ = y.
Proof.
  unfold replace_year. intros H. split; [now apply make_valid in H|].
  apply make_ok in H as [-> _]. reflexivity.
Qed.

(** Replacing the year of a valid date by a year from 1 to 10000 gives the
    date, or one of the two errors. *)
Lemma replace_year_cases (d : date) (y : Z) :
  valid d -> 1 <= y <= 10000 ->
  (exists occ, replace_year d y = Ok occ)
  \/ (exists msg, replace_year d y = Raise (ValueError msg) /\ replace_error msg).
Proof.
  intros (_ & Hm & _) Hy. unfold replace_year, make, check_date_fields.
  destruct ((y <? MINYEAR) || (MAXYEAR <? y)) eqn:Ey.
  - right. unfold MINYEAR, MAXYEAR in Ey.
    assert (y = 10000) as -> by (rewrite orb_true_iff, !Z.ltb_lt in Ey; lia).
    eexists. split; [reflexivity | right; reflexivity].
  - destruct ((month d <? 1) || (12 <? month d)) eqn:Em.
    + rewrite orb_true_iff, !Z.ltb_lt in Em. lia.
    + destruct ((day d <? 1) || (days_in_month y (month d) <? day d)).
      * right. eexists. split; [reflexivity | left; reflexivity].
      * left. eexists. reflexivity.
Qed.

(** What [birthday_this_year] returns is a valid date that is not before
    today. *)
Lemma birthday_this_year_not_past (today : date) (b : Field) (occ : date) :
  valid today ->
  AddressBook.birthday_this_year today b = Ok occ ->
  valid occ /\ 0 <= sub_days occ today.
Proof.
  intros Ht. unfold AddressBook.birthday_this_year.
  destruct (strptime (value b)) as [bd|e]; [|discriminate]. cbn [bind].
  destruct (replace_year bd (year today)) as [ty|e] eqn:E1; [|discriminate].
  cbn [bind]. apply replace_year_valid in E1 as [Vty Yty].
  destruct (ltb ty today) eqn:L.
  - intros E2. apply replace_year_valid in E2 as [Vo Yo]. split; [exact Vo|].
    assert (ltb today occ = true) as Lt.
    { unfold ltb. apply orb_true_iff. left. apply Z.ltb_lt. lia. }
    pose proof (ltb_toordinal_lt _ _ Ht Vo Lt). unfold sub_days. lia.
  - intros [= <-]. split; [exact Vty|].
    pose proof (ltb_false_toordinal _ _ Vty Ht L). unfold sub_days. lia.
Qed.

Lemma birthday_this_year_valid (today : date) (b : Field) (occ : date) :
  AddressBook.birthday_this_year today b = Ok occ -> valid occ.
Proof.
  unfold AddressBook.birthday_this_year.
  destruct (strptime (value b)) as [bd|e]; [|discriminate]. cbn [bind].
  destruct (replace_year bd (year today)) as [ty|e] eqn:E1; [|discriminate].
  cbn [bind]. destruct (ltb ty today).
  - intros E2. now apply replace_year_valid in E2.
  - intros [= <-]. now apply replace_year_valid in E1.
Qed.

Lemma filed_under_day_name (w : Z) :
  0 <= w < 7 ->
  (if String.eqb (day_name w) "Saturday" || String.eqb (day_name w) "Sunday"
   then "Monday" else day_name w) = filed_under w.
Proof.
  intros H.
  assert (w = 0 \/ w = 1 \/ w = 2 \/ w = 3 \/ w = 4 \/ w = 5 \/ w = 6)
    as [-> | [-> | [-> | [-> | [-> | [-> | ->]]]]]] by lia; reflexivity.
Qed.

(** The day a selected birthday is filed under is the day of the week of
    its occurrence, with Saturday and Sunday moved to Monday. *)
Lemma birthday_day_spec (today occ : date) :
  valid occ ->
  AddressBook.birthday_day today (sub_days occ today)
  = Ok (filed_under (weekday occ)).
Proof.
  intros V. pose proof (toordinal_bounds occ V) as B.
  unfold AddressBook.birthday_day, add_days, sub_days.
  replace (toordinal today + (toordinal occ - toordinal today))
    with (toordinal occ) by lia.
  assert ((0 <? toordinal occ) && (toordinal occ <=? MAXORDINAL) = true) as ->.
  { apply andb_true_iff. split; [apply Z.ltb_lt | apply Z.leb_le]; lia. }
  cbn [bind]. unfold strftime_A.
  rewrite weekday_fromordinal by lia. fold (weekday occ).
  pose proof (filed_under_day_name (weekday occ) (weekday_range occ)) as F.
  destruct (String.eqb (day_name (weekday occ)) "Saturday"
            || String.eqb (day_name (weekday occ)) "Sunday");
    now rewrite <- F.
Qed.

(** One turn of the loop, when it does not raise: the record is appended
    exactly when its occurrence is less than 7 days away, and that distance
    is never negative. *)
Lemma visit_spec (today : date) (r : PyRecord.t) (b : Field)
      (acc acc' : AddressBook.groups) :
  valid today ->
  PyRecord.birthday r = Some b ->
  AddressBook.visit today r acc = Ok acc' ->
  exists occ,
    AddressBook.birthday_this_year today b = Ok occ
    /\ 0 <= sub_days occ today
    /\ acc' = if sub_days occ today <? 7
              then AddressBook.append (filed_under (weekday occ))
                                      (value (PyRecord.name r)) acc
              else acc.
Proof.
  intros Ht Hb. unfold AddressBook.visit. rewrite Hb.
  destruct (AddressBook.birthday_this_year today b) as [occ|e] eqn:E; [|discriminate].
  cbn [bind]. destruct (birthday_this_year_not_past _ _ _ Ht E) as [Vo D].
  intros H. exists occ. split; [reflexivity|]. split; [exact D|].
  destruct (sub_days occ today <? 7); [|congruence].
  rewrite birthday_day_spec in H by exact Vo. cbn [bind] in H. congruence.
Qed.

End Occurrence.

(* ================================================================= *)
(** ** The groups built by [get_birthdays_per_week] *)

Section Groups.

Import Datetime.

Lemma listed_append (day : string) (n : pyval) (g : AddressBook.groups) :
  listed day n (AddressBook.append day n g).
Proof.
  unfold listed. induction g as [|[k l] g IH]; simpl.
  - rewrite String.eqb_refl. exists [n]. split; [reflexivity | now left].
  - destruct (String.eqb day k) eqn:E; simpl; rewrite E.
    + exists (l ++ [n])%list. split; [reflexivity|].
      apply in_or_app. right. now left.
    + exact IH.
Qed.

Lemma listed_append_mono (day day' : string) (n n' : pyval) (g : AddressBook.groups) :
  listed day n g -> listed day n (AddressBook.append day' n' g).
Proof.
  unfold listed. induction g as [|[k l] g IH]; simpl.
  - intros (names & H & _). discriminate.
  - intros (names & H & Hn).
    destruct (String.eqb day' k) eqn:E'; simpl.
    + destruct (String.eqb day k) eqn:E.
      * injection H as <-. exists (l ++ [n'])%list.
        split; [reflexivity | apply in_or_app; now left].
      * exists names. now split.
    + destruct (String.eqb day k) eqn:E.
      * exists names. now split.
      * apply IH. exists names. now split.
Qed.

Lemma group_append_other (day k : string) (n : pyval) (g : AddressBook.groups) :
  k <> day ->
  AddressBook.group k g = None ->
  AddressBook.group k (AddressBook.append day n g) = None.
Proof.
  intros Hk. induction g as [|[k0 l] g IH]; simpl.
  - intros _. apply String.eqb_neq in Hk. now rewrite Hk.
  - destruct (String.eqb k k0) eqn:E; [discriminate|]. intros H.
    destruct (String.eqb day k0); simpl; rewrite E; [exact H | now apply IH].
Qed.

Lemma filed_under_not_weekend (w : Z) :
  0 <= w < 7 -> filed_under w <> "Saturday" /\ filed_under w <> "Sunday".
Proof.
  intros H.
  assert (w = 0 \/ w = 1 \/ w = 2 \/ w = 3 \/ w = 4 \/ w = 5 \/ w = 6)
    as [-> | [-> | [-> | [-> | [-> | [-> | ->]]]]]] by lia;
    split; discriminate.
Qed.

(** A turn of the loop that does not raise appends to the groups, or leaves
    them as they are; what it appends goes under a day from Monday to
    Friday. *)
Lemma visit_step (today : date) (r : PyRecord.t) (acc acc' : AddressBook.groups) :
  AddressBook.visit today r acc = Ok acc' ->
  acc' = acc
  \/ exists w, 0 <= w < 7
       /\ acc' = AddressBook.append (filed_under w) (value (PyRecord.name r)) acc.
Proof.
  unfold AddressBook.visit.
  destruct (PyRecord.birthday r) as [b|]; [|intros [= <-]; now left].
  destruct (AddressBook.birthday_this_year today b) as [occ|e] eqn:E; [|discriminate].
  cbn [bind]. destruct (sub_days occ today <? 7); [|intros [= <-]; now left].
  rewrite birthday_day_spec by (eapply birthday_this_year_valid; eassumption).
  cbn [bind]. intros [= <-]. right. exists (weekday occ).
  split; [apply weekday_range | reflexivity].
Qed.

Lemma visit_all_mono (today : date) (rs : list PyRecord.t) (day : string) (n : pyval) :
  forall acc g,
    AddressBook.visit_all today rs acc = Ok g -> listed day n acc -> listed day n g.
Proof.
  induction rs as [|r rs IH]; simpl; intros acc g H L.
  - now injection H as <-.
  - destruct (AddressBook.visit today r acc) as [acc'|e] eqn:E; [|discriminate].
    cbn [bind] in H. apply (IH acc' g H).
    destruct (visit_step _ _ _ _ E) as [-> | (w & _ & ->)];
      [exact L | now apply listed_append_mono].
Qed.

Lemma visit_all_no_weekend (today : date) (rs : list PyRecord.t) (k : string) :
  k = "Saturday" \/ k = "Sunday" ->
  forall acc g,
    AddressBook.visit_all today rs acc = Ok g ->
    AddressBook.group k acc = None -> AddressBook.group k g = None.
Proof.
  intros Hk. induction rs as [|r rs IH]; simpl; intros acc g H N.
  - now injection H as <-.
  - destruct (AddressBook.visit today r acc) as [acc'|e] eqn:E; [|discriminate].
    cbn [bind] in H. apply (IH acc' g H).
    destruct (visit_step _ _ _ _ E) as [-> | (w & Hw & ->)]; [exact N|].
    apply group_append_other; [|exact N].
    destruct (filed_under_not_weekend w Hw) as [A B].
    destruct Hk as [-> | ->]; congruence.
Qed.

(** When the loop does not raise, every record whose occurrence is less
    than 7 days away is in the group of that occurrence. *)
Lemma visit_all_listed (today : date) (rs : list PyRecord.t)
      (r : PyRecord.t) (b : Field) (occ : date) :
  In r rs ->
  PyRecord.birthday r = Some b ->
  AddressBook.birthday_this_year today b = Ok occ ->
  sub_days occ today < 7 ->
  forall acc g,
    AddressBook.visit_all today rs acc = Ok g ->
    listed (filed_under (weekday occ)) (value (PyRecord.name r)) g.
Proof.
  intros Hin Hb Ho Hd. induction rs as [|r0 rs IH]; [contradiction|].
  simpl. intros acc g H.
  destruct (AddressBook.visit today r0 acc) as [acc'|e] eqn:E; [|discriminate].
  cbn [bind] in H. destruct Hin as [-> | Hin].
  - apply (visit_all_mono _ _ _ _ _ _ H).
    unfold AddressBook.visit in E. rewrite Hb, Ho in E. cbn [bind] in E.
    apply Z.ltb_lt in Hd. rewrite Hd in E.
    rewrite birthday_day_spec in E
      by (eapply birthday_this_year_valid; eassumption).
    cbn [bind] in E. injection E as <-. apply listed_append.
  - now apply (IH Hin acc' g).
Qed.

End Groups.

(* ================================================================= *)
(** ** The weekend rule *)

(** C2. When [get_birthdays_per_week] returns, a contact whose occurrence
    is less than 7 days away is listed under "Monday" if the occurrence is a
    Saturday or a Sunday, and under the name of the day of the occurrence if
    that is a day from Monday to Friday; nothing is listed under "Saturday"
    or "Sunday". *)
Theorem weekend_birthdays_filed_under_Monday
        (book : AddressBook.t) (today : Datetime.date) (g : AddressBook.groups)
        (k : string) (r : PyRecord.t) (b : Field) (occ : Datetime.date) :
  AddressBook.get_birthdays_per_week book today = Ok g ->
  In (k, r) (AddressBook.data book) ->
  PyRecord.birthday r = Some b ->
  AddressBook.birthday_this_year today b = Ok occ ->
  Datetime.sub_days occ today < 7 ->
  let w := Datetime.weekday occ in
  let n := value (PyRecord.name r) in
  (w = 5 \/ w = 6 -> listed "Monday" n g)
  /\ (0 <= w <= 4 -> listed (Datetime.day_name w) n g)
  /\ (forall n', ~ listed "Saturday" n' g)
  /\ (forall n', ~ listed "Sunday" n' g).
Proof.
  intros Hg Hin Hb Ho Hd w n.
  unfold AddressBook.get_birthdays_per_week in Hg.
  assert (Hr : In r (AddressBook.values book))
    by (unfold AddressBook.values; apply in_map_iff; now exists (k, r)).
  pose proof (visit_all_listed today _ r b occ Hr Hb Ho Hd [] g Hg) as L.
  fold w n in L. unfold filed_under in L.
  repeat split.
  - intros [E | E]; rewrite E in L; exact L.
  - intros Hw.
    assert ((w =? 5) || (w =? 6) = false) as E
      by (apply orb_false_iff; split; apply Z.eqb_neq; lia).
    now rewrite E in L.
  - intros n' (names & Hn & _).
    rewrite (visit_all_no_weekend today _ "Saturday" (or_introl eq_refl) [] g Hg eq_refl)
      in Hn. discriminate.
  - intros n' (names & Hn & _).
    rewrite (visit_all_no_weekend today _ "Sunday" (or_intror eq_refl) [] g Hg eq_refl)
      in Hn. discriminate.
Qed.

Lemma weekend_birthdays_filed_under_Monday_witness :
  Datetime.weekday (Datetime.mkdate 2025 1 4) = 5
  /\ listed "Monday" (PStr "Kate") [("Monday", [PStr "Kate"])].
Proof.
  split; [reflexivity|].
  refine (proj1 (weekend_birthdays_filed_under_Monday
                   book_weekend new_years_eve_2024 [("Monday", [PStr "Kate"])]
                   "Kate" (snd (contact "Kate" "1234567890" "04.01.1990"))
                   (mkField (PStr "04.01.1990")) (Datetime.mkdate 2025 1 4)
                   eq_refl (or_introl eq_refl) eq_refl eq_refl eq_refl)
                (or_introl eq_refl)).
Defined.

(* ================================================================= *)
(** ** Birthdays on 29 February *)

Section LeapDay.

Import Datetime.

Lemma leap_not_twice (y : Z) : is_leap y = true -> is_leap (y + 1) = false.
Proof.
  unfold is_leap. rewrite andb_true_iff, Z.eqb_eq. intros [H _].
  apply andb_false_iff. left. apply Z.eqb_neq. Z.div_mod_to_equations. lia.
Qed.

Lemma leap_day_exists (y : Z) :
  (days_in_month y 2 <? 29) = negb (is_leap y).
Proof. unfold days_in_month. cbn. destruct (is_leap y); reflexivity. Qed.

(** The turn of the loop for a birthday on 29 February, when this year has
    none or it is past. *)
Lemma visit_leap_day (today : date) (r : PyRecord.t) (b : Field) (y : Z)
      (acc : AddressBook.groups) :
  valid today ->
  PyRecord.birthday r = Some b ->
  strptime (value b) = Ok (mkdate y 2 29) ->
  leap_day_unavailable today ->
  AddressBook.visit today r acc = Raise (ValueError day_out_of_range).
Proof.
  intros (Hy & _ & _) Hb Hs Hc. unfold MINYEAR, MAXYEAR in Hy.
  unfold AddressBook.visit, AddressBook.birthday_this_year. rewrite Hb, Hs.
  cbn [bind]. unfold replace_year, make, check_date_fields. cbn [month day].
  assert (Ey : (year today <? MINYEAR) || (MAXYEAR <? year today) = false).
  { unfold MINYEAR, MAXYEAR. apply orb_false_iff.
    split; apply Z.ltb_ge; lia. }
  rewrite Ey. cbn [Z.ltb Z.compare Pos.compare Pos.compare_cont orb].
  rewrite leap_day_exists.
  destruct (is_leap (year today)) eqn:L.
  - destruct Hc as [Hc | Hc]; [congruence|].
    cbn [negb bind]. rewrite Hc. cbn [year month day].
    assert (E1 : (year today + 1 <? MINYEAR) || (MAXYEAR <? year today + 1) = false).
    { unfold MINYEAR, MAXYEAR. apply orb_false_iff. split; apply Z.ltb_ge; [lia|].
      assert (year today <> 9999) by (intros E; rewrite E in L; discriminate).
      lia. }
    rewrite E1. cbn [Z.ltb Z.compare Pos.compare Pos.compare_cont orb].
    rewrite leap_day_exists, (leap_not_twice _ L). reflexivity.
  - reflexivity.
Qed.

(** A turn of the loop for a record whose birthday was accepted by
    [Birthday] returns, or raises one of the errors of the replacement. *)
Lemma visit_cases (today : date) (r : PyRecord.t) (acc : AddressBook.groups) :
  valid today ->
  (forall b, PyRecord.birthday r = Some b -> exists d, strptime (value b) = Ok d) ->
  (exists acc', AddressBook.visit today r acc = Ok acc')
  \/ (exists msg, AddressBook.visit today r acc = Raise (ValueError msg)
                  /\ replace_error msg).
Proof.
  intros Ht Hb. unfold AddressBook.visit.
  destruct (PyRecord.birthday r) as [b|]; [|left; eexists; reflexivity].
  destruct (Hb b eq_refl) as [bd Hs].
  pose proof (strptime_valid _ _ Hs) as Vb.
  assert (Hy : 1 <= year today <= 9999) by (destruct Ht as (H & _); exact H).
  assert (C : (exists occ, AddressBook.birthday_this_year today b = Ok occ)
              \/ (exists msg, AddressBook.birthday_this_year today b
                              = Raise (ValueError msg) /\ replace_error msg)).
  { unfold AddressBook.birthday_this_year. rewrite Hs. cbn [bind].
    destruct (replace_year_cases bd (year today) Vb ltac:(lia))
      as [[ty E] | (msg & E & M)]; rewrite E; cbn [bind].
    - destruct (ltb ty today); [|left; eexists; reflexivity].
      apply replace_year_valid in E as [Vt _].
      destruct (replace_year_cases ty (year today + 1) Vt ltac:(lia))
        as [[occ E2] | (msg & E2 & M)]; rewrite E2.
      + left. eexists. reflexivity.
      + right. exists msg. now split.
    - right. exists msg. now split. }
  destruct C as [[occ E] | (msg & E & M)]; rewrite E; cbn [bind].
  - destruct (sub_days occ today <? 7); [|left; eexists; reflexivity].
    rewrite birthday_day_spec by (eapply birthday_this_year_valid; eassumption).
    left. eexists. reflexivity.
  - right. exists msg. now split.
Qed.

Lemma visit_all_leap_day (today : date) (rs : list PyRecord.t)
      (r : PyRecord.t) (b : Field) (y : Z) :
  valid today ->
  (forall r' b', In r' rs -> PyRecord.birthday r' = Some b' ->
                 exists d, strptime (value b') = Ok d) ->
  In r rs ->
  PyRecord.birthday r = Some b ->
  strptime (value b) = Ok (mkdate y 2 29) ->
  leap_day_unavailable today ->
  forall acc, exists msg,
    AddressBook.visit_all today rs acc = Raise (ValueError msg) /\ replace_error msg.
Proof.
  intros Ht Hall Hin Hb Hs Hc.
  induction rs as [|r0 rs IH]; [contradiction|]. intros acc. simpl.
  destruct Hin as [-> | Hin].
  - rewrite (visit_leap_day today r b y acc Ht Hb Hs Hc). cbn [bind].
    exists day_out_of_range. split; [reflexivity | now left].
  - destruct (visit_cases today r0 acc Ht) as [[acc' E] | (msg & E & M)].
    + intros b0. apply Hall. now left.
    + rewrite E. cbn [bind]. apply IH; [|exact Hin].
      intros r' b' Hr'. apply Hall. now right.
    + rewrite E. cbn [bind]. exists msg. now split.
Qed.

Lemma In_lookup (k : string) (r : PyRecord.t) (d : list (string * PyRecord.t)) :
  In (k, r) d -> exists r', AddressBook.lookup k d = Some r'.
Proof.
  induction d as [|[k0 r0] d IH]; [contradiction|]. simpl.
  intros [[= -> ->] | H].
  - rewrite String.eqb_refl. now exists r.
  - destruct (String.eqb k k0); [now exists r0 | now apply IH].
Qed.

Lemma replace_error_is_no_listing (msg : string) :
  replace_error msg ->
  msg <> no_birthdays_reply /\ starts_with birthdays_header msg = false.
Proof. intros [-> | ->]; split; (discriminate || reflexivity). Qed.

End LeapDay.

(** C10. In a book whose birthdays were all accepted by [Birthday], let some
    contact have a birthday on 29 February, and let today be in a year that
    is not a leap year, or after 29 February of a leap year. Then
    [get_birthdays_per_week] raises a [ValueError] with one of the texts of
    the year replacement, and [show_birthdays] replies with that text, which
    is neither the listing nor "No birthdays in the next week."; yet
    [Birthday] accepts that date, and [add_birthday] answers
    "Birthday added." for it. *)
Theorem leap_day_birthday_breaks_listing
        (book : AddressBook.t) (today : Datetime.date)
        (k : string) (r : PyRecord.t) (b : Field) (y : Z) :
  Datetime.valid today ->
  birthdays_checked book ->
  In (k, r) (AddressBook.data book) ->
  PyRecord.birthday r = Some b ->
  strptime (value b) = Ok (Datetime.mkdate y 2 29) ->
  leap_day_unavailable today ->
  exists msg,
    AddressBook.get_birthdays_per_week book today = Raise (ValueError msg)
    /\ replace_error msg
    /\ show_birthdays today tt book = (book, Ok msg)
    /\ msg <> no_birthdays_reply
    /\ starts_with birthdays_header msg = false
    /\ Birthday (value b) = Ok (mkField (value b))
    /\ snd (add_birthday [PStr k; value b] book) = Ok "Birthday added.".
Proof.
  intros Ht Hall Hin Hb Hs Hc.
  assert (Hr : In r (AddressBook.values book))
    by (unfold AddressBook.values; apply in_map_iff; now exists (k, r)).
  destruct (visit_all_leap_day today (AddressBook.values book) r b y
              Ht Hall Hr Hb Hs Hc []) as (msg & E & M).
  exists msg. unfold AddressBook.get_birthdays_per_week.
  destruct (replace_error_is_no_listing msg M) as [N1 N2].
  assert (HB : Birthday (value b) = Ok (mkField (value b)))
    by (unfold Birthday; now rewrite Hs).
  repeat split; try assumption.
  - unfold show_birthdays, input_error, show_birthdays_body,
      AddressBook.get_birthdays_per_week. now rewrite E.
  - destruct (In_lookup _ _ _ Hin) as [r' L].
    unfold add_birthday, input_error, add_birthday_body, AddressBook.find,
      PyRecord.add_birthday.
    cbn [unpack2 bind AddressBook.key]. rewrite L, HB. reflexivity.
Qed.

Lemma leap_day_birthday_breaks_listing_witness :
  exists msg,
    AddressBook.get_birthdays_per_week book_leap_day new_years_eve_2024
    = Raise (ValueError msg)
    /\ replace_error msg
    /\ show_birthdays new_years_eve_2024 tt book_leap_day = (book_leap_day, Ok msg)
    /\ msg <> no_birthdays_reply
    /\ starts_with birthdays_header msg = false
    /\ Birthday (PStr "29.02.2000") = Ok (mkField (PStr "29.02.2000"))
    /\ snd (add_birthday [PStr "Bob"; PStr "29.02.2000"] book_leap_day)
       = Ok "Birthday added.".
Proof.
  refine (leap_day_birthday_breaks_listing
            book_leap_day new_years_eve_2024 "Bob"
            (snd (contact "Bob" "0987654321" "29.02.2000"))
            (mkField (PStr "29.02.2000")) 2000 _ _
            (or_intror (or_introl eq_refl)) eq_refl eq_refl
            (or_intror eq_refl)).
  - unfold Datetime.valid. vm_compute. intuition discriminate.
  - intros r b [<- | [<- | []]] [= <-]; eexists; reflexivity.
Defined.

(* ================================================================= *)
(** ** The upcoming birthdays *)

(** C1, at the sample of the specification and at the failing input. On 31.12.2024
    a birthday stored as 01.01.1990 has its occurrence on 01.01.2025, one day
    away, and a book holding that contact alone lists it under "Wednesday".
    Once the book also holds a contact born on 29.02.2000 the year
    replacement raises, and [get_birthdays_per_week] returns no listing at
    all: the first contact, one day away, is in no result. *)
Theorem birthdays_listing_lost_to_leap_day :
  let new_year := mkField (PStr "01.01.1990") in
  AddressBook.birthday_this_year new_years_eve_2024 new_year
  = Ok (Datetime.mkdate 2025 1 1)
  /\ Datetime.sub_days (Datetime.mkdate 2025 1 1) new_years_eve_2024 = 1
  /\ AddressBook.get_birthdays_per_week book_new_year new_years_eve_2024
     = Ok [("Wednesday", [PStr "John"])]
  /\ AddressBook.get_birthdays_per_week book_leap_day new_years_eve_2024
     = Raise (ValueError day_out_of_range)
  /\ show_birthdays new_years_eve_2024 tt book_leap_day
     = (book_leap_day, Ok day_out_of_range).
Proof. repeat split. Qed.

(* ================================================================= *)
(** ** The birthdays of a book built by the handlers *)

Section Checked.

Lemma lookup_In (k : string) (r : PyRecord.t) (d : list (string * PyRecord.t)) :
  AddressBook.lookup k d = Some r -> In r (map snd d).
Proof.
  induction d as [|[k0 r0] d IH]; simpl; [discriminate|].
  destruct (String.eqb k k0); [intros [= ->]; now left | right; now apply IH].
Qed.

Lemma In_store (k : string) (r x : PyRecord.t) (d : list (string * PyRecord.t)) :
  In x (map snd (AddressBook.store k r d)) -> x = r \/ In x (map snd d).
Proof.
  induction d as [|[k0 r0] d IH]; simpl.
  - intros [<- | []]. now left.
  - destruct (String.eqb k k0); simpl.
    + intros [<- | H]; [now left | right; now right].
    + intros [<- | H]; [right; now left |].
      destruct (IH H) as [-> | H']; [now left | right; now right].
Qed.

(** Storing a record whose birthday was accepted keeps the book checked. *)
Lemma store_checked (book : AddressBook.t) (k : string) (r : PyRecord.t) :
  birthdays_checked book ->
  (forall b, PyRecord.birthday r = Some b -> exists d, strptime (value b) = Ok d) ->
  birthdays_checked (AddressBook.mk (AddressBook.store k r (AddressBook.data book))).
Proof.
  intros Hc Hr x b Hx Hb. unfold AddressBook.values in Hx. cbn in Hx.
  destruct (In_store _ _ _ _ Hx) as [-> | Hin]; [now apply Hr | now apply (Hc x)].
Qed.

Lemma Birthday_ok (v : pyval) (f : Field) :
  Birthday v = Ok f -> f = mkField v /\ exists d, strptime v = Ok d.
Proof.
  unfold Birthday. destruct (strptime v) as [d|e] eqn:E.
  - intros [= <-]. split; [reflexivity | now exists d].
  - destruct e; discriminate.
Qed.

Lemma input_error_keeps {X : Type} (P : AddressBook.t -> Prop)
      (func : body X) (args : X) (book : AddressBook.t) :
  P book ->
  (forall book' reply, func args book = Ok (book', reply) -> P book') ->
  P (fst (input_error func args book)).
Proof.
  intros Hb Hf. unfold input_error.
  destruct (func args book) as [[book' reply]|e] eqn:E.
  - now apply (Hf book' reply).
  - destruct e; exact Hb.
Qed.

Lemma add_contact_checked (args : list pyval) (book : AddressBook.t) :
  birthdays_checked book -> birthdays_checked (fst (add_contact args book)).
Proof.
  intros Hc. unfold add_contact. apply input_error_keeps; [exact Hc|].
  intros book' reply. unfold add_contact_body. unpack_two args.
  unfold PyRecord.add_phone.
  destruct (Phone b) as [f|e]; cbn [bind]; [|discriminate].
  unfold AddressBook.add_record, PyRecord.new, Name.
  cbn [PyRecord.name PyRecord.phones PyRecord.birthday value].
  destruct (AddressBook.key a) as [k|e]; cbn [bind]; [|discriminate].
  intros [= <- _]. apply store_checked; [exact Hc|].
  cbn. discriminate.
Qed.

Lemma change_contact_checked (args : list pyval) (book : AddressBook.t) :
  birthdays_checked book -> birthdays_checked (fst (change_contact args book)).
Proof.
  intros Hc. unfold change_contact. apply input_error_keeps; [exact Hc|].
  intros book' reply. unfold change_contact_body. unpack_two args.
  unfold AddressBook.find, rebind.
  destruct (AddressBook.key a) as [k|e]; cbn [bind]; [|discriminate].
  destruct (AddressBook.lookup k (AddressBook.data book)) as [r|] eqn:L;
    [|intros [= <- _]; exact Hc].
  destruct (index0 (PyRecord.phones r)) as [first|e]; cbn [bind];
    [|discriminate].
  intros [= <- _]. apply store_checked; [exact Hc|].
  cbn [PyRecord.edit_phone PyRecord.birthday]. intros b0 Hb0.
  apply (Hc r b0); [|exact Hb0]. now apply lookup_In in L.
Qed.

Lemma add_birthday_checked (args : list pyval) (book : AddressBook.t) :
  birthdays_checked book -> birthdays_checked (fst (add_birthday args book)).
Proof.
  intros Hc. unfold add_birthday. apply input_error_keeps; [exact Hc|].
  intros book' reply. unfold add_birthday_body. unpack_two args.
  unfold AddressBook.find, rebind.
  destruct (AddressBook.key a) as [k|e]; cbn [bind]; [|discriminate].
  destruct (AddressBook.lookup k (AddressBook.data book)) as [r|] eqn:L;
    [|intros [= <- _]; exact Hc].
  unfold PyRecord.add_birthday.
  destruct (Birthday b) as [f|e] eqn:B; cbn [bind]; [|discriminate].
  intros [= <- _]. apply store_checked; [exact Hc|].
  cbn [PyRecord.birthday]. intros b0 [= <-].
  now apply Birthday_ok in B as [-> ?].
Qed.

Lemma reading_keeps_book {X : Type} (P : AddressBook.t -> Prop)
      (func : body X) (args : X) (book : AddressBook.t) :
  (forall book' reply, func args book = Ok (book', reply) -> book' = book) ->
  P book -> P (fst (input_error func args book)).
Proof.
  intros Hf Hb. apply input_error_keeps; [exact Hb|].
  intros book' reply E. now rewrite (Hf _ _ E).
Qed.

Lemma show_phone_reads (args : list pyval) (book book' : AddressBook.t) (reply : string) :
  show_phone_body args book = Ok (book', reply) -> book' = book.
Proof.
  unfold show_phone_body. destruct (index0 args) as [n|e]; cbn [bind];
    [|discriminate]. destruct (AddressBook.find book n) as [[r|]|e]; cbn [bind];
    try discriminate.
  - destruct (index0 (PyRecord.phones r)); cbn [bind]; congruence.
  - congruence.
Qed.

Lemma show_birthday_reads (args : list pyval) (book book' : AddressBook.t)
      (reply : string) :
  show_birthday_body args book = Ok (book', reply) -> book' = book.
Proof.
  unfold show_birthday_body. destruct (index0 args) as [n|e]; cbn [bind];
    [|discriminate]. destruct (AddressBook.find book n) as [[r|]|e]; cbn [bind];
    try discriminate.
  - destruct (PyRecord.birthday r); congruence.
  - congruence.
Qed.

Lemma show_all_reads (book book' : AddressBook.t) (reply : string) :
  show_all_body tt book = Ok (book', reply) -> book' = book.
Proof. unfold show_all_body. destruct (AddressBook.data book); congruence. Qed.

Lemma show_birthdays_reads (today : Datetime.date) (book book' : AddressBook.t)
      (reply : string) :
  show_birthdays_body today tt book = Ok (book', reply) -> book' = book.
Proof.
  unfold show_birthdays_body.
  destruct (AddressBook.get_birthdays_per_week book today) as [g|e];
    cbn [bind]; [|discriminate].
  destruct g as [|x g]; [congruence|].
  destruct (birthday_lines (x :: g) (birthdays_header ++ nl)); cbn [bind];
    congruence.
Qed.

(** Every call of a handler keeps the birthdays of the book checked. *)
Lemma perform_checked (today : Datetime.date) (c : call) (book : AddressBook.t) :
  birthdays_checked book -> birthdays_checked (fst (perform today c book)).
Proof.
  intros Hc. destruct c; cbn [perform].
  - now apply add_contact_checked.
  - now apply change_contact_checked.
  - unfold show_phone.
    apply reading_keeps_book; [apply show_phone_reads | exact Hc].
  - unfold show_all.
    apply reading_keeps_book; [apply show_all_reads | exact Hc].
  - now apply add_birthday_checked.
  - unfold show_birthday.
    apply reading_keeps_book; [apply show_birthday_reads | exact Hc].
  - unfold show_birthdays.
    apply reading_keeps_book; [apply show_birthdays_reads | exact Hc].
Qed.

(** So the birthdays of a book built from the empty one by calls of the
    handlers are checked. *)
Lemma run_checked (today : Datetime.date) (cs : list call) :
  birthdays_checked (run today cs AddressBook.empty).
Proof.
  unfold run.
  assert (G : forall book, birthdays_checked book ->
                birthdays_checked
                  (fold_left (fun b c => fst (perform today c b)) cs book)).
  { induction cs as [|c cs IH]; simpl; intros book Hc; [exact Hc|].
    apply IH. now apply perform_checked. }
  apply G. intros r b [].
Qed.

End Checked.

(* ================================================================= *)
(** ** When the listing is produced *)

Section Returns.

Import Datetime.

Lemma replace_year_ok (d : date) (y : Z) :
  valid d -> 1 <= y <= 9999 -> ~ (month d = 2 /\ day d = 29) ->
  replace_year d y = Ok (mkdate y (month d) (day d)).
Proof.
  destruct d as [y0 m0 d0]. unfold valid, replace_year, make, check_date_fields.
  cbn [year month day]. intros (_ & Hm & Hd) Hy Hl.
  assert (((y <? MINYEAR) || (MAXYEAR <? y)) = false) as ->.
  { unfold MINYEAR, MAXYEAR. apply orb_false_iff. split; apply Z.ltb_ge; lia. }
  assert (((m0 <? 1) || (12 <? m0)) = false) as ->.
  { apply orb_false_iff. split; apply Z.ltb_ge; lia. }
  assert (((d0 <? 1) || (days_in_month y m0 <? d0)) = false) as ->.
  { apply orb_false_iff. split; apply Z.ltb_ge; [lia|].
    revert Hd Hl. unfold days_in_month.
    destruct (is_leap y), (is_leap y0); month_cases m0; cbn -[Z.add]; lia. }
  reflexivity.
Qed.

(** Without a birthday on 29 February, and before the last year of the
    calendar, every turn of the loop returns. *)
Lemma visit_returns (today : date) (r : PyRecord.t) (acc : AddressBook.groups) :
  valid today -> year today < 9999 ->
  (forall b, PyRecord.birthday r = Some b ->
     exists d, strptime (value b) = Ok d /\ ~ (month d = 2 /\ day d = 29)) ->
  exists acc', AddressBook.visit today r acc = Ok acc'.
Proof.
  intros Ht Hy Hb. unfold AddressBook.visit.
  destruct (PyRecord.birthday r) as [b|]; [|eexists; reflexivity].
  destruct (Hb b eq_refl) as (bd & Hs & Hl).
  pose proof (strptime_valid _ _ Hs) as Vb.
  assert (Hy1 : 1 <= year today) by (destruct Ht as ((H & _) & _); exact H).
  assert (exists occ, AddressBook.birthday_this_year today b = Ok occ) as [occ E].
  { unfold AddressBook.birthday_this_year. rewrite Hs. cbn [bind].
    rewrite (replace_year_ok bd (year today) Vb ltac:(lia) Hl). cbn [bind].
    destruct (ltb _ today); [|eexists; reflexivity].
    unfold replace_year, make, check_date_fields. cbn [year month day].
    pose proof (replace_year_ok bd (year today + 1) Vb ltac:(lia) Hl) as R.
    unfold replace_year, make, check_date_fields in R. rewrite R.
    eexists. reflexivity. }
  rewrite E. cbn [bind].
  destruct (sub_days occ today <? 7); [|eexists; reflexivity].
  rewrite birthday_day_spec by (eapply birthday_this_year_valid; eassumption).
  eexists. reflexivity.
Qed.

Lemma get_birthdays_per_week_returns (book : AddressBook.t) (today : date) :
  valid today -> year today < 9999 -> no_leap_day book ->
  exists g, AddressBook.get_birthdays_per_week book today = Ok g.
Proof.
  intros Ht Hy Hall. unfold AddressBook.get_birthdays_per_week.
  unfold no_leap_day in Hall. generalize (@nil (string * list pyval)).
  induction (AddressBook.values book) as [|r rs IH]; intros acc; simpl.
  - now exists acc.
  - destruct (visit_returns today r acc Ht Hy) as [acc' E].
    + intros b. apply Hall. now left.
    + rewrite E. cbn [bind]. apply IH. intros r' b' Hr'. apply Hall. now right.
Qed.

End Returns.

(* ================================================================= *)
(** ** Bindings of the book *)

Section Bindings.

Lemma lookup_In_pair (k : string) (r : PyRecord.t) (d : list (string * PyRecord.t)) :
  AddressBook.lookup k d = Some r -> In (k, r) d.
Proof.
  induction d as [|[k0 r0] d IH]; simpl; [discriminate|].
  destruct (String.eqb k k0) eqn:E.
  - apply String.eqb_eq in E. intros [= ->]. left. now subst.
  - intros H. right. now apply IH.
Qed.

Lemma lookup_None_keys (k : string) (d : list (string * PyRecord.t)) :
  AddressBook.lookup k d = None <-> ~ In k (map fst d).
Proof.
  induction d as [|[k0 r0] d IH]; simpl; [tauto|].
  destruct (String.eqb k k0) eqn:E.
  - apply String.eqb_eq in E. split; [discriminate | intros H; elim H; now left].
  - apply String.eqb_neq in E. rewrite IH. split.
    + intros H [H1 | H1]; [now elim E | now elim H].
    + intros H H1. apply H. now right.
Qed.

Lemma In_lookup_unique (k : string) (r : PyRecord.t)
      (d : list (string * PyRecord.t)) :
  NoDup (map fst d) -> In (k, r) d -> AddressBook.lookup k d = Some r.
Proof.
  induction d as [|[k0 r0] d IH]; simpl; [contradiction|].
  intros N. inversion N as [|? ? Hn N']; subst.
  intros [[= -> ->] | H].
  - now rewrite String.eqb_refl.
  - destruct (String.eqb k k0) eqn:E; [|now apply IH].
    apply String.eqb_eq in E. subst k0. elim Hn.
    apply in_map_iff. now exists (k, r).
Qed.

Lemma keys_store (k : string) (r : PyRecord.t) (d : list (string * PyRecord.t)) :
  map fst (AddressBook.store k r d)
  = match AddressBook.lookup k d with
    | Some _ => map fst d
    | None => (map fst d ++ [k])%list
    end.
Proof.
  induction d as [|[k0 r0] d IH]; simpl; [reflexivity|].
  destruct (String.eqb k k0) eqn:E; simpl; [reflexivity|].
  rewrite IH. now destruct (AddressBook.lookup k d).
Qed.

Lemma NoDup_store (k : string) (r : PyRecord.t) (d : list (string * PyRecord.t)) :
  NoDup (map fst d) -> NoDup (map fst (AddressBook.store k r d)).
Proof.
  intros N. rewrite keys_store.
  destruct (AddressBook.lookup k d) eqn:L; [exact N|].
  apply lookup_None_keys in L.
  apply NoDup_app; [exact N | repeat constructor; intros [] |].
  intros x Hx [<- | []]. now elim L.
Qed.

Lemma In_store_pair (k k' : string) (r r' : PyRecord.t)
      (d : list (string * PyRecord.t)) :
  In (k', r') (AddressBook.store k r d) ->
  (k' = k /\ r' = r) \/ In (k', r') d.
Proof.
  induction d as [|[k0 r0] d IH]; simpl.
  - intros [[= <- <-] | []]. now left.
  - destruct (String.eqb k k0) eqn:E; simpl.
    + apply String.eqb_eq in E. subst k0.
      intros [[= <- <-] | H]; [now left | right; now right].
    + intros [H | H]; [right; now left|].
      destruct (IH H) as [? | ?]; [now left | right; now right].
Qed.

Lemma lookup_remove_other (k k' : string) (d : list (string * PyRecord.t)) :
  k' <> k ->
  AddressBook.lookup k' (AddressBook.remove k d) = AddressBook.lookup k' d.
Proof.
  intros Hk. induction d as [|[k0 r0] d IH]; simpl; [reflexivity|].
  destruct (String.eqb k k0) eqn:E; simpl.
  - apply String.eqb_eq in E. subst k0.
    apply String.eqb_neq in Hk. now rewrite Hk.
  - now rewrite IH.
Qed.

Lemma lookup_remove_same (k : string) (d : list (string * PyRecord.t)) :
  NoDup (map fst d) -> AddressBook.lookup k (AddressBook.remove k d) = None.
Proof.
  induction d as [|[k0 r0] d IH]; simpl; [reflexivity|].
  intros N. inversion N as [|? ? Hn N']; subst.
  destruct (String.eqb k k0) eqn:E; simpl.
  - apply String.eqb_eq in E. subst k0. now apply lookup_None_keys.
  - rewrite E. now apply IH.
Qed.

Lemma remove_absent (k : string) (d : list (string * PyRecord.t)) :
  AddressBook.lookup k d = None -> AddressBook.remove k d = d.
Proof.
  induction d as [|[k0 r0] d IH]; simpl; [reflexivity|].
  destruct (String.eqb k k0); [discriminate|]. intros H. now rewrite IH.
Qed.

Lemma keys_remove_incl (k x : string) (d : list (string * PyRecord.t)) :
  In x (map fst (AddressBook.remove k d)) -> In x (map fst d).
Proof.
  induction d as [|[k0 r0] d IH]; simpl; [tauto|].
  destruct (String.eqb k k0); simpl; [now right|].
  intros [H | H]; [now left | right; now apply IH].
Qed.

Lemma NoDup_remove (k : string) (d : list (string * PyRecord.t)) :
  NoDup (map fst d) -> NoDup (map fst (AddressBook.remove k d)).
Proof.
  induction d as [|[k0 r0] d IH]; simpl; [trivial|].
  intros N. inversion N as [|? ? Hn N']; subst.
  destruct (String.eqb k k0); simpl; [exact N'|].
  constructor; [|now apply IH].
  intros H. apply Hn. now apply keys_remove_incl in H.
Qed.

End Bindings.

(** X1. [add_record] followed by [find]: a record whose name is the string
    [k] is stored, [find] then returns it for [k], what [find] returns for
    every other name is as before, and no name is bound twice afterwards if
    none was before. A record whose name is a list is refused with a
    [TypeError]. *)
Theorem add_record_then_find
        (book : AddressBook.t) (r : PyRecord.t) (k : string) :
  value (PyRecord.name r) = PStr k ->
  exists book',
    AddressBook.add_record book r = Ok book'
    /\ AddressBook.find book' (PStr k) = Ok (Some r)
    /\ (forall k', k' <> k ->
          AddressBook.find book' (PStr k') = AddressBook.find book (PStr k'))
    /\ (NoDup (keys book) -> NoDup (keys book'))
    /\ (forall l, AddressBook.add_record book (PyRecord.new (PList l))
                  = Raise AddressBook.unhashable).
Proof.
  intros Hn. unfold AddressBook.add_record, AddressBook.find. rewrite Hn.
  cbn [AddressBook.key bind]. eexists. split; [reflexivity|].
  cbn [AddressBook.data]. repeat split.
  - now rewrite lookup_store_same.
  - intros k' Hk. now rewrite lookup_store_other.
  - unfold keys. cbn [AddressBook.data]. apply NoDup_store.
Qed.

Lemma add_record_then_find_witness :
  exists book',
    AddressBook.add_record book_john (PyRecord.new (PStr "Ann")) = Ok book'
    /\ AddressBook.find book' (PStr "Ann") = Ok (Some (PyRecord.new (PStr "Ann")))
    /\ (forall k', k' <> "Ann" ->
          AddressBook.find book' (PStr k') = AddressBook.find book_john (PStr k'))
    /\ (NoDup (keys book_john) -> NoDup (keys book'))
    /\ (forall l, AddressBook.add_record book_john (PyRecord.new (PList l))
                  = Raise AddressBook.unhashable).
Proof.
  apply (add_record_then_find book_john (PyRecord.new (PStr "Ann")) "Ann").
  reflexivity.
Defined.

(** X2. [delete] followed by [find], in a book where no name is bound
    twice: after [delete] of [k], [find] returns [None] for [k] and what it
    returned before for every other name; when [k] was not in the book,
    [delete] leaves the book as it is. *)
Theorem delete_then_find (book : AddressBook.t) (k : string) :
  NoDup (keys book) ->
  exists book',
    AddressBook.delete book (PStr k) = Ok book'
    /\ AddressBook.find book' (PStr k) = Ok None
    /\ (forall k', k' <> k ->
          AddressBook.find book' (PStr k') = AddressBook.find book (PStr k'))
    /\ NoDup (keys book')
    /\ (AddressBook.find book (PStr k) = Ok None -> book' = book).
Proof.
  intros N. unfold AddressBook.delete, AddressBook.find.
  cbn [AddressBook.key bind]. eexists. split; [reflexivity|].
  cbn [AddressBook.data]. repeat split.
  - now rewrite lookup_remove_same.
  - intros k' Hk. now rewrite lookup_remove_other.
  - unfold keys. cbn [AddressBook.data]. now apply NoDup_remove.
  - intros [= H]. rewrite (remove_absent _ _ H). now destruct book.
Qed.

Lemma delete_then_find_witness :
  exists book',
    AddressBook.delete book_leap_day (PStr "Ann") = Ok book'
    /\ AddressBook.find book' (PStr "Ann") = Ok None
    /\ (forall k', k' <> "Ann" ->
          AddressBook.find book' (PStr k') = AddressBook.find book_leap_day (PStr k'))
    /\ NoDup (keys book')
    /\ (AddressBook.find book_leap_day (PStr "Ann") = Ok None
        -> book' = book_leap_day).
Proof.
  apply (delete_then_find book_leap_day "Ann").
  repeat constructor; simpl; intuition discriminate.
Defined.

(* ================================================================= *)
(** ** What the handlers keep of the book *)

Section Kept.

Lemma store_well_formed (book : AddressBook.t) (k : string) (r : PyRecord.t) :
  well_formed book ->
  value (PyRecord.name r) = PStr k ->
  (exists p, PyRecord.phones r = [p]) ->
  well_formed (AddressBook.mk (AddressBook.store k r (AddressBook.data book))).
Proof.
  intros [N W] Hn Hp. split.
  - unfold keys. cbn [AddressBook.data]. now apply NoDup_store.
  - cbn [AddressBook.data]. intros k' r' Hin.
    destruct (In_store_pair _ _ _ _ _ Hin) as [[-> ->] | Hin'];
      [now split | now apply W].
Qed.

Lemma key_inv (a : pyval) (k : string) : AddressBook.key a = Ok k -> a = PStr k.
Proof. destruct a; simpl; congruence. Qed.

Lemma add_contact_well_formed (args : list pyval) (book : AddressBook.t) :
  well_formed book -> well_formed (fst (add_contact args book)).
Proof.
  intros Hw. unfold add_contact. apply input_error_keeps; [exact Hw|].
  intros book' reply. unfold add_contact_body. unpack_two args.
  unfold PyRecord.add_phone.
  destruct (Phone b) as [f|e]; cbn [bind]; [|discriminate].
  unfold AddressBook.add_record, PyRecord.new, Name.
  cbn [PyRecord.name PyRecord.phones PyRecord.birthday value].
  destruct (AddressBook.key a) as [k|e] eqn:K; cbn [bind]; [|discriminate].
  intros [= <- _]. apply key_inv in K. subst a.
  apply store_well_formed; [exact Hw | reflexivity | now exists f].
Qed.

Lemma change_contact_well_formed (args : list pyval) (book : AddressBook.t) :
  well_formed book -> well_formed (fst (change_contact args book)).
Proof.
  intros Hw. unfold change_contact. apply input_error_keeps; [exact Hw|].
  intros book' reply. unfold change_contact_body. unpack_two args.
  unfold AddressBook.find, rebind.
  destruct (AddressBook.key a) as [k|e]; cbn [bind]; [|discriminate].
  destruct (AddressBook.lookup k (AddressBook.data book)) as [r|] eqn:L;
    [|intros [= <- _]; exact Hw].
  destruct (index0 (PyRecord.phones r)) as [first|e]; cbn [bind];
    [|discriminate].
  intros [= <- _]. apply lookup_In_pair in L.
  destruct Hw as [N W]. destruct (W k r L) as [Hn [p Hp]].
  apply store_well_formed; [now split | exact Hn |].
  cbn [PyRecord.edit_phone PyRecord.phones]. rewrite Hp. cbn [map].
  eexists. reflexivity.
Qed.

Lemma add_birthday_well_formed (args : list pyval) (book : AddressBook.t) :
  well_formed book -> well_formed (fst (add_birthday args book)).
Proof.
  intros Hw. unfold add_birthday. apply input_error_keeps; [exact Hw|].
  intros book' reply. unfold add_birthday_body. unpack_two args.
  unfold AddressBook.find, rebind.
  destruct (AddressBook.key a) as [k|e]; cbn [bind]; [|discriminate].
  destruct (AddressBook.lookup k (AddressBook.data book)) as [r|] eqn:L;
    [|intros [= <- _]; exact Hw].
  unfold PyRecord.add_birthday.
  destruct (Birthday b) as [f|e]; cbn [bind]; [|discriminate].
  intros [= <- _]. apply lookup_In_pair in L.
  destruct Hw as [N W]. destruct (W k r L) as [Hn Hp].
  apply store_well_formed; [now split | exact Hn | exact Hp].
Qed.

Lemma perform_reads (today : Datetime.date) (c : call) (book : AddressBook.t)
      (P : AddressBook.t -> Prop) :
  reads c = true -> P book -> P (fst (perform today c book)).
Proof.
  intros Hc Hb. destruct c; try discriminate; cbn [perform].
  - unfold show_phone.
    apply reading_keeps_book; [apply show_phone_reads | exact Hb].
  - unfold show_all.
    apply reading_keeps_book; [apply show_all_reads | exact Hb].
  - unfold show_birthday.
    apply reading_keeps_book; [apply show_birthday_reads | exact Hb].
  - unfold show_birthdays.
    apply reading_keeps_book; [apply show_birthdays_reads | exact Hb].
Qed.

Lemma reads_keep_book (today : Datetime.date) (c : call)
      (book : AddressBook.t) :
  reads c = true -> fst (perform today c book) = book.
Proof. intros H. now apply (perform_reads today c book (fun b => b = book)). Qed.

Lemma perform_well_formed (today : Datetime.date) (c : call) (book : AddressBook.t) :
  well_formed book -> well_formed (fst (perform today c book)).
Proof.
  intros Hw.
  destruct c;
    try (now apply perform_reads); cbn [perform].
  - now apply add_contact_well_formed.
  - now apply change_contact_well_formed.
  - now apply add_birthday_well_formed.
Qed.

Lemma run_keeps (today : Datetime.date) (P : AddressBook.t -> Prop)
      (ok : call -> bool) (cs : list call) :
  (forall c book, ok c = true -> P book -> P (fst (perform today c book))) ->
  forallb ok cs = true ->
  forall book, P book -> P (run today cs book).
Proof.
  intros Hstep. unfold run. induction cs as [|c cs IH]; simpl; intros Hall book Hb.
  - exact Hb.
  - apply andb_true_iff in Hall as [Hc Hcs]. apply IH; [exact Hcs|].
    now apply Hstep.
Qed.

Lemma run_well_formed_from (today : Datetime.date) (cs : list call)
      (book : AddressBook.t) :
  well_formed book -> well_formed (run today cs book).
Proof.
  apply (run_keeps today well_formed (fun _ => true)).
  - intros c b _. apply perform_well_formed.
  - now apply forallb_forall.
Qed.

Lemma empty_well_formed : well_formed AddressBook.empty.
Proof. split; [constructor | intros k r []]. Qed.

Lemma show_phone_well_formed (book : AddressBook.t) (k : string) (r : PyRecord.t) :
  well_formed book ->
  AddressBook.lookup k (AddressBook.data book) = Some r ->
  exists p, PyRecord.phones r = [p]
            /\ show_phone [PStr k] book
               = (book, Ok (k ++ "'s phone number: " ++ py_str (value p))).
Proof.
  intros [_ W] L. destruct (W k r (lookup_In_pair _ _ _ L)) as [_ [p Hp]].
  exists p. split; [exact Hp|].
  unfold show_phone, input_error, show_phone_body, AddressBook.find.
  cbn [index0 bind AddressBook.key]. rewrite L, Hp. reflexivity.
Qed.

End Kept.

(** X3. Whatever calls of the handlers are made, with whatever arguments,
    starting from the empty book: no name is bound twice, every record is
    bound under the value of its own name, and every record holds exactly
    one phone. *)
Theorem handlers_keep_book_well_formed (today : Datetime.date) (cs : list call) :
  well_formed (run today cs AddressBook.empty).
Proof. apply run_well_formed_from. apply empty_well_formed. Qed.

(** X4. In a book built by calls of the handlers, [show_phone] for a name
    that is in the book never fails on the phone list: it replies with the
    one phone the contact holds, and leaves the book as it is. *)
Theorem show_phone_of_stored_contact
        (today : Datetime.date) (cs : list call) (k : string) (r : PyRecord.t) :
  let book := run today cs AddressBook.empty in
  AddressBook.lookup k (AddressBook.data book) = Some r ->
  exists p, PyRecord.phones r = [p]
            /\ show_phone [PStr k] book
               = (book, Ok (k ++ "'s phone number: " ++ py_str (value p))).
Proof.
  intros book L. apply show_phone_well_formed; [|exact L].
  apply run_well_formed_from. apply empty_well_formed.
Qed.

Lemma show_phone_of_stored_contact_witness :
  exists p, PyRecord.phones john = [p]
            /\ show_phone [PStr "John"] book_john
               = (book_john, Ok ("John's phone number: " ++ py_str (value p))).
Proof.
  apply (show_phone_of_stored_contact new_years_eve_2024
           [Add (strs ["John"; "1234567890"])] "John" john).
  reflexivity.
Defined.

(** X5. [add_contact] with a phone that [Phone] accepts, for the name [k]:
    the reply is "Contact added." and the book then binds [k] to a new
    record with that phone alone and no birthday, so the phones and the
    birthday a contact of that name had are gone; every other contact is as
    before, and the order of the names is kept, a new name going last. *)
Theorem add_contact_overwrites (book : AddressBook.t) (k p : string) :
  Phone (PStr p) = Ok (mkField (PStr p)) ->
  exists book',
    add_contact [PStr k; PStr p] book = (book', Ok "Contact added.")
    /\ AddressBook.lookup k (AddressBook.data book')
       = Some (PyRecord.mk (Name (PStr k)) [mkField (PStr p)] None)
    /\ (forall k', k' <> k ->
          AddressBook.lookup k' (AddressBook.data book')
          = AddressBook.lookup k' (AddressBook.data book))
    /\ keys book' = match AddressBook.lookup k (AddressBook.data book) with
                    | Some _ => keys book
                    | None => (keys book ++ [k])%list
                    end.
Proof.
  intros H. unfold add_contact, input_error, add_contact_body, PyRecord.add_phone.
  cbn [unpack2 bind]. rewrite H. cbn. eexists. split; [reflexivity|].
  cbn [AddressBook.data]. repeat split.
  - apply lookup_store_same.
  - intros k' Hk. now apply lookup_store_other.
  - unfold keys. cbn [AddressBook.data]. apply keys_store.
Qed.

Lemma add_contact_overwrites_witness :
  exists book',
    add_contact [PStr "John"; PStr "0987654321"] book_new_year
    = (book', Ok "Contact added.")
    /\ AddressBook.lookup "John" (AddressBook.data book')
       = Some (PyRecord.mk (Name (PStr "John")) [mkField (PStr "0987654321")] None)
    /\ (forall k', k' <> "John" ->
          AddressBook.lookup k' (AddressBook.data book')
          = AddressBook.lookup k' (AddressBook.data book_new_year))
    /\ keys book' = keys book_new_year.
Proof.
  apply (add_contact_overwrites book_new_year "John" "0987654321").
  reflexivity.
Defined.

(** X6. The handlers in sequence, for every book, name and pair of strings
    of which the first is a phone that [Phone] accepts: after [add_contact],
    [show_phone] replies with the phone added; [change_contact] then replies
    "Contact updated." for any second string, and [show_phone] replies with
    that string. *)
Theorem add_show_change_show (book : AddressBook.t) (k p q : string) :
  Phone (PStr p) = Ok (mkField (PStr p)) ->
  let b1 := fst (add_contact [PStr k; PStr p] book) in
  let b2 := fst (change_contact [PStr k; PStr q] b1) in
  show_phone [PStr k] b1 = (b1, Ok (k ++ "'s phone number: " ++ p))
  /\ snd (change_contact [PStr k; PStr q] b1) = Ok "Contact updated."
  /\ show_phone [PStr k] b2 = (b2, Ok (k ++ "'s phone number: " ++ q)).
Proof.
  intros H b1 b2.
  assert (E1 : AddressBook.lookup k (AddressBook.data b1)
               = Some (PyRecord.mk (Name (PStr k)) [mkField (PStr p)] None)).
  { subst b1. unfold add_contact, input_error, add_contact_body,
      PyRecord.add_phone. cbn [unpack2 bind]. rewrite H. cbn.
    apply lookup_store_same. }
  assert (E2 : change_contact [PStr k; PStr q] b1
               = (AddressBook.mk
                    (AddressBook.store k
                       (PyRecord.mk (Name (PStr k)) [mkField (PStr q)] None)
                       (AddressBook.data b1)), Ok "Contact updated.")).
  { unfold change_contact, input_error, change_contact_body, AddressBook.find.
    cbn [unpack2 bind AddressBook.key]. rewrite E1.
    cbn [index0 bind PyRecord.phones rebind AddressBook.key].
    unfold PyRecord.edit_phone. cbn [PyRecord.phones map value].
    now rewrite py_eqb_refl. }
  repeat split.
  - unfold show_phone, input_error, show_phone_body, AddressBook.find.
    cbn [index0 bind AddressBook.key]. now rewrite E1.
  - now rewrite E2.
  - subst b2. rewrite E2. cbn [fst].
    unfold show_phone, input_error, show_phone_body, AddressBook.find.
    cbn [index0 bind AddressBook.key AddressBook.data].
    now rewrite lookup_store_same.
Qed.

Lemma add_show_change_show_witness :
  let b1 := fst (add_contact [PStr "John"; PStr "1234567890"] AddressBook.empty) in
  let b2 := fst (change_contact [PStr "John"; PStr "0987654321"] b1) in
  show_phone [PStr "John"] b1 = (b1, Ok "John's phone number: 1234567890")
  /\ snd (change_contact [PStr "John"; PStr "0987654321"] b1)
     = Ok "Contact updated."
  /\ show_phone [PStr "John"] b2 = (b2, Ok "John's phone number: 0987654321").
Proof.
  apply (add_show_change_show AddressBook.empty "John" "1234567890" "0987654321").
  reflexivity.
Defined.

(** X7. The handlers [show_phone], [show_all], [show_birthday] and
    [show_birthdays] leave the book as it is, whatever their arguments and
    whether they reply or raise. *)
Theorem showing_keeps_the_book
        (today : Datetime.date) (c : call) (book : AddressBook.t) :
  reads c = true -> fst (perform today c book) = book.
Proof. intros H. now apply (perform_reads today c book (fun b => b = book)). Qed.

Lemma showing_keeps_the_book_witness :
  fst (perform new_years_eve_2024 Birthdays book_leap_day) = book_leap_day.
Proof.
  apply (showing_keeps_the_book new_years_eve_2024 Birthdays book_leap_day).
  reflexivity.
Defined.

(* ================================================================= *)
(** ** Phones and birthdays put in the book *)

Section Stored.

Lemma all_phones_spec (p : pyval -> bool) (book : AddressBook.t) :
  all_phones p book = true <->
  forall r, In r (AddressBook.values book) ->
            forall f, In f (PyRecord.phones r) -> p (value f) = true.
Proof.
  unfold all_phones. rewrite forallb_forall. split.
  - intros H r Hr f Hf. specialize (H r Hr). rewrite forallb_forall in H.
    now apply H.
  - intros H r Hr. apply forallb_forall. intros f Hf. now apply (H r).
Qed.

Lemma store_all_phones (p : pyval -> bool) (book : AddressBook.t) (k : string)
      (r : PyRecord.t) :
  all_phones p book = true ->
  (forall f, In f (PyRecord.phones r) -> p (value f) = true) ->
  all_phones p (AddressBook.mk (AddressBook.store k r (AddressBook.data book)))
  = true.
Proof.
  rewrite !all_phones_spec. intros Hb Hr x Hx. unfold AddressBook.values in Hx.
  cbn [AddressBook.data] in Hx.
  destruct (In_store _ _ _ _ Hx) as [-> | Hin]; [exact Hr | now apply Hb].
Qed.

Lemma add_contact_all_phones (args : list pyval) (book : AddressBook.t) :
  all_phones phone_accepted book = true ->
  all_phones phone_accepted (fst (add_contact args book)) = true.
Proof.
  intros Hp. unfold add_contact.
  apply (input_error_keeps (fun b => all_phones phone_accepted b = true));
    [exact Hp|].
  intros book' reply. unfold add_contact_body. unpack_two args.
  unfold PyRecord.add_phone.
  destruct (Phone b) as [f|e] eqn:F; cbn [bind]; [|discriminate].
  unfold AddressBook.add_record, PyRecord.new, Name.
  cbn [PyRecord.name PyRecord.phones PyRecord.birthday value].
  destruct (AddressBook.key a) as [k|e]; cbn [bind]; [|discriminate].
  intros [= <- _]. apply store_all_phones; [exact Hp|].
  cbn [PyRecord.phones app]. intros f0 [<- | []].
  pose proof (Phone_ok _ _ F) as ->. cbn [value]. unfold phone_accepted.
  now rewrite F.
Qed.

Lemma add_birthday_all_phones (args : list pyval) (book : AddressBook.t) :
  all_phones phone_accepted book = true ->
  all_phones phone_accepted (fst (add_birthday args book)) = true.
Proof.
  intros Hp. unfold add_birthday.
  apply (input_error_keeps (fun b => all_phones phone_accepted b = true));
    [exact Hp|].
  intros book' reply. unfold add_birthday_body. unpack_two args.
  unfold AddressBook.find, rebind.
  destruct (AddressBook.key a) as [k|e]; cbn [bind]; [|discriminate].
  destruct (AddressBook.lookup k (AddressBook.data book)) as [r|] eqn:L;
    [|intros [= <- _]; exact Hp].
  unfold PyRecord.add_birthday.
  destruct (Birthday b) as [f|e]; cbn [bind]; [|discriminate].
  intros [= <- _]. apply store_all_phones; [exact Hp|].
  cbn [PyRecord.phones]. apply lookup_In in L.
  rewrite all_phones_spec in Hp. now apply Hp.
Qed.

(** [strptime] of a string returns, or raises a [ValueError]. *)
Lemma strptime_str_cases (s : string) :
  (exists d, strptime (PStr s) = Ok d)
  \/ (exists msg, strptime (PStr s) = Raise (ValueError msg)).
Proof.
  unfold strptime, Strptime.strptime.
  repeat match goal with
  | |- context [match ?x with _ => _ end] => destruct x
  end;
  try (right; eexists; reflexivity).
  unfold Datetime.make, Datetime.check_date_fields.
  repeat match goal with
  | |- context [if ?x then _ else _] => destruct x
  end; cbn [bind];
  solve [left; eexists; reflexivity | right; eexists; reflexivity].
Qed.

Lemma Birthday_str_cases (s : string) :
  (Birthday (PStr s) = Ok (mkField (PStr s))
   /\ exists d, strptime (PStr s) = Ok d /\ Datetime.valid d)
  \/ Birthday (PStr s) = Raise (ValueError birthday_error).
Proof.
  unfold Birthday.
  destruct (strptime_str_cases s) as [[d E] | [msg E]]; rewrite E.
  - left. split; [reflexivity|]. exists d. split; [reflexivity|].
    now apply strptime_valid in E.
  - now right.
Qed.

End Stored.

(** X8. As long as [change_contact] is not among the calls, every phone
    value in a book built by the handlers from the empty book is one that
    [Phone] accepts. *)
Theorem phones_accepted_without_change (today : Datetime.date) (cs : list call) :
  forallb no_change cs = true ->
  all_phones phone_accepted (run today cs AddressBook.empty) = true.
Proof.
  intros H.
  apply (run_keeps today (fun b => all_phones phone_accepted b = true)
           no_change cs); [|exact H|reflexivity].
  intros c book Hc Hb.
  destruct c; try discriminate;
    try (now apply (perform_reads today _ book
                      (fun b => all_phones phone_accepted b = true)));
    cbn [perform].
  - now apply add_contact_all_phones.
  - now apply add_birthday_all_phones.
Qed.

Lemma phones_accepted_without_change_witness :
  all_phones phone_accepted
    (run new_years_eve_2024
         [Add (strs ["John"; "1234567890"]); Add (strs ["Ann"; "12"]);
          AddBirthday (strs ["John"; "01.01.1990"]); ShowAll]
         AddressBook.empty) = true.
Proof.
  apply (phones_accepted_without_change new_years_eve_2024).
  reflexivity.
Defined.

(** X9. [Birthday] on a string: either it accepts the string, which then
    reads as a valid calendar date, or it raises its own [ValueError]; no
    other exception leaves it. On a list it raises a [TypeError]. *)
Theorem Birthday_accepts_only_dates (s : string) :
  ((Birthday (PStr s) = Ok (mkField (PStr s))
    /\ exists d, strptime (PStr s) = Ok d /\ Datetime.valid d)
   \/ Birthday (PStr s) = Raise (ValueError birthday_error))
  /\ forall l, exists msg, Birthday (PList l) = Raise (TypeError msg).
Proof.
  split; [apply Birthday_str_cases|]. intros l. eexists. reflexivity.
Qed.

(** X10. [add_birthday] for a contact that is in the book, with a string
    [Birthday] does not accept: the book is left as it is and the reply is
    the validation message of [Birthday]. *)
Theorem add_birthday_bad_date_keeps_book
        (book : AddressBook.t) (k s : string) (r : PyRecord.t) :
  AddressBook.lookup k (AddressBook.data book) = Some r ->
  (forall f, Birthday (PStr s) <> Ok f) ->
  add_birthday [PStr k; PStr s] book = (book, Ok birthday_error).
Proof.
  intros L H.
  unfold add_birthday, input_error, add_birthday_body, AddressBook.find,
    PyRecord.add_birthday.
  cbn [unpack2 bind AddressBook.key]. rewrite L.
  destruct (Birthday_str_cases s) as [[E _] | E]; [now elim (H _ E)|].
  rewrite E. reflexivity.
Qed.

Lemma add_birthday_bad_date_keeps_book_witness :
  add_birthday [PStr "John"; PStr "31.02.2024"] book_john
  = (book_john, Ok birthday_error).
Proof.
  apply (add_birthday_bad_date_keeps_book book_john "John" "31.02.2024" john).
  - reflexivity.
  - intros f. vm_compute. discriminate.
Defined.

(** X11. [add_birthday] followed by [show_birthday]: for a contact that is
    in the book and a string that reads as a date, the reply is
    "Birthday added.", the contact keeps its name and phones and now holds
    that string as its birthday (in place of any earlier one), the other
    contacts are as before, and [show_birthday] replies with the string as
    it was given. *)
Theorem add_birthday_then_show
        (book : AddressBook.t) (k s : string) (r : PyRecord.t) (d : Datetime.date) :
  AddressBook.lookup k (AddressBook.data book) = Some r ->
  strptime (PStr s) = Ok d ->
  exists book',
    add_birthday [PStr k; PStr s] book = (book', Ok "Birthday added.")
    /\ AddressBook.lookup k (AddressBook.data book')
       = Some (PyRecord.mk (PyRecord.name r) (PyRecord.phones r)
                           (Some (mkField (PStr s))))
    /\ (forall k', k' <> k ->
          AddressBook.lookup k' (AddressBook.data book')
          = AddressBook.lookup k' (AddressBook.data book))
    /\ show_birthday [PStr k] book' = (book', Ok (k ++ "'s birthday: " ++ s)).
Proof.
  intros L E.
  unfold add_birthday, input_error, add_birthday_body, AddressBook.find,
    PyRecord.add_birthday, Birthday.
  cbn [unpack2 bind AddressBook.key]. rewrite L, E.
  cbn [bind rebind AddressBook.key]. eexists. split; [reflexivity|].
  cbn [AddressBook.data]. repeat split.
  - apply lookup_store_same.
  - intros k' Hk. now apply lookup_store_other.
  - unfold show_birthday, input_error, show_birthday_body, AddressBook.find.
    cbn [index0 bind AddressBook.key AddressBook.data].
    rewrite lookup_store_same. reflexivity.
Qed.

Lemma add_birthday_then_show_witness :
  exists book',
    add_birthday [PStr "John"; PStr "29.02.2000"] book_john
    = (book', Ok "Birthday added.")
    /\ AddressBook.lookup "John" (AddressBook.data book')
       = Some (PyRecord.mk (Name (PStr "John")) [mkField (PStr "1234567890")]
                           (Some (mkField (PStr "29.02.2000"))))
    /\ (forall k', k' <> "John" ->
          AddressBook.lookup k' (AddressBook.data book')
          = AddressBook.lookup k' (AddressBook.data book_john))
    /\ show_birthday [PStr "John"] book'
       = (book', Ok "John's birthday: 29.02.2000").
Proof.
  apply (add_birthday_then_show book_john "John" "29.02.2000" john
           (Datetime.mkdate 2000 2 29)); reflexivity.
Defined.

(* ================================================================= *)
(** ** Reading a date written as DD.MM.YYYY *)

Section DateText.

Lemma digit_char_facts (a : Z) :
  0 <= a <= 9 ->
  Strptime.digit (digit_char a) = true
  /\ Py.isspace (digit_char a) = false
  /\ Py.digit_val (digit_char a) = a.
Proof. intros H. digit_cases a; repeat split. Qed.

Lemma year_groups (y : Z) :
  0 <= y <= 9999 ->
  Strptime.match_groups [Strptime.year_re] (Py.chars (four_digits y))
  = Some ([Py.chars (four_digits y)], [])
  /\ Strptime.int_of (Py.chars (four_digits y)) = y.
Proof.
  intros Hy. unfold four_digits.
  set (a := y / 1000). set (b := y / 100 mod 10). set (c := y / 10 mod 10).
  set (e := y mod 10).
  assert (Ha : 0 <= a <= 9) by (subst a; Z.div_mod_to_equations; lia).
  assert (Hb : 0 <= b <= 9) by (subst b; Z.div_mod_to_equations; lia).
  assert (Hc : 0 <= c <= 9) by (subst c; Z.div_mod_to_equations; lia).
  assert (He : 0 <= e <= 9) by (subst e; Z.div_mod_to_equations; lia).
  assert (Hy' : y = 1000 * a + 100 * b + 10 * c + e)
    by (subst a b c e; Z.div_mod_to_equations; lia).
  clearbody a b c e.
  destruct (digit_char_facts a Ha) as (A1 & A2 & A3).
  destruct (digit_char_facts b Hb) as (B1 & B2 & B3).
  destruct (digit_char_facts c Hc) as (C1 & C2 & C3).
  destruct (digit_char_facts e He) as (E1 & E2 & E3).
  split.
  - cbn [Py.chars list_ascii_of_string Strptime.match_groups Strptime.year_re
         Strptime.alts flat_map Strptime.match_seq].
    rewrite A1, B1, C1, E1. reflexivity.
  - unfold Strptime.int_of. cbn [Py.chars list_ascii_of_string filter].
    rewrite A2, B2, C2, E2. cbn [negb]. unfold Py.int_of_digits.
    cbn [Py.int_go]. rewrite A3, B3, C3, E3. lia.
Qed.

Lemma chars_app (a b : string) :
  Py.chars (a ++ b) = (Py.chars a ++ Py.chars b)%list.
Proof. induction a as [|c a IH]; simpl; [reflexivity | now rewrite IH]. Qed.

Lemma int_two_digits (n : Z) :
  0 <= n <= 99 -> Strptime.int_of (Py.chars (two_digits n)) = n.
Proof.
  intros Hn. unfold two_digits. set (a := n / 10). set (b := n mod 10).
  assert (Ha : 0 <= a <= 9) by (subst a; Z.div_mod_to_equations; lia).
  assert (Hb : 0 <= b <= 9) by (subst b; Z.div_mod_to_equations; lia).
  assert (Hn' : n = 10 * a + b) by (subst a b; Z.div_mod_to_equations; lia).
  clearbody a b.
  destruct (digit_char_facts a Ha) as (_ & A2 & A3).
  destruct (digit_char_facts b Hb) as (_ & B2 & B3).
  unfold Strptime.int_of. cbn [Py.chars list_ascii_of_string filter].
  rewrite A2, B2. cbn [negb]. unfold Py.int_of_digits. cbn [Py.int_go].
  rewrite A3, B3. lia.
Qed.

(** When the first alternative of a group that matches leads to a match of
    the groups that follow, that is the match. *)
Lemma match_groups_first (g : list (list Strptime.cls))
      (gs : list (list (list Strptime.cls))) (cs m r : list ascii)
      (others : list (list ascii * list ascii)) (ms : list (list ascii))
      (r' : list ascii) :
  Strptime.alts g cs = (m, r) :: others ->
  Strptime.match_groups gs r = Some (ms, r') ->
  Strptime.match_groups (g :: gs) cs = Some (m :: ms, r').
Proof.
  intros H1 H2. cbn [Strptime.match_groups]. rewrite H1.
  cbn [Strptime.first_some fst snd]. now rewrite H2.
Qed.

Lemma alts_day (d : Z) (rest : list ascii) :
  1 <= d <= 31 ->
  exists others,
    Strptime.alts Strptime.day_re (Py.chars (two_digits d) ++ "."%char :: rest)
    = (Py.chars (two_digits d), "."%char :: rest) :: others.
Proof. intros H. day_cases d; eexists; reflexivity. Qed.

Lemma alts_month (m : Z) (rest : list ascii) :
  1 <= m <= 12 ->
  exists others,
    Strptime.alts Strptime.month_re (Py.chars (two_digits m) ++ "."%char :: rest)
    = (Py.chars (two_digits m), "."%char :: rest) :: others.
Proof. intros H. month_cases m; eexists; reflexivity. Qed.

Lemma format_groups (d m y : Z) :
  1 <= d <= 31 -> 1 <= m <= 12 -> 0 <= y <= 9999 ->
  Strptime.match_groups Strptime.format_re (Py.chars (dd_mm_yyyy d m y))
  = Some ([Py.chars (two_digits d); ["."%char]; Py.chars (two_digits m);
           ["."%char]; Py.chars (four_digits y)], []).
Proof.
  intros Hd Hm Hy. unfold dd_mm_yyyy. rewrite !chars_app.
  change (Py.chars ".") with ["."%char]. cbn [app].
  destruct (alts_day d (Py.chars (two_digits m)
                        ++ "."%char :: Py.chars (four_digits y)) Hd) as [o1 A1].
  destruct (alts_month m (Py.chars (four_digits y)) Hm) as [o2 A2].
  destruct (year_groups y Hy) as [Y _].
  unfold Strptime.format_re.
  eapply match_groups_first; [exact A1|].
  eapply match_groups_first; [reflexivity|].
  eapply match_groups_first; [exact A2|].
  eapply match_groups_first; [reflexivity|].
  exact Y.
Qed.

Lemma strptime_dd_mm_yyyy (d m y : Z) :
  1 <= d <= 31 -> 1 <= m <= 12 -> 0 <= y <= 9999 ->
  Strptime.strptime (dd_mm_yyyy d m y) = Datetime.make y m d.
Proof.
  intros Hd Hm Hy. unfold Strptime.strptime.
  rewrite (format_groups d m y Hd Hm Hy).
  rewrite (int_two_digits d), (int_two_digits m) by lia.
  now rewrite (proj2 (year_groups y Hy)).
Qed.

End DateText.

(** X12. A day from 1 to 31, a month from 1 to 12 and a year from 0 to 9999
    written as DD.MM.YYYY, with two, two and four digits: [strptime] reads
    the three numbers back, and [Birthday] accepts the text exactly when the
    year is not 0 and the month of that year has the day (so 29.02 of a leap
    year is accepted, 29.02 of another year and 31.02 are refused); when it
    refuses, it raises its own [ValueError]. *)
Theorem Birthday_on_date_text (d m y : Z) :
  1 <= d <= 31 -> 1 <= m <= 12 -> 0 <= y <= 9999 ->
  let text := PStr (dd_mm_yyyy d m y) in
  Birthday text
  = (if (1 <=? y) && (d <=? Datetime.days_in_month y m)
     then Ok (mkField text)
     else Raise (ValueError birthday_error))
  /\ (Birthday text = Ok (mkField text) ->
      strptime text = Ok (Datetime.mkdate y m d)).
Proof.
  intros Hd Hm Hy text. unfold Birthday, text, strptime.
  rewrite (strptime_dd_mm_yyyy d m y Hd Hm Hy).
  unfold Datetime.make, Datetime.check_date_fields, Datetime.MINYEAR,
    Datetime.MAXYEAR.
  assert (((m <? 1) || (12 <? m)) = false) as ->
    by (apply orb_false_iff; split; apply Z.ltb_ge; lia).
  assert ((d <? 1) = false) as -> by (apply Z.ltb_ge; lia).
  assert ((9999 <? y) = false) as -> by (apply Z.ltb_ge; lia).
  rewrite orb_false_r. cbn [orb].
  destruct (Z.ltb_spec y 1) as [Y | Y];
    [assert ((1 <=? y) = false) as -> by (apply Z.leb_gt; lia)
    |assert ((1 <=? y) = true) as -> by (apply Z.leb_le; lia)];
    cbn [andb bind].
  - split; [reflexivity | discriminate].
  - destruct (Z.ltb_spec (Datetime.days_in_month y m) d) as [D | D];
      [assert ((d <=? Datetime.days_in_month y m) = false) as ->
         by (apply Z.leb_gt; lia)
      |assert ((d <=? Datetime.days_in_month y m) = true) as ->
         by (apply Z.leb_le; lia)];
      cbn [bind]; split; (reflexivity || discriminate || tauto).
Qed.

Lemma Birthday_on_date_text_witness :
  Birthday (PStr "29.02.2000") = Ok (mkField (PStr "29.02.2000"))
  /\ (Birthday (PStr "29.02.2000") = Ok (mkField (PStr "29.02.2000")) ->
      strptime (PStr "29.02.2000") = Ok (Datetime.mkdate 2000 2 29)).
Proof.
  apply (Birthday_on_date_text 29 2 2000); lia.
Defined.

(* ================================================================= *)
(** ** The listing, group by group *)

Section Listing.

Import Datetime.

Lemma group_or_nil_append (day k : string) (v : pyval) (g : AddressBook.groups) :
  group_or_nil day (AddressBook.append k v g)
  = (group_or_nil day g ++ (if String.eqb day k then [v] else []))%list.
Proof.
  unfold group_or_nil. induction g as [|[k0 l] g IH]; simpl.
  - destruct (String.eqb day k); reflexivity.
  - destruct (String.eqb k k0) eqn:E; simpl.
    + apply String.eqb_eq in E. subst k0.
      destruct (String.eqb day k); [reflexivity | now rewrite app_nil_r].
    + destruct (String.eqb day k0) eqn:E0; [|exact IH].
      apply String.eqb_eq in E0. subst k0.
      rewrite String.eqb_sym, E. now rewrite app_nil_r.
Qed.

Lemma filed_under_working_day (w : Z) :
  0 <= w < 7 -> In (filed_under w) working_days.
Proof.
  intros H.
  assert (w = 0 \/ w = 1 \/ w = 2 \/ w = 3 \/ w = 4 \/ w = 5 \/ w = 6)
    as [-> | [-> | [-> | [-> | [-> | [-> | ->]]]]]] by lia;
    cbn; tauto.
Qed.

Lemma tidy_append (k : string) (v : pyval) (g : AddressBook.groups) :
  In k working_days -> tidy g -> tidy (AddressBook.append k v g).
Proof.
  intros Hk. unfold tidy. induction g as [|[k0 l] g IH]; simpl; intros T.
  - constructor; [|constructor]. split; [discriminate | exact Hk].
  - inversion T as [|? ? [Hl Hd] T']; subst. cbn [fst snd] in Hl, Hd.
    destruct (String.eqb k k0); constructor; cbn [fst snd];
      try (split; [|exact Hd]); try exact T'; try (now apply IH).
    + now destruct l.
    + exact Hl.
Qed.

Lemma group_In (day : string) (names : list pyval) (g : AddressBook.groups) :
  AddressBook.group day g = Some names -> In (day, names) g.
Proof.
  induction g as [|[k0 l] g IH]; simpl; [discriminate|].
  destruct (String.eqb day k0) eqn:E.
  - apply String.eqb_eq in E. intros [= ->]. left. now subst.
  - intros H. right. now apply IH.
Qed.

Lemma visit_groups (today : date) (r : PyRecord.t) (acc acc' : AddressBook.groups) :
  AddressBook.visit today r acc = Ok acc' ->
  (tidy acc -> tidy acc')
  /\ forall day,
       group_or_nil day acc'
       = (group_or_nil day acc
          ++ (if selected_on today day r then [name_of r] else []))%list.
Proof.
  unfold AddressBook.visit, selected_on.
  destruct (PyRecord.birthday r) as [b|].
  2:{ intros [= <-]. split; [tauto | intros day; now rewrite app_nil_r]. }
  destruct (AddressBook.birthday_this_year today b) as [occ|e] eqn:E;
    cbn [bind]; [|discriminate].
  destruct (sub_days occ today <? 7).
  2:{ intros [= <-]. split; [tauto | intros day; now rewrite app_nil_r]. }
  rewrite birthday_day_spec by (eapply birthday_this_year_valid; eassumption).
  cbn [bind andb]. intros [= <-]. split.
  - apply tidy_append. apply filed_under_working_day. apply weekday_range.
  - intros day. apply group_or_nil_append.
Qed.

Lemma visit_all_groups (today : date) (rs : list PyRecord.t) :
  forall acc g,
    AddressBook.visit_all today rs acc = Ok g ->
    (tidy acc -> tidy g)
    /\ forall day,
         group_or_nil day g
         = (group_or_nil day acc
            ++ map name_of (filter (selected_on today day) rs))%list.
Proof.
  induction rs as [|r rs IH]; simpl; intros acc g H.
  - injection H as <-. split; [tauto | intros day; now rewrite app_nil_r].
  - destruct (AddressBook.visit today r acc) as [acc'|e] eqn:E; cbn [bind] in H;
      [|discriminate].
    destruct (visit_groups _ _ _ _ E) as [T1 G1].
    destruct (IH _ _ H) as [T2 G2]. split; [tauto|].
    intros day. rewrite G2, G1, <- app_assoc. f_equal.
    now destruct (selected_on today day r).
Qed.

End Listing.

(** X13. When [get_birthdays_per_week] returns, the list filed under each
    day is the list of the names of the contacts, in the order of the book,
    whose occurrence is less than 7 days away and falls on that day
    (Saturday and Sunday counting as Monday); the mapping has no empty group
    and no group other than Monday to Friday. *)
Theorem birthdays_grouped_in_book_order
        (book : AddressBook.t) (today : Datetime.date) (g : AddressBook.groups) :
  AddressBook.get_birthdays_per_week book today = Ok g ->
  (forall day,
     group_or_nil day g
     = map name_of (filter (selected_on today day) (AddressBook.values book)))
  /\ (forall day names, AddressBook.group day g = Some names ->
                        names <> [] /\ In day working_days).
Proof.
  intros H. unfold AddressBook.get_birthdays_per_week in H.
  destruct (visit_all_groups today _ _ _ H) as [T G]. split.
  - intros day. now rewrite G.
  - intros day names Hg. apply group_In in Hg.
    assert (Tg : tidy g) by (apply T; constructor).
    unfold tidy in Tg. rewrite Forall_forall in Tg. exact (Tg _ Hg).
Qed.

Lemma birthdays_grouped_in_book_order_witness :
  (forall day,
     group_or_nil day [("Wednesday", [PStr "John"])]
     = map name_of (filter (selected_on new_years_eve_2024 day)
                           (AddressBook.values book_new_year)))
  /\ (forall day names,
        AddressBook.group day [("Wednesday", [PStr "John"])] = Some names ->
        names <> [] /\ In day working_days).
Proof.
  apply (birthdays_grouped_in_book_order book_new_year new_years_eve_2024).
  reflexivity.
Defined.

(** X14. When every birthday in the book has its occurrence 7 days away or
    more (in particular when no contact has a birthday),
    [get_birthdays_per_week] returns the empty mapping and [show_birthdays]
    replies "No birthdays in the next week.". *)
Theorem no_birthday_in_the_week (book : AddressBook.t) (today : Datetime.date) :
  (forall r b, In r (AddressBook.values book) -> PyRecord.birthday r = Some b ->
     exists occ, AddressBook.birthday_this_year today b = Ok occ
                 /\ 7 <= Datetime.sub_days occ today) ->
  AddressBook.get_birthdays_per_week book today = Ok []
  /\ show_birthdays today tt book = (book, Ok no_birthdays_reply).
Proof.
  intros H.
  assert (E : AddressBook.get_birthdays_per_week book today = Ok []).
  { unfold AddressBook.get_birthdays_per_week.
    generalize (@nil (string * list pyval)).
    induction (AddressBook.values book) as [|r rs IH]; intros acc; simpl;
      [reflexivity|].
    assert (V : AddressBook.visit today r acc = Ok acc).
    { unfold AddressBook.visit. destruct (PyRecord.birthday r) as [b|] eqn:B;
        [|reflexivity].
      destruct (H r b (or_introl eq_refl) B) as (occ & O & D). rewrite O.
      cbn [bind].
      assert ((Datetime.sub_days occ today <? 7) = false) as ->
        by (apply Z.ltb_ge; lia).
      reflexivity. }
    rewrite V. cbn [bind]. apply IH. intros r' b' Hr'. apply H. now right. }
  split; [exact E|].
  unfold show_birthdays, input_error, show_birthdays_body. now rewrite E.
Qed.

Lemma no_birthday_in_the_week_witness :
  AddressBook.get_birthdays_per_week book_new_year (Datetime.mkdate 2024 6 1)
  = Ok []
  /\ show_birthdays (Datetime.mkdate 2024 6 1) tt book_new_year
     = (book_new_year, Ok no_birthdays_reply).
Proof.
  apply (no_birthday_in_the_week book_new_year (Datetime.mkdate 2024 6 1)).
  intros r b [<- | []] [= <-].
  exists (Datetime.mkdate 2025 1 1). split; [reflexivity | vm_compute; discriminate].
Defined.

(* ================================================================= *)
(** ** Dates and their ordinals, back and forth *)

Section RoundTrip.

Import Datetime.

Lemma fromordinal_valid (n : Z) :
  1 <= n <= MAXORDINAL -> valid (fromordinal n).
Proof.
  intros Hn. unfold MAXORDINAL in Hn.
  unfold fromordinal, ord2ymd, DI400Y, DI100Y, DI4Y.
  set (n0 := n - 1).
  set (r400 := n0 mod 146097). set (q400 := n0 / 146097).
  set (r100 := r400 mod 36524). set (q100 := r400 / 36524).
  set (r4 := r100 mod 1461). set (q4 := r100 / 1461).
  set (r1 := r4 mod 365). set (q1 := r4 / 365).
  cbv zeta.
  div_facts q400 r400 n0 146097. div_facts q100 r100 r400 36524.
  div_facts q4 r4 r100 1461. div_facts q1 r1 r4 365.
  assert (Hn0 : n0 = n - 1) by reflexivity.
  clearbody n0 r400 q400 r100 q100 r4 q4 r1 q1.
  destruct ((q1 =? 4) || (q100 =? 4)) eqn:Hlast.
  - apply orb_true_iff in Hlast. rewrite !Z.eqb_eq in Hlast.
    unfold valid, MINYEAR, MAXYEAR, days_in_month. cbn [year month day].
    cbn -[Z.add Z.mul Z.sub]. lia.
  - apply orb_false_iff in Hlast. destruct Hlast as [Hq1 Hq100].
    apply Z.eqb_neq in Hq1, Hq100.
    set (leap := (q1 =? 3) && (negb (q4 =? 24) || (q100 =? 3))).
    assert (Hr : 0 <= r1 < 365 + (if leap then 1 else 0)) by (destruct leap; lia).
    pose proof (month_day_spec leap r1 Hr) as Hmd.
    unfold month_day_ok in Hmd.
    destruct (month_day r1 leap) as [m d].
    rewrite !andb_true_iff in Hmd.
    destruct Hmd as [[[[Hm1 Hm2] Hd1] Hd2] Hsum].
    apply Z.leb_le in Hm1, Hm2, Hd1, Hd2.
    assert (Hleap : is_leap (q400 * 400 + 1 + q100 * 100 + q4 * 4 + q1) = leap).
    { subst leap. unfold is_leap.
      destruct (q1 =? 3) eqn:A; destruct (q4 =? 24) eqn:B;
      destruct (q100 =? 3) eqn:C; cbn [negb orb andb];
      rewrite ?Z.eqb_eq, ?Z.eqb_neq in *;
      repeat match goal with
      | |- context [?a mod ?b =? 0] => destruct (Z.eqb_spec (a mod b) 0)
      end; cbn [negb orb andb]; try reflexivity; exfalso;
      Z.div_mod_to_equations; lia. }
    unfold valid, MINYEAR, MAXYEAR, days_in_month. cbn [year month day].
    rewrite Hleap. repeat split; try lia.
    destruct ((m =? 2) && leap) eqn:E.
    + apply andb_true_iff in E as [E _]. apply Z.eqb_eq in E. subst m.
      cbn in Hd2. lia.
    + lia.
Qed.

Lemma toordinal_injective (a b : date) :
  valid a -> valid b -> toordinal a = toordinal b -> a = b.
Proof.
  intros Va Vb E.
  destruct (ltb a b) eqn:L1.
  { pose proof (ltb_toordinal_lt a b Va Vb L1). lia. }
  destruct (ltb b a) eqn:L2.
  { pose proof (ltb_toordinal_lt b a Vb Va L2). lia. }
  destruct a as [ya ma da], b as [yb mb db]. unfold ltb in L1, L2.
  cbn [year month day] in L1, L2.
  rewrite !orb_false_iff, !andb_false_iff, !orb_false_iff, !andb_false_iff,
    !Z.ltb_ge, !Z.eqb_neq in L1, L2.
  assert (ya = yb /\ ma = mb /\ da = db) as (-> & -> & ->) by lia.
  reflexivity.
Qed.

Lemma fromordinal_toordinal (d : date) : valid d -> fromordinal (toordinal d) = d.
Proof.
  intros V. pose proof (toordinal_bounds d V) as B.
  apply toordinal_injective; [now apply fromordinal_valid | exact V |].
  apply toordinal_fromordinal. lia.
Qed.

Lemma birthday_this_year_cases (today : date) (b : Field) (bd occ : date) :
  strptime (value b) = Ok bd ->
  AddressBook.birthday_this_year today b = Ok occ ->
  let this := mkdate (year today) (month bd) (day bd) in
  valid this
  /\ ((ltb this today = false /\ occ = this)
      \/ (ltb this today = true
          /\ occ = mkdate (year today + 1) (month bd) (day bd))).
Proof.
  intros Hs. unfold AddressBook.birthday_this_year. rewrite Hs. cbn [bind].
  unfold replace_year.
  destruct (make (year today) (month bd) (day bd)) as [ty|e] eqn:E1;
    cbn [bind]; [|discriminate].
  pose proof (make_valid _ _ _ _ E1) as V1.
  apply make_ok in E1 as [-> _]. cbn [month day]. intros H. cbv zeta.
  split; [exact V1|].
  destruct (ltb _ today).
  - right. split; [reflexivity|]. now apply make_ok in H as [-> _].
  - left. split; [reflexivity | congruence].
Qed.

End RoundTrip.

(** X15. The date whose day of the week [get_birthdays_per_week] takes,
    [today + timedelta(days=delta_days)], is the occurrence itself: adding
    to today the number of days from today to the occurrence never
    overflows and gives the occurrence back, so the day filed under is the
    day of the week of the occurrence. *)
Theorem occurrence_recovered_from_delta
        (today : Datetime.date) (b : Field) (occ : Datetime.date) :
  AddressBook.birthday_this_year today b = Ok occ ->
  Datetime.add_days today (Datetime.sub_days occ today) = Ok occ
  /\ AddressBook.birthday_day today (Datetime.sub_days occ today)
     = Ok (filed_under (Datetime.weekday occ)).
Proof.
  intros H. pose proof (birthday_this_year_valid _ _ _ H) as V.
  split; [|now apply birthday_day_spec].
  pose proof (toordinal_bounds occ V) as B.
  unfold Datetime.add_days, Datetime.sub_days.
  replace (Datetime.toordinal today
           + (Datetime.toordinal occ - Datetime.toordinal today))
    with (Datetime.toordinal occ) by lia.
  assert ((0 <? Datetime.toordinal occ)
          && (Datetime.toordinal occ <=? Datetime.MAXORDINAL) = true) as ->.
  { apply andb_true_iff. split; [apply Z.ltb_lt | apply Z.leb_le]; lia. }
  now rewrite fromordinal_toordinal.
Qed.

Lemma occurrence_recovered_from_delta_witness :
  Datetime.add_days new_years_eve_2024
    (Datetime.sub_days (Datetime.mkdate 2025 1 1) new_years_eve_2024)
  = Ok (Datetime.mkdate 2025 1 1)
  /\ AddressBook.birthday_day new_years_eve_2024
       (Datetime.sub_days (Datetime.mkdate 2025 1 1) new_years_eve_2024)
     = Ok (filed_under (Datetime.weekday (Datetime.mkdate 2025 1 1))).
Proof.
  apply (occurrence_recovered_from_delta new_years_eve_2024
           (mkField (PStr "01.01.1990")) (Datetime.mkdate 2025 1 1)).
  reflexivity.
Defined.

(** X16. The occurrence [birthday_this_year] returns for a stored birthday
    has the month and the day of the birthday; it is in today's year when
    that date is today or later, and in the next year when that date is
    before today; it is never before today and never more than 365 days
    after it. *)
Theorem occurrence_is_next_anniversary
        (today : Datetime.date) (b : Field) (bd occ : Datetime.date) :
  Datetime.valid today ->
  strptime (value b) = Ok bd ->
  AddressBook.birthday_this_year today b = Ok occ ->
  let this := Datetime.mkdate (Datetime.year today) (Datetime.month bd)
                              (Datetime.day bd) in
  Datetime.month occ = Datetime.month bd
  /\ Datetime.day occ = Datetime.day bd
  /\ Datetime.year occ
     = (if Datetime.ltb this today then Datetime.year today + 1
        else Datetime.year today)
  /\ 0 <= Datetime.sub_days occ today <= 365.
Proof.
  intros Ht Hs Ho. cbv zeta.
  destruct (birthday_this_year_not_past _ _ _ Ht Ho) as [Vo D].
  pose proof (birthday_this_year_cases today b bd occ Hs Ho) as C.
  cbv zeta in C. destruct C as [Vt C].
  destruct C as [[L ->] | [L ->]]; rewrite L; cbn [Datetime.year Datetime.month
                                                     Datetime.day];
    repeat split; try exact D.
  - destruct Ht as (_ & Hm & Hd). destruct Vt as (_ & Hm' & Hd').
    pose proof (day_of_year_bounds _ _ _ Hm Hd) as B1.
    pose proof (day_of_year_bounds _ _ _ Hm' Hd') as B2.
    unfold Datetime.sub_days, Datetime.toordinal, Datetime.ymd2ord.
    cbn [Datetime.year Datetime.month Datetime.day] in *.
    destruct (Datetime.is_leap (Datetime.year today)); lia.
  - pose proof (ltb_toordinal_lt _ _ Vt Ht L) as Lt.
    destruct Vo as (_ & Hm & Hd). destruct Vt as (_ & Hm' & Hd').
    cbn [Datetime.year Datetime.month Datetime.day] in *.
    pose proof (days_before_year_succ (Datetime.year today)) as S.
    unfold Datetime.sub_days, Datetime.toordinal, Datetime.ymd2ord in *.
    cbn [Datetime.year Datetime.month Datetime.day] in *.
    unfold Datetime.days_before_month in *.
    destruct (Datetime.is_leap (Datetime.year today)) eqn:L0.
    + rewrite (leap_not_twice _ L0). rewrite andb_false_r.
      destruct (2 <? Datetime.month bd); cbn [andb] in *; lia.
    + rewrite andb_false_r in Lt.
      destruct ((2 <? Datetime.month bd)
                && Datetime.is_leap (Datetime.year today + 1)); lia.
Qed.

Lemma occurrence_is_next_anniversary_witness :
  Datetime.month (Datetime.mkdate 2025 1 1) = 1
  /\ Datetime.day (Datetime.mkdate 2025 1 1) = 1
  /\ Datetime.year (Datetime.mkdate 2025 1 1) = 2024 + 1
  /\ 0 <= Datetime.sub_days (Datetime.mkdate 2025 1 1) new_years_eve_2024 <= 365.
Proof.
  refine (occurrence_is_next_anniversary new_years_eve_2024
            (mkField (PStr "01.01.1990")) (Datetime.mkdate 1990 1 1)
            (Datetime.mkdate 2025 1 1) _ eq_refl eq_refl).
  unfold Datetime.valid. vm_compute. intuition discriminate.
Defined.

(** X17. A contact whose stored birthday has the month and the day of
    today: its occurrence is today, zero days away, and when
    [get_birthdays_per_week] returns the contact is listed under today's
    day of the week (under "Monday" when today is a Saturday or a Sunday). *)
Theorem birthday_today_is_listed
        (book : AddressBook.t) (today : Datetime.date) (g : AddressBook.groups)
        (k : string) (r : PyRecord.t) (b : Field) (bd : Datetime.date) :
  Datetime.valid today ->
  AddressBook.get_birthdays_per_week book today = Ok g ->
  In (k, r) (AddressBook.data book) ->
  PyRecord.birthday r = Some b ->
  strptime (value b) = Ok bd ->
  Datetime.month bd = Datetime.month today ->
  Datetime.day bd = Datetime.day today ->
  AddressBook.birthday_this_year today b = Ok today
  /\ Datetime.sub_days today today = 0
  /\ listed (filed_under (Datetime.weekday today)) (name_of r) g.
Proof.
  intros Ht Hg Hin Hb Hs Hm Hd.
  assert (Ho : AddressBook.birthday_this_year today b = Ok today).
  { unfold AddressBook.birthday_this_year. rewrite Hs. cbn [bind].
    unfold Datetime.replace_year. rewrite Hm, Hd.
    destruct today as [y m d]. destruct Ht as (Hy & Hmm & Hdd).
    unfold Datetime.MINYEAR, Datetime.MAXYEAR in Hy.
    cbn [Datetime.year Datetime.month Datetime.day] in *.
    unfold Datetime.make, Datetime.check_date_fields, Datetime.MINYEAR,
      Datetime.MAXYEAR.
    assert (((y <? 1) || (9999 <? y)) = false) as ->
      by (apply orb_false_iff; split; apply Z.ltb_ge; lia).
    assert (((m <? 1) || (12 <? m)) = false) as ->
      by (apply orb_false_iff; split; apply Z.ltb_ge; lia).
    assert (((d <? 1) || (Datetime.days_in_month y m <? d)) = false) as ->
      by (apply orb_false_iff; split; apply Z.ltb_ge; lia).
    cbn [bind]. unfold Datetime.ltb. cbn [Datetime.year Datetime.month Datetime.day].
    now rewrite !Z.ltb_irrefl, !Z.eqb_refl. }
  assert (Hz : Datetime.sub_days today today = 0)
    by (unfold Datetime.sub_days; lia).
  repeat split; [exact Ho | exact Hz |].
  assert (Hr : In r (AddressBook.values book))
    by (unfold AddressBook.values; apply in_map_iff; now exists (k, r)).
  unfold AddressBook.get_birthdays_per_week in Hg.
  apply (visit_all_listed today _ r b today Hr Hb Ho ltac:(lia) [] g Hg).
Qed.

Lemma birthday_today_is_listed_witness :
  AddressBook.birthday_this_year (Datetime.mkdate 2025 1 1)
    (mkField (PStr "01.01.1990")) = Ok (Datetime.mkdate 2025 1 1)
  /\ Datetime.sub_days (Datetime.mkdate 2025 1 1) (Datetime.mkdate 2025 1 1) = 0
  /\ listed (filed_under (Datetime.weekday (Datetime.mkdate 2025 1 1)))
            (PStr "John") [("Wednesday", [PStr "John"])].
Proof.
  refine (birthday_today_is_listed book_new_year (Datetime.mkdate 2025 1 1)
            [("Wednesday", [PStr "John"])] "John"
            (snd (contact "John" "1234567890" "01.01.1990"))
            (mkField (PStr "01.01.1990")) (Datetime.mkdate 1990 1 1)
            _ eq_refl (or_introl eq_refl) eq_refl eq_refl eq_refl eq_refl).
  unfold Datetime.valid. vm_compute. intuition discriminate.
Defined.

(* ================================================================= *)
(** ** The methods of a record *)

Section Methods.

Lemma py_eqb_eq (v w : pyval) : py_eqb v w = true <-> v = w.
Proof.
  destruct v as [s|l], w as [t|k]; simpl; try (split; [discriminate | congruence]).
  - rewrite String.eqb_eq. split; congruence.
  - destruct (list_eq_dec string_dec l k); split; congruence.
Qed.

Lemma py_eqb_neq (v w : pyval) : py_eqb v w = false <-> v <> w.
Proof.
  rewrite <- py_eqb_eq. destruct (py_eqb v w); split; congruence.
Qed.

Lemma filter_all {A : Type} (f : A -> bool) (l : list A) :
  (forall x, In x l -> f x = true) -> filter f l = l.
Proof.
  induction l as [|x l IH]; simpl; intros H; [reflexivity|].
  rewrite (H x (or_introl eq_refl)). f_equal. apply IH. intros y Hy. apply H.
  now right.
Qed.

Lemma map_unchanged {A : Type} (f : A -> A) (l : list A) :
  (forall x, In x l -> f x = x) -> map f l = l.
Proof.
  induction l as [|x l IH]; simpl; intros H; [reflexivity|].
  rewrite (H x (or_introl eq_refl)). f_equal. apply IH. intros y Hy. apply H.
  now right.
Qed.

End Methods.


(** X19. [add_phone] followed by [remove_phone]: when [Phone] accepts the
    number and the record does not hold it yet, [add_phone] puts it last,
    after the phones the record had, and [remove_phone] of that number
    gives the record back as it was. *)
Theorem add_phone_then_remove (r : PyRecord.t) (p : pyval) (f : Field) :
  Phone p = Ok f ->
  (forall g, In g (PyRecord.phones r) -> value g <> p) ->
  exists r1,
    PyRecord.add_phone r p = Ok r1
    /\ PyRecord.phones r1 = (PyRecord.phones r ++ [mkField p])%list
    /\ PyRecord.remove_phone r1 p = r.
Proof.
  intros HP Habs. pose proof (Phone_ok _ _ HP) as ->.
  unfold PyRecord.add_phone. rewrite HP. cbn [bind]. eexists.
  split; [reflexivity|]. split; [reflexivity|].
  unfold PyRecord.remove_phone. cbn [PyRecord.name PyRecord.phones PyRecord.birthday].
  rewrite filter_app. cbn [filter value]. rewrite py_eqb_refl. cbn [negb].
  rewrite app_nil_r, filter_all; [now destruct r|].
  intros g Hg. now apply negb_true_iff, py_eqb_neq, Habs.
Qed.

Lemma add_phone_then_remove_witness :
  exists r1,
    PyRecord.add_phone john (PStr "0987654321") = Ok r1
    /\ PyRecord.phones r1
       = (PyRecord.phones john ++ [mkField (PStr "0987654321")])%list
    /\ PyRecord.remove_phone r1 (PStr "0987654321") = john.
Proof.
  apply (add_phone_then_remove john (PStr "0987654321")
           (mkField (PStr "0987654321"))).
  - reflexivity.
  - intros g [<- | []]. discriminate.
Defined.

(** X20. [edit_phone], position by position: a phone whose value is the
    old one holds the new value afterwards, at the same place, and a phone
    with another value stays as it is, at the same place; so the number of
    phones never changes, and neither do the name and the birthday. When no
    phone has the old value the record is as before, and when the new value
    differs from the old one no phone has the old value afterwards. The new
    value is stored as given, whatever it is. *)
Theorem edit_phone_replaces_by_value (r : PyRecord.t) (old new : pyval) :
  let r' := PyRecord.edit_phone r old new in
  List.length (PyRecord.phones r') = List.length (PyRecord.phones r)
  /\ PyRecord.name r' = PyRecord.name r
  /\ PyRecord.birthday r' = PyRecord.birthday r
  /\ (forall i f, nth_error (PyRecord.phones r) i = Some f ->
        (value f = old ->
         nth_error (PyRecord.phones r') i = Some (mkField new))
        /\ (value f <> old -> nth_error (PyRecord.phones r') i = Some f))
  /\ (forall i, nth_error (PyRecord.phones r) i = None ->
                nth_error (PyRecord.phones r') i = None)
  /\ ((forall f, In f (PyRecord.phones r) -> value f <> old) -> r' = r)
  /\ (new <> old -> forall f, In f (PyRecord.phones r') -> value f <> old).
Proof.
  cbv zeta. unfold PyRecord.edit_phone.
  cbn [PyRecord.name PyRecord.birthday PyRecord.phones].
  split; [apply length_map|]. split; [reflexivity|]. split; [reflexivity|].
  split; [|split; [|split]].
  - intros i f Hi. rewrite nth_error_map, Hi. cbn [option_map]. split.
    + intros Hv. apply py_eqb_eq in Hv. now rewrite Hv.
    + intros Hv. apply py_eqb_neq in Hv. now rewrite Hv.
  - intros i Hi. now rewrite nth_error_map, Hi.
  - intros Habs. rewrite map_unchanged; [now destruct r|].
    intros f Hf. apply Habs, py_eqb_neq in Hf. now rewrite Hf.
  - intros Hn f Hf. apply in_map_iff in Hf as (g & <- & Hg).
    destruct (py_eqb (value g) old) eqn:E; [exact Hn | now apply py_eqb_neq].
Qed.

(* ================================================================= *)
(** ** Lines typed at the prompt *)

Section Prompt.

Lemma print_fst (x : AddressBook.t * result string) : fst (print x) = fst x.
Proof. destruct x as [b [reply|e]]; reflexivity. Qed.

Lemma split_go_nil (cs cur : list ascii) :
  Py.split_go cs cur = [] <-> cur = [] /\ forallb Py.isspace cs = true.
Proof.
  revert cur. induction cs as [|c cs IH]; intros cur; simpl.
  - destruct cur; simpl; split; try tauto; try discriminate.
    intros [H _]. discriminate.
  - destruct (Py.isspace c); simpl.
    + destruct cur as [|x cur]; simpl.
      * rewrite IH. tauto.
      * split; [discriminate | intros [H _]; discriminate].
    + rewrite IH. split; [intros [H _]; discriminate | intros [_ H]; discriminate].
Qed.

Lemma chars_of_list (l : list ascii) : Py.chars (string_of_list_ascii l) = l.
Proof. apply list_ascii_of_string_of_list_ascii. Qed.

Lemma existsb_rev {A : Type} (f : A -> bool) (l : list A) :
  existsb f (rev l) = existsb f l.
Proof.
  destruct (existsb f l) eqn:E.
  - apply existsb_exists in E as (x & Hx & Hf). apply existsb_exists.
    exists x. split; [now apply in_rev in Hx | exact Hf].
  - destruct (existsb f (rev l)) eqn:E'; [|reflexivity].
    apply existsb_exists in E' as (x & Hx & Hf).
    apply in_rev in Hx.
    assert (existsb f l = true) by (apply existsb_exists; now exists x).
    congruence.
Qed.

Lemma flush_words (cur : list ascii) (k : list string) :
  existsb Py.isspace cur = false -> Forall word k -> Forall word (Py.flush cur k).
Proof.
  intros Hc Hk. destruct cur as [|c cur]; [exact Hk|]. cbn [Py.flush].
  constructor; [|exact Hk]. split.
  - intros E. apply (f_equal Py.chars) in E. rewrite chars_of_list in E.
    cbn [Py.chars list_ascii_of_string] in E.
    apply (f_equal (@List.length ascii)) in E. rewrite length_rev in E.
    discriminate.
  - now rewrite chars_of_list, existsb_rev.
Qed.

Lemma split_go_words (cs cur : list ascii) :
  existsb Py.isspace cur = false -> Forall word (Py.split_go cs cur).
Proof.
  revert cur. induction cs as [|c cs IH]; intros cur Hc; simpl.
  - now apply flush_words.
  - destruct (Py.isspace c) eqn:E.
    + apply flush_words; [exact Hc | now apply IH].
    + apply IH. simpl. now rewrite E.
Qed.

Lemma lstrip_word (w : string) :
  existsb Py.isspace (Py.chars w) = false -> Py.lstrip w = w.
Proof.
  destruct w as [|c w]; simpl; [reflexivity|].
  destruct (Py.isspace c); [discriminate | reflexivity].
Qed.

Lemma rstrip_word (w : string) :
  existsb Py.isspace (Py.chars w) = false -> Py.rstrip w = w.
Proof.
  induction w as [|c w IH]; simpl; [reflexivity|].
  destruct (Py.isspace c) eqn:E; [discriminate|]. simpl. intros H.
  rewrite (IH H). now destruct w.
Qed.

End Prompt.

(** X21. [parse_input] raises exactly on the lines that have no character
    or white space only, and the exception is the [ValueError] of the
    unpacking. On every other line it returns the first word in lower case
    as the command and the other words as the arguments; each word has at
    least one character and no white space, so that [strip] changes nothing
    of the command. *)
Theorem parse_input_fails_on_blank_lines (line : string) :
  (parse_input line = Raise unpack_empty_line <-> blank line = true)
  /\ (blank line = false <->
      exists w ws, Py.split line = w :: ws
                   /\ parse_input line = Ok (Py.lower w, ws)
                   /\ Forall word (w :: ws)).
Proof.
  unfold parse_input, blank, Py.split.
  pose proof (split_go_nil (Py.chars line) []) as N.
  pose proof (split_go_words (Py.chars line) [] eq_refl) as W.
  destruct (Py.split_go (Py.chars line) []) as [|w ws] eqn:E.
  - assert (B : forallb Py.isspace (Py.chars line) = true) by (now apply N).
    rewrite B. split; [tauto|]. split; [discriminate|].
    intros (w & ws & H & _). discriminate.
  - assert (B : forallb Py.isspace (Py.chars line) = false).
    { destruct (forallb Py.isspace (Py.chars line)); [|reflexivity].
      destruct N as [_ N]. discriminate N. now split. }
    rewrite B. split; [split; discriminate|]. split; [|reflexivity].
    intros _. exists w, ws. split; [reflexivity|]. split; [|exact W].
    inversion W as [|? ? [_ Hw] _]; subst.
    unfold Py.strip. now rewrite (lstrip_word w Hw), (rstrip_word w Hw).
Qed.

(** X22. Whatever line is typed at the prompt of [main], the book after the
    turn of the loop is the book before it: no command of the loop stores,
    changes or removes a contact. *)
Theorem prompt_never_changes_the_book
        (today : Datetime.date) (line : string) (book : AddressBook.t) :
  fst (main_step today line book) = book.
Proof.
  unfold main_step.
  destruct (parse_input line) as [[cmd words]|e]; [|reflexivity].
  repeat match goal with
  | |- context [if ?c then _ else _] => destruct c
  end; try reflexivity; rewrite print_fst.
  - apply (reads_keep_book today ShowAll book eq_refl).
  - apply (reads_keep_book today Birthdays book eq_refl).
Qed.

(** X23. At the prompt of [main], the commands [add], [change] and
    [add-birthday] are answered with the text of the [ValueError] of the
    unpacking, whatever words follow them: the handler is given one
    argument, the list of the words. *)
Theorem prompt_cannot_store
        (today : Datetime.date) (line cmd : string) (words : list string)
        (book : AddressBook.t) :
  parse_input line = Ok (cmd, words) ->
  In cmd pair_commands ->
  main_step today line book = (book, Printed (unpack_short "1")).
Proof.
  intros H Hc. unfold main_step. rewrite H.
  destruct Hc as [<- | [<- | [<- | []]]]; reflexivity.
Qed.

Lemma prompt_cannot_store_witness :
  main_step new_years_eve_2024 "add John 1234567890" AddressBook.empty
  = (AddressBook.empty, Printed (unpack_short "1")).
Proof.
  apply (prompt_cannot_store new_years_eve_2024 "add John 1234567890" "add"
           ["John"; "1234567890"] AddressBook.empty).
  - reflexivity.
  - left. reflexivity.
Defined.

(** X24. At the prompt of [main], the commands [phone] and [show-birthday]
    end the process with a [TypeError], whatever words follow them and
    whatever the book holds: the name the handler looks up is a list. *)
Theorem prompt_lookup_ends_the_process
        (today : Datetime.date) (line cmd : string) (words : list string)
        (book : AddressBook.t) :
  parse_input line = Ok (cmd, words) ->
  In cmd name_commands ->
  main_step today line book = (book, Crash AddressBook.unhashable)
  /\ forall rest, main_loop today (line :: rest) book
                  = ([], Died AddressBook.unhashable).
Proof.
  intros H Hc.
  assert (E : main_step today line book = (book, Crash AddressBook.unhashable)).
  { unfold main_step. rewrite H. destruct Hc as [<- | [<- | []]]; reflexivity. }
  split; [exact E|]. intros rest. cbn [main_loop]. now rewrite E.
Qed.

Lemma prompt_lookup_ends_the_process_witness :
  main_step new_years_eve_2024 "show-birthday John" book_new_year
  = (book_new_year, Crash AddressBook.unhashable)
  /\ forall rest, main_loop new_years_eve_2024 ("show-birthday John" :: rest)
                            book_new_year
                  = ([], Died AddressBook.unhashable).
Proof.
  apply (prompt_lookup_ends_the_process new_years_eve_2024 "show-birthday John"
           "show-birthday" ["John"] book_new_year).
  - reflexivity.
  - right. left. reflexivity.
Defined.

(* ================================================================= *)
(** ** Handlers called as annotated always reply *)

Section Replies.

Lemma input_error_replies {X : Type} (func : body X) (args : X)
      (book : AddressBook.t) :
  (forall e, func args book = Raise e -> caught e) ->
  exists reply, snd (input_error func args book) = Ok reply.
Proof.
  intros H. unfold input_error.
  destruct (func args book) as [[book' reply]|e] eqn:E.
  - now exists reply.
  - specialize (H e eq_refl). destruct e; try contradiction; eexists; reflexivity.
Qed.

Lemma str_items_ok (l : list pyval) (i : Z) :
  forallb is_str l = true -> exists items, str_items i l = Ok items.
Proof.
  revert i. induction l as [|[s|k] l IH]; simpl; intros i H.
  - now exists [].
  - destruct (IH (i + 1) H) as [items E]. rewrite E. cbn [bind]. eexists.
    reflexivity.
  - discriminate.
Qed.

Lemma birthday_lines_ok (g : AddressBook.groups) (acc : string) :
  str_names g -> exists text, birthday_lines g acc = Ok text.
Proof.
  revert acc. induction g as [|[day names] g IH]; simpl; intros acc H.
  - now exists acc.
  - inversion H as [|? ? Hn Hg]; subst. cbn [snd] in Hn.
    unfold join_values. destruct (str_items_ok names 0 Hn) as [items E].
    rewrite E. cbn [bind]. now apply IH.
Qed.

Lemma str_names_append (k : string) (v : pyval) (g : AddressBook.groups) :
  is_str v = true -> str_names g -> str_names (AddressBook.append k v g).
Proof.
  intros Hv. unfold str_names.
  induction g as [|[k0 l] g IH]; simpl; intros H.
  - constructor; [|constructor]. cbn. now rewrite Hv.
  - inversion H as [|? ? Hl Hg]; subst. cbn [snd] in Hl.
    destruct (String.eqb k k0); constructor; cbn [snd]; try assumption.
    + rewrite forallb_app, Hl. cbn. now rewrite Hv.
    + now apply IH.
Qed.

(** The loop over records whose names are strings and whose birthdays were
    accepted returns groups of strings, or raises a [ValueError]. *)
Lemma visit_all_replies (today : Datetime.date) (rs : list PyRecord.t) :
  Datetime.valid today ->
  (forall r, In r rs ->
     is_str (name_of r) = true
     /\ forall b, PyRecord.birthday r = Some b ->
                  exists d, strptime (value b) = Ok d) ->
  forall acc, str_names acc ->
    (exists g, AddressBook.visit_all today rs acc = Ok g /\ str_names g)
    \/ (exists msg, AddressBook.visit_all today rs acc = Raise (ValueError msg)).
Proof.
  intros Ht. induction rs as [|r rs IH]; intros Hall acc Hacc; simpl.
  - left. now exists acc.
  - destruct (Hall r (or_introl eq_refl)) as [Hn Hb].
    destruct (visit_cases today r acc Ht Hb) as [[acc' E] | (msg & E & _)];
      rewrite E; cbn [bind].
    + apply IH; [intros r' Hr'; apply Hall; now right|].
      destruct (visit_step _ _ _ _ E) as [-> | (w & _ & ->)]; [exact Hacc|].
      now apply str_names_append.
    + right. now exists msg.
Qed.

Lemma forallb_two (a b : pyval) (l : list pyval) :
  forallb is_str (a :: b :: l) = true ->
  exists s t, a = PStr s /\ b = PStr t.
Proof.
  destruct a as [s|], b as [t|]; simpl; try discriminate.
  intros _. now exists s, t.
Qed.

Lemma add_contact_caught (args : list pyval) (book : AddressBook.t) (e : exn) :
  forallb is_str args = true -> add_contact_body args book = Raise e -> caught e.
Proof.
  intros Hs. unfold add_contact_body.
  destruct args as [|a [|b [|c args]]]; cbn [unpack2 bind];
    try (intros [= <-]; exact I).
  destruct (forallb_two a b [] Hs) as (s & t & -> & ->).
  unfold PyRecord.add_phone.
  destruct (Phone (PStr t)) as [f|e'] eqn:F; cbn [bind].
  - discriminate.
  - intros [= <-]. apply Phone_raises in F as ->. exact I.
Qed.

Lemma change_contact_caught (args : list pyval) (book : AddressBook.t) (e : exn) :
  forallb is_str args = true ->
  change_contact_body args book = Raise e -> caught e.
Proof.
  intros Hs. unfold change_contact_body.
  destruct args as [|a [|b [|c args]]]; cbn [unpack2 bind];
    try (intros [= <-]; exact I).
  destruct (forallb_two a b [] Hs) as (s & t & -> & ->).
  unfold AddressBook.find, rebind. cbn [AddressBook.key bind].
  destruct (AddressBook.lookup s (AddressBook.data book)) as [r|]; [|discriminate].
  destruct (PyRecord.phones r) as [|first rest]; cbn [index0 bind];
    [intros [= <-]; exact I | discriminate].
Qed.

Lemma show_phone_caught (args : list pyval) (book : AddressBook.t) (e : exn) :
  forallb is_str args = true -> show_phone_body args book = Raise e -> caught e.
Proof.
  intros Hs. unfold show_phone_body.
  destruct args as [|[s|l] args]; cbn [index0 bind];
    [intros [= <-]; exact I | | discriminate].
  unfold AddressBook.find. cbn [AddressBook.key bind].
  destruct (AddressBook.lookup s (AddressBook.data book)) as [r|]; [|discriminate].
  destruct (PyRecord.phones r) as [|first rest]; cbn [index0 bind];
    [intros [= <-]; exact I | discriminate].
Qed.

Lemma add_birthday_caught (args : list pyval) (book : AddressBook.t) (e : exn) :
  forallb is_str args = true ->
  add_birthday_body args book = Raise e -> caught e.
Proof.
  intros Hs. unfold add_birthday_body.
  destruct args as [|a [|b [|c args]]]; cbn [unpack2 bind];
    try (intros [= <-]; exact I).
  destruct (forallb_two a b [] Hs) as (s & t & -> & ->).
  unfold AddressBook.find, rebind. cbn [AddressBook.key bind].
  destruct (AddressBook.lookup s (AddressBook.data book)) as [r|]; [|discriminate].
  unfold PyRecord.add_birthday.
  destruct (Birthday_str_cases t) as [[E _] | E]; rewrite E; cbn [bind];
    [discriminate | intros [= <-]; exact I].
Qed.

Lemma show_birthday_caught (args : list pyval) (book : AddressBook.t) (e : exn) :
  forallb is_str args = true ->
  show_birthday_body args book = Raise e -> caught e.
Proof.
  intros Hs. unfold show_birthday_body.
  destruct args as [|[s|l] args]; cbn [index0 bind];
    [intros [= <-]; exact I | | discriminate].
  unfold AddressBook.find. cbn [AddressBook.key bind].
  destruct (AddressBook.lookup s (AddressBook.data book)) as [r|]; [|discriminate].
  destruct (PyRecord.birthday r); discriminate.
Qed.

Lemma show_birthdays_caught (today : Datetime.date) (book : AddressBook.t) (e : exn) :
  Datetime.valid today -> well_formed book -> birthdays_checked book ->
  show_birthdays_body today tt book = Raise e -> caught e.
Proof.
  intros Ht [_ W] Hc. unfold show_birthdays_body,
    AddressBook.get_birthdays_per_week.
  destruct (visit_all_replies today (AddressBook.values book) Ht) with (acc := @nil (string * list pyval))
    as [(g & E & Hg) | (msg & E)].
  - intros r Hr. split.
    + unfold AddressBook.values in Hr. apply in_map_iff in Hr as ([k r'] & <- & Hin).
      destruct (W k r' Hin) as [Hn _]. unfold name_of. cbn [snd]. now rewrite Hn.
    + intros b Hb. now apply (Hc r b).
  - constructor.
  - rewrite E. cbn [bind]. destruct g as [|x g]; [discriminate|].
    destruct (birthday_lines_ok (x :: g) (birthdays_header ++ nl) Hg) as [text T].
    rewrite T. discriminate.
  - rewrite E. cbn [bind]. intros [= <-]. exact I.
Qed.

End Replies.

(** X25. A handler called as its annotation describes, with a list of
    strings, on a book that is as the handlers leave it, always returns a
    reply: no exception leaves [input_error]. ([today] is a date of the
    calendar.) *)
Theorem handler_called_as_annotated_replies
        (today : Datetime.date) (c : call) (book : AddressBook.t) :
  Datetime.valid today ->
  well_formed book ->
  birthdays_checked book ->
  str_call c = true ->
  exists reply, snd (perform today c book) = Ok reply.
Proof.
  intros Ht Hw Hc Hs. destruct c; cbn [perform str_call] in *.
  - apply input_error_replies. intros e. now apply add_contact_caught.
  - apply input_error_replies. intros e. now apply change_contact_caught.
  - apply input_error_replies. intros e. now apply show_phone_caught.
  - apply input_error_replies. intros e. unfold show_all_body.
    destruct (AddressBook.data book); discriminate.
  - apply input_error_replies. intros e. now apply add_birthday_caught.
  - apply input_error_replies. intros e. now apply show_birthday_caught.
  - apply input_error_replies. intros e. now apply show_birthdays_caught.
Qed.

Lemma handler_called_as_annotated_replies_witness :
  exists reply,
    snd (perform new_years_eve_2024 Birthdays book_leap_day) = Ok reply.
Proof.
  refine (handler_called_as_annotated_replies new_years_eve_2024 Birthdays
            book_leap_day _ _ _ eq_refl).
  - unfold Datetime.valid. vm_compute. intuition discriminate.
  - split.
    + repeat constructor; simpl; intuition discriminate.
    + intros k r [[= <- <-] | [[= <- <-] | []]];
        (split; [reflexivity | eexists; reflexivity]).
  - intros r b [<- | [<- | []]] [= <-]; eexists; reflexivity.
Defined.

(** X26. So from the empty book, every call made as annotated gets a reply,
    after any calls made as annotated before it. *)
Theorem calls_as_annotated_always_reply
        (today : Datetime.date) (cs : list call) (c : call) :
  Datetime.valid today ->
  str_call c = true ->
  exists reply, snd (perform today c (run today cs AddressBook.empty)) = Ok reply.
Proof.
  intros Ht Hs.
  assert (Hw : well_formed (run today cs AddressBook.empty))
    by (apply run_well_formed_from, empty_well_formed).
  pose proof (run_checked today cs) as Hc.
  destruct c; cbn [perform str_call] in *; apply input_error_replies; intros e.
  - now apply add_contact_caught.
  - now apply change_contact_caught.
  - now apply show_phone_caught.
  - unfold show_all_body. destruct (AddressBook.data _); discriminate.
  - now apply add_birthday_caught.
  - now apply show_birthday_caught.
  - now apply show_birthdays_caught.
Qed.

Lemma calls_as_annotated_always_reply_witness :
  exists reply,
    snd (perform new_years_eve_2024 Birthdays
           (run new_years_eve_2024
                [Add (strs ["Bob"; "0987654321"]);
                 AddBirthday (strs ["Bob"; "29.02.2000"])]
                AddressBook.empty)) = Ok reply.
Proof.
  refine (calls_as_annotated_always_reply new_years_eve_2024 _ Birthdays _ eq_refl).
  unfold Datetime.valid. vm_compute. intuition discriminate.
Defined.

(** X27. Every birthday in a book built by calls of the handlers from the
    empty book is a string that reads as a valid calendar date, whatever the
    arguments of the calls were. *)
Theorem stored_birthdays_are_dates
        (today : Datetime.date) (cs : list call) (r : PyRecord.t) (b : Field) :
  In r (AddressBook.values (run today cs AddressBook.empty)) ->
  PyRecord.birthday r = Some b ->
  exists s d, value b = PStr s /\ strptime (PStr s) = Ok d /\ Datetime.valid d.
Proof.
  intros Hr Hb. destruct (run_checked today cs r b Hr Hb) as [d E].
  destruct (value b) as [s|l]; [|discriminate].
  exists s, d. split; [reflexivity|]. split; [exact E|].
  now apply strptime_valid in E.
Qed.

Lemma stored_birthdays_are_dates_witness :
  exists s d, value (mkField (PStr "01.01.1990")) = PStr s
              /\ strptime (PStr s) = Ok d /\ Datetime.valid d.
Proof.
  apply (stored_birthdays_are_dates new_years_eve_2024
           [Add (strs ["John"; "1234567890"]);
            AddBirthday (strs ["John"; "01.01.1990"])]
           (snd (contact "John" "1234567890" "01.01.1990"))
           (mkField (PStr "01.01.1990"))).
  - left. reflexivity.
  - reflexivity.
Defined.
